(** * vaex.encoding: wire encoding of computation results

    A shallow embedding of [packages/vaex-core/vaex/encoding.py]: the codec
    registry, the [Encoding] session with its blob table, the value codecs
    and the two functions [_pack_blobs] / [_unpack_blobs] that frame the
    binary envelope, followed by the properties proved about them.

    Conventions.  Python [int] is [Z]; [bytes] is [list byte]; [str] is a
    Rocq [string] holding the UTF-8 form of the text; a [dict] is an
    association list in insertion order; a raised exception is the [Raise]
    branch of [result].  Library calls (json, numpy, pyarrow, uuid) that the
    module relies on are collected in interfaces, one class per library. *)

From Stdlib Require Import ZArith List String Ascii Lia DecimalString.
From stdpp Require Import base list strings gmap.
From coqutil Require Import Byte Word.LittleEndianList.
Import ListNotations.
Local Open Scope Z_scope.

(** ** Exceptions and results *)

Inductive exception : Type :=
| AssertionError
| KeyError (key : option string)
| IndexError
| ValueError
| TypeError
| OverflowError
| struct_error
| UnicodeDecodeError
| AttributeError
| RecursionError
| MaskError.

Inductive result (A : Type) : Type :=
| Ok (a : A)
| Raise (e : exception).
Arguments Ok {A} a.
Arguments Raise {A} e.

#[global] Instance result_ret : MRet result := fun _ a => Ok a.
#[global] Instance result_bind : MBind result := fun _ _ f r =>
  match r with
  | Ok a => f a
  | Raise e => Raise e
  end.
#[global] Instance result_fmap : FMap result := fun _ _ f r =>
  match r with
  | Ok a => Ok (f a)
  | Raise e => Raise e
  end.

Definition is_Ok {A} (r : result A) : Prop := exists a, r = Ok a.

(** [assert cond] *)
Definition py_assert (cond : bool) : result unit :=
  if cond then Ok tt else Raise AssertionError.

(** ** Sequences: [len], indexing and slicing *)

Abbreviation pybytes := (list byte).

Definition len {A} (l : list A) : Z := Z.of_nat (length l).

(** [l[i]] for an integer [i]: a negative index counts from the end. *)
Definition py_index {A} (l : list A) (i : Z) : result A :=
  let j := if i <? 0 then i + len l else i in
  if j <? 0 then Raise IndexError
  else match nth_error l (Z.to_nat j) with
       | Some x => Ok x
       | None => Raise IndexError
       end.

(** Bound of a slice, clamped the way [slice.indices] does for step 1. *)
Definition slice_bound (n : Z) (default : Z) (i : option Z) : Z :=
  match i with
  | None => default
  | Some i => if i <? 0 then Z.max (i + n) 0 else Z.min i n
  end.

(** [l[start:stop]] *)
Definition py_slice {A} (l : list A) (start stop : option Z) : list A :=
  let n := len l in
  let lo := slice_bound n 0 start in
  let hi := slice_bound n n stop in
  firstn (Z.to_nat (hi - lo)) (skipn (Z.to_nat lo) l).

(** [zip(a, b)] stops at the shorter argument. *)
Fixpoint py_zip {A B} (a : list A) (b : list B) : list (A * B) :=
  match a, b with
  | x :: a', y :: b' => (x, y) :: py_zip a' b'
  | _, _ => []
  end.

(** ** [struct]: 8-byte signed words in native byte order *)

Inductive byteorder : Type := LittleEndian | BigEndian.

(** The machine the interpreter runs on. *)
Class Platform : Type := { native_order : byteorder }.

Definition int64_min : Z := - 2 ^ 63.
Definition int64_max : Z := 2 ^ 63 - 1.
Definition in_int64 (z : Z) : bool := (int64_min <=? z) && (z <=? int64_max).

(** Two's complement reading of an unsigned 64-bit value. *)
Definition int64_signed (u : Z) : Z := if u <? 2 ^ 63 then u else u - 2 ^ 64.

(** Wrap-around of a fixed-width signed 64-bit integer. *)
Definition int64_wrap (z : Z) : Z := int64_signed (z mod 2 ^ 64).

Definition pack_q `{Platform} (z : Z) : pybytes :=
  match native_order with
  | LittleEndian => le_split 8 z
  | BigEndian => rev (le_split 8 z)
  end.

Definition unpack_q `{Platform} (b : pybytes) : Z :=
  match native_order with
  | LittleEndian => int64_signed (le_combine b)
  | BigEndian => int64_signed (le_combine (rev b))
  end.

(** [struct.pack(f'{n}q', *vals)] *)
Definition struct_pack_q `{Platform} (n : Z) (vals : list Z) : result pybytes :=
  if negb (n =? len vals) then Raise struct_error
  else if negb (forallb in_int64 vals) then Raise struct_error
  else Ok (concat (map pack_q vals)).

Fixpoint unpack_words `{Platform} (n : nat) (b : pybytes) : list Z :=
  match n with
  | O => []
  | S n' => unpack_q (firstn 8 b) :: unpack_words n' (skipn 8 b)
  end.

(** [struct.unpack(f'{n}q', b)]: a negative repeat count is a bad format,
    and the buffer must hold exactly [8*n] bytes. *)
Definition struct_unpack_q `{Platform} (n : Z) (b : pybytes) : result (list Z) :=
  if n <? 0 then Raise struct_error
  else if negb (len b =? 8 * n) then Raise struct_error
  else Ok (unpack_words (Z.to_nat n) b).

(** ** [io.BytesIO] *)

Record BytesIO : Type := mkBytesIO { getvalue : pybytes; tell : nat }.

Definition BytesIO_new (initial : pybytes) : BytesIO :=
  {| getvalue := initial; tell := 0 |}.

(** [stream.read(size)]: at most [size] bytes from the position, all of the
    rest for a negative [size]; a size that does not fit [Py_ssize_t] is
    refused. *)
Definition BytesIO_read (size : Z) (s : BytesIO) : result (pybytes * BytesIO) :=
  if negb (in_int64 size) then Raise OverflowError
  else
    let rest := skipn (tell s) (getvalue s) in
    let out := if size <? 0 then rest else firstn (Z.to_nat size) rest in
    Ok (out, {| getvalue := getvalue s; tell := (tell s + length out)%nat |}).

(** [stream.write(b)]: overwrite at the position, extending the buffer. *)
Definition BytesIO_write (b : pybytes) (s : BytesIO) : BytesIO :=
  {| getvalue := firstn (tell s) (getvalue s) ++ b
                 ++ skipn (tell s + length b) (getvalue s);
     tell := (tell s + length b)%nat |}.

(** ** numpy integer arrays used for the offsets

    [np.cumsum] over a list of Python ints works on 64-bit signed integers
    and wraps silently. *)

Fixpoint np_cumsum_from (acc : Z) (l : list Z) : list Z :=
  match l with
  | [] => []
  | x :: l' => let a := int64_wrap (acc + x) in a :: np_cumsum_from a l'
  end.

Definition np_cumsum (l : list Z) : list Z := np_cumsum_from 0 l.

(** [a + k] for an int64 array [a] and a Python int [k]. *)
Definition np_add (a : list Z) (k : Z) : list Z :=
  map (fun x => int64_wrap (x + k)) a.

(** ** The binary envelope: [_pack_blobs] and [_unpack_blobs] *)

Definition _pack_blobs `{Platform} (blobs : list pybytes) : result pybytes :=
  let count := len blobs in
  let lenghts := map len blobs in
  let stream := BytesIO_new [] in
  let header_length := 8 * (2 + count) in
  let offsets := np_add (np_cumsum (0 :: lenghts)) header_length in
  header ← struct_pack_q (count + 2) (count :: offsets);
  let stream := BytesIO_write header stream in
  let stream := fold_left (fun s blob => BytesIO_write blob s) blobs stream in
  let bytes := getvalue stream in
  last ← py_index offsets (-1);
  py_assert (last =? len bytes);;
  Ok bytes.

Definition _unpack_blobs `{Platform} (bytes : pybytes) : result (list pybytes) :=
  let stream := BytesIO_new bytes in
  '(word, stream) ← BytesIO_read 8 stream;
  unpacked ← struct_unpack_q 1 word;
  count ← py_index unpacked 0;
  '(words, stream) ← BytesIO_read (8 * (count + 1)) stream;
  offsets ← struct_unpack_q (count + 1) words;
  last ← py_index offsets (-1);
  py_assert (last =? len bytes);;
  Ok (map (fun '(i1, i2) => py_slice bytes (Some i1) (Some i2))
          (py_zip (py_slice offsets None (Some (-1)))
                  (py_slice offsets (Some 1) None))).

(** The [count+1] offsets written in the header of an envelope. *)
Definition header_offsets `{Platform} (bytes : pybytes) : result (list Z) :=
  unpacked ← struct_unpack_q 1 (py_slice bytes (Some 0) (Some 8));
  count ← py_index unpacked 0;
  struct_unpack_q (count + 1) (py_slice bytes (Some 8) (Some (8 * (count + 2)))).

(** ** [str] and [bytes]: UTF-8

    A [str] is kept as the bytes of its UTF-8 form, so [s.encode('utf8')]
    is the identity on the representation and [b.decode('utf8')] checks that
    [b] is well-formed UTF-8 (Unicode, table 3-7). *)

Definition byte_in (lo hi : Z) (x : byte) : bool :=
  (lo <=? byte.unsigned x) && (byte.unsigned x <=? hi).

Definition utf8_tail (x : byte) : bool := byte_in 128 191 x.

Fixpoint utf8_valid (b : pybytes) : bool :=
  match b with
  | [] => true
  | b0 :: r0 =>
    if byte_in 0 127 b0 then utf8_valid r0
    else
      match r0 with
      | [] => false
      | b1 :: r1 =>
        if byte_in 194 223 b0 then utf8_tail b1 && utf8_valid r1
        else
          match r1 with
          | [] => false
          | b2 :: r2 =>
            if byte_in 224 239 b0 then
              (if byte_in 224 224 b0 then byte_in 160 191 b1
               else if byte_in 237 237 b0 then byte_in 128 159 b1
               else utf8_tail b1)
              && utf8_tail b2 && utf8_valid r2
            else
              match r2 with
              | [] => false
              | b3 :: r3 =>
                if byte_in 240 244 b0 then
                  (if byte_in 240 240 b0 then byte_in 144 191 b1
                   else if byte_in 244 244 b0 then byte_in 128 143 b1
                   else utf8_tail b1)
                  && utf8_tail b2 && utf8_tail b3 && utf8_valid r3
                else false
              end
          end
      end
  end.

(** [s.encode('utf8')] *)
Definition str_encode_utf8 (s : string) : pybytes := list_byte_of_string s.

(** [b.decode('utf8')], also [str(b, encoding='utf-8')] *)
Definition bytes_decode_utf8 (b : pybytes) : result string :=
  if utf8_valid b then Ok (string_of_list_byte b) else Raise UnicodeDecodeError.

(** [s.startswith(prefix)] and [s[n:]] for an ASCII prefix. *)
Fixpoint str_startswith (prefix s : string) : bool :=
  match prefix, s with
  | EmptyString, _ => true
  | String a p', String c s' => Ascii.eqb a c && str_startswith p' s'
  | String _ _, EmptyString => false
  end.

Fixpoint str_drop (n : nat) (s : string) : string :=
  match n, s with
  | O, _ => s
  | S n', String _ s' => str_drop n' s'
  | S _, EmptyString => EmptyString
  end.

(** ** [dict] with [str] keys, in insertion order *)

Fixpoint dict_get {V} (d : list (string * V)) (k : string) : option V :=
  match d with
  | [] => None
  | (k', v) :: d' => if String.eqb k' k then Some v else dict_get d' k
  end.

(** [k in d] *)
Definition dict_contains {V} (d : list (string * V)) (k : string) : bool :=
  match dict_get d k with Some _ => true | None => false end.

(** [d[k]] *)
Definition dict_getitem {V} (d : list (string * V)) (k : string) : result V :=
  match dict_get d k with Some v => Ok v | None => Raise (KeyError (Some k)) end.

(** [d[k] = v]: a known key keeps its place, a new one goes last. *)
Fixpoint dict_set {V} (d : list (string * V)) (k : string) (v : V)
  : list (string * V) :=
  match d with
  | [] => [(k, v)]
  | (k', v') :: d' =>
    if String.eqb k' k then (k, v) :: d' else (k', v') :: dict_set d' k v
  end.

(** [{key: value for key, value in pairs}] *)
Definition dict_of_pairs {V} (pairs : list (string * V)) : list (string * V) :=
  fold_left (fun d kv => dict_set d (fst kv) (snd kv)) pairs [].

Definition dict_keys {V} (d : list (string * V)) : list string := map fst d.

(** ** numpy element types *)

Inductive time_unit : Type :=
| unit_generic | unit_Y | unit_M | unit_W | unit_D | unit_h | unit_m | unit_s
| unit_ms | unit_us | unit_ns | unit_ps | unit_fs | unit_as.

(** The native-order element types of dense arrays. *)
Inductive np_dtype : Type :=
| np_bool
| np_int8 | np_int16 | np_int32 | np_int64
| np_uint8 | np_uint16 | np_uint32 | np_uint64
| np_float16 | np_float32 | np_float64
| np_complex64 | np_complex128
| np_timedelta64 (u : time_unit)
| np_datetime64 (u : time_unit)
| np_object.

(** [dtype.kind] *)
Definition np_kind (d : np_dtype) : ascii :=
  match d with
  | np_bool => "b"
  | np_int8 | np_int16 | np_int32 | np_int64 => "i"
  | np_uint8 | np_uint16 | np_uint32 | np_uint64 => "u"
  | np_float16 | np_float32 | np_float64 => "f"
  | np_complex64 | np_complex128 => "c"
  | np_timedelta64 _ => "m"
  | np_datetime64 _ => "M"
  | np_object => "O"
  end%char.

(** [dtype.itemsize] *)
Definition np_itemsize (d : np_dtype) : nat :=
  match d with
  | np_bool | np_int8 | np_uint8 => 1
  | np_int16 | np_uint16 | np_float16 => 2
  | np_int32 | np_uint32 | np_float32 => 4
  | np_int64 | np_uint64 | np_float64 | np_complex64 => 8
  | np_complex128 => 16
  | np_timedelta64 _ | np_datetime64 _ => 8
  | np_object => 8
  end%nat.

(** [c in s] for a one-character string [c]. *)
Definition char_in (c : ascii) (s : string) : bool :=
  existsb (Ascii.eqb c) (list_ascii_of_string s).

(** Element types of the columnar library, known here by their [str]. *)
Record arrow_type : Type := mk_arrow_type { arrow_type_str : string }.

Definition pa_string : arrow_type := mk_arrow_type "string".
Definition pa_large_string : arrow_type := mk_arrow_type "large_string".
Definition pa_timestamp_ms : arrow_type := mk_arrow_type "timestamp[ms]".

(** Modelled from the spec: [vaex.datatype.DataType], the wrapper around a
    numpy or a columnar element type whose module is not part of the
    sources read here.  [internal] is the wrapped type; [numpy] and [kind]
    go through the numpy type the wrapped type corresponds to. *)
Inductive DataType : Type :=
| DataType_numpy (internal : np_dtype)
| DataType_arrow (internal : arrow_type).

(** ** Arrays and the other runtime values *)

(** The mask of an [np.ma.MaskedArray]: [np.ma.nomask] or a boolean array of
    the shape of the data. *)
Inductive ma_mask : Type :=
| nomask
| mask_array (m : list bool).

(** An [np.ndarray]: [nd_buffer] is what [memoryview(a).tobytes()] gives,
    the elements in C order; an array of dtype [object] has its elements in
    [nd_items] instead.  [nd_mask] is set for a masked array. *)
Record ndarray_of (T : Type) : Type := mk_ndarray {
  nd_dtype : np_dtype;
  nd_shape : list nat;
  nd_buffer : pybytes;
  nd_items : list T;
  nd_mask : option ma_mask
}.
Arguments mk_ndarray {T}.
Arguments nd_dtype {T}.
Arguments nd_shape {T}.
Arguments nd_buffer {T}.
Arguments nd_items {T}.
Arguments nd_mask {T}.

(** An [np.generic] scalar: its dtype, [scalar.item()] and, for the temporal
    kinds, [int(scalar.astype(int))]. *)
Record np_generic_of (T : Type) : Type := mk_np_generic {
  sc_dtype : np_dtype;
  sc_item : T;
  sc_int : Z
}.
Arguments mk_np_generic {T}.
Arguments sc_dtype {T}.
Arguments sc_item {T}.
Arguments sc_int {T}.

(** A [pa.Array]; its content is opaque to this module. *)
Record pa_array : Type := mk_pa_array {
  pa_type : arrow_type;
  pa_content : pybytes
}.

(** [vaex.array_types.supported_arrow_array_types]:
    [pa.Array] and [pa.ChunkedArray]. *)
Inductive arrow_array : Type :=
| pa_Array (a : pa_array)
| pa_ChunkedArray (type : arrow_type) (chunks : list pa_array).

(** A [vaex.hash.ordered_set]: class name, [extract().items()] and the
    three counters. *)
Record ordered_set_of (T : Type) : Type := mk_ordered_set {
  os_class : string;
  os_extract : list (T * Z);
  os_count : Z;
  os_nan_count : Z;
  os_null_count : Z
}.
Arguments mk_ordered_set {T}.
Arguments os_class {T}.
Arguments os_extract {T}.
Arguments os_count {T}.
Arguments os_nan_count {T}.
Arguments os_null_count {T}.

(** Python values as the codecs see them.  [PyList] stands for both [list]
    and [tuple], which the module never tells apart; [float] leaves are not
    modelled; [PyObject] is any other object, known by its identity. *)
#[warnings="-register-all"]
Inductive pyobj : Type :=
| PyNone
| PyBool (b : bool)
| PyInt (n : Z)
| PyStr (s : string)
| PyBytes (b : pybytes)
| PyList (items : list pyobj)
| PyDict (items : list (string * pyobj))
| PyNdarray (a : ndarray_of pyobj)
| PyArrowArray (a : arrow_array)
| PyNpGeneric (s : np_generic_of pyobj)
| PyDataType (d : DataType)
| PyOrderedSet (s : ordered_set_of pyobj)
| PyObject (id : N).

Abbreviation ndarray := (ndarray_of pyobj).
Abbreviation np_generic := (np_generic_of pyobj).
Abbreviation ordered_set := (ordered_set_of pyobj).
Abbreviation pydict := (list (string * pyobj)).

(** [obj[key]] for a [str] key: only a dict can be subscripted that way. *)
Definition getitem (obj : pyobj) (key : string) : result pyobj :=
  match obj with
  | PyDict d => dict_getitem d key
  | _ => Raise TypeError
  end.

(** [key in obj] for the plain values the JSON layer delivers: a dict is
    searched by key, everything else ends in [TypeError] here or at the
    subscript that follows. *)
Definition contains (obj : pyobj) (key : string) : result bool :=
  match obj with
  | PyDict d => Ok (dict_contains d key)
  | _ => Raise TypeError
  end.

(** ** The session: [class Encoding]

    [blobs], [_object_specs] and [_objects] are the three tables of a
    session.  The fourth attribute, [self.registry], is a copy of the
    module's registry made by [__init__] and never written afterwards; it is
    passed next to the session (the [reg] argument below) because its codecs
    are functions over sessions. *)

Record Encoding : Type := mkEncoding {
  blobs : list (string * pybytes);
  _object_specs : pydict;
  _objects : pydict
}.

(** [Encoding()] *)
Definition Encoding_init : Encoding :=
  {| blobs := []; _object_specs := []; _objects := [] |}.

(** The running interpreter: the session in use, and how many identifiers
    [uuid.uuid4()] has handed out so far. *)
Record process : Type := mkProcess {
  self : Encoding;
  uuid_calls : nat
}.

(** A computation on the session that may raise; what was written before
    the exception stays written. *)
Definition M (A : Type) : Type := process -> result A * process.

#[global] Instance M_ret : MRet M := fun _ a p => (Ok a, p).
#[global] Instance M_bind : MBind M := fun _ _ f m p =>
  match m p with
  | (Ok a, p') => f a p'
  | (Raise e, p') => (Raise e, p')
  end.

#[global] Instance M_fmap : FMap M := fun _ _ f m p =>
  match m p with
  | (Ok a, p') => (Ok (f a), p')
  | (Raise e, p') => (Raise e, p')
  end.

Definition raise {A} (e : exception) : M A := fun p => (Raise e, p).

(** Run a computation that does not touch the session. *)
Definition lift {A} (r : result A) : M A := fun p => (r, p).

Definition get_self : M Encoding := fun p => (Ok (self p), p).

Definition set_self (e : Encoding) : M unit :=
  fun p => (Ok tt, {| self := e; uuid_calls := uuid_calls p |}).

(** [[f(k) for k in items]] *)
Fixpoint mapM {A B} (f : A -> M B) (items : list A) : M (list B) :=
  match items with
  | [] => mret []
  | k :: items' => x ← f k; xs ← mapM f items'; mret (x :: xs)
  end.

(** Identifiers: [str(uuid.uuid4())] for the n-th call of the process. *)
Class Uuid : Type := { uuid4_str : nat -> string }.

Definition uuid4 `{Uuid} : M string :=
  fun p => (Ok (uuid4_str (uuid_calls p)),
            {| self := self p; uuid_calls := S (uuid_calls p) |}).

(** [Encoding.add_blob]; [buffer] is what [memoryview(buffer).tobytes()]
    returns for the object handed in. *)
Definition add_blob `{Uuid} (buffer : pybytes) : M pyobj :=
  blob_id ← uuid4;
  e ← get_self;
  set_self {| blobs := dict_set (blobs e) blob_id buffer;
              _object_specs := _object_specs e;
              _objects := _objects e |};;
  mret (PyStr ("blob:" ++ blob_id)).

(** [Encoding.get_blob] *)
Definition get_blob (blob_ref : pyobj) : M pybytes :=
  match blob_ref with
  | PyStr ref =>
    lift (py_assert (str_startswith "blob:" ref));;
    let blob_id := str_drop 5 ref in
    e ← get_self;
    lift (dict_getitem (blobs e) blob_id)
  | PyBytes _ => raise TypeError
  | _ => raise AttributeError
  end.

(** [Encoding.set_object_spec], [get_object_spec], [has_object_spec] *)
Definition set_object_spec (id : string) (obj : pyobj) : M unit :=
  e ← get_self;
  lift (py_assert (negb (dict_contains (_object_specs e) id)));;
  set_self {| blobs := blobs e;
              _object_specs := dict_set (_object_specs e) id obj;
              _objects := _objects e |}.

Definition get_object_spec (id : string) : M pyobj :=
  e ← get_self; lift (dict_getitem (_object_specs e) id).

Definition has_object_spec (id : string) : M bool :=
  e ← get_self; mret (dict_contains (_object_specs e) id).

(** [Encoding.set_object], [get_object], [has_object] *)
Definition set_object (id : string) (obj : pyobj) : M unit :=
  e ← get_self;
  lift (py_assert (negb (dict_contains (_objects e) id)));;
  set_self {| blobs := blobs e;
              _object_specs := _object_specs e;
              _objects := dict_set (_objects e) id obj |}.

Definition get_object (id : string) : M pyobj :=
  e ← get_self; lift (dict_getitem (_objects e) id).

Definition has_object (id : string) : M bool :=
  e ← get_self; mret (dict_contains (_objects e) id).

(** ** The registry and the dispatch through it *)

(** Keyword arguments of a call, [**kwargs]. *)
Abbreviation kwargs := (list (string * pyobj)).

(** What a codec calls on its [encoding] argument besides the blob table:
    the two dispatching methods. *)
Record dispatcher : Type := mkDispatcher {
  encode_with : string -> pyobj -> M pyobj;
  decode_with : string -> pyobj -> kwargs -> M pyobj
}.

(** A registered class: its [encode] and [decode]. *)
Record codec : Type := mkCodec {
  codec_encode : dispatcher -> pyobj -> M pyobj;
  codec_decode : dispatcher -> pyobj -> kwargs -> M pyobj
}.

(** [register(name)(cls)], on the module's [registry]: the result of the
    call and the registry it leaves behind. *)
Definition register (name : string) (cls : codec)
    (registry : gmap string codec) : result unit * gmap string codec :=
  match py_assert (negb (bool_decide (is_Some (registry !! name)))) with
  | Ok _ => (Ok tt, <[name := cls]> registry)
  | Raise e => (Raise e, registry)
  end.

(** [self.registry[typename]] *)
Definition registry_getitem (reg : gmap string codec) (typename : string)
  : M codec :=
  match reg !! typename with
  | Some cls => mret cls
  | None => raise (KeyError (Some typename))
  end.

(** [Encoding.encode] and [Encoding.decode].  [depth] is the number of
    nested dispatches the interpreter still allows. *)
Fixpoint dispatch (reg : gmap string codec) (depth : nat) : dispatcher :=
  match depth with
  | O => {| encode_with := fun _ _ => raise RecursionError;
            decode_with := fun _ _ _ => raise RecursionError |}
  | S depth' =>
    {| encode_with := fun typename value =>
         cls ← registry_getitem reg typename;
         codec_encode cls (dispatch reg depth') value;
       decode_with := fun typename value kw =>
         cls ← registry_getitem reg typename;
         codec_decode cls (dispatch reg depth') value kw |}
  end.

Definition Encoding_encode (reg : gmap string codec) (depth : nat)
    (typename : string) (value : pyobj) : M pyobj :=
  encode_with (dispatch reg depth) typename value.

Definition Encoding_decode (reg : gmap string codec) (depth : nat)
    (typename : string) (value : pyobj) (kw : kwargs) : M pyobj :=
  decode_with (dispatch reg depth) typename value kw.

(** [Encoding.encode_list] and [Encoding.decode_list] *)
Definition Encoding_encode_list (reg : gmap string codec) (depth : nat)
    (typename : string) (values : list pyobj) : M (list pyobj) :=
  mapM (Encoding_encode reg depth typename) values.

Definition Encoding_decode_list (reg : gmap string codec) (depth : nat)
    (typename : string) (values : list pyobj) (kw : kwargs)
  : M (list pyobj) :=
  mapM (fun k => Encoding_decode reg depth typename k kw) values.

(** A method declared as [(cls, encoding, x)] takes no keyword. *)
Definition no_kwargs (kw : kwargs) : M unit :=
  match kw with
  | [] => mret tt
  | _ :: _ => raise TypeError
  end.

(** ** Libraries and collaborators the module calls *)

(** [json.dumps] and [json.loads]. *)
Class Json : Type := {
  json_dumps : pyobj -> result string;
  json_loads : string -> result pyobj
}.

(** numpy: [str(dtype)], [np.dtype(spec)] and
    [np.array([value], dtype=dtype)[0]]. *)
Class NumPy : Type := {
  np_dtype_str : np_dtype -> string;
  np_dtype_of : pyobj -> result np_dtype;
  np_scalar_of : pyobj -> np_dtype -> result np_generic
}.

(** A [pa.Table]: its columns, each a name and a chunked array. *)
Abbreviation pa_table := (list (string * (arrow_type * list pa_array))).

(** pyarrow: writing one table to an IPC stream and taking the bytes of the
    sink; [pa.ipc.open_stream(...).read_all()]; the older
    [pa.deserialize]. *)
Class PyArrow : Type := {
  ipc_write_table : pa_table -> pybytes;
  ipc_read_all : pybytes -> result pa_table;
  pa_deserialize : pybytes -> result pyobj
}.

(** Other modules of vaex: the numpy type behind a columnar type
    ([DataType.numpy]), [selection.to_dict()],
    [vaex.selections.selection_from_dict], [vaex.serialize.to_dict] applied
    to [function.f], [vaex.serialize.from_dict(spec, trusted=...)], and the
    class of [vaex.hash] found by name and called on
    [(dict(values), count, nan_count, missing_count)]. *)
Class Vaex : Type := {
  arrow_to_numpy : arrow_type -> result np_dtype;
  selection_to_dict : pyobj -> result pyobj;
  selection_from_dict : pyobj -> result pyobj;
  serialize_to_dict : pyobj -> result pyobj;
  serialize_from_dict : pyobj -> pyobj -> result pyobj;
  hash_new : string -> pyobj -> pyobj -> pyobj -> pyobj -> result pyobj
}.

(** ** numpy operations on the array model *)

Definition np_size (shape : list nat) : nat := fold_right Nat.mul 1%nat shape.

(** [n] consecutive pieces of [k] items. *)
Fixpoint chunks {A} (n k : nat) (items : list A) : list (list A) :=
  match n with
  | O => []
  | S n' => firstn k items :: chunks n' k (skipn k items)
  end.

(** [a.tolist()] for an array of dtype object: nested lists along the
    shape, the item itself for a 0-d array. *)
Fixpoint tolist (shape : list nat) (items : list pyobj) : pyobj :=
  match shape with
  | [] => hd PyNone items
  | n :: shape' =>
    PyList (map (tolist shape') (chunks n (np_size shape') items))
  end.

(** The dimensions all the given shapes start with. *)
Fixpoint common_prefix (a b : list nat) : list nat :=
  match a, b with
  | x :: a', y :: b' => if Nat.eqb x y then x :: common_prefix a' b' else []
  | _, _ => []
  end.

Definition common_shape (shapes : list (list nat)) : list nat :=
  match shapes with
  | [] => []
  | s :: rest => fold_left common_prefix rest s
  end.

(** Shape discovery of [np.array(data, dtype=object)]: a sequence adds a
    dimension as long as all its items agree on what follows. *)
Fixpoint discover_shape (data : pyobj) : list nat :=
  match data with
  | PyList items => length items :: common_shape (map discover_shape items)
  | _ => []
  end.

(** The items found [depth] levels down. *)
Fixpoint items_at (depth : nat) (data : pyobj) : list pyobj :=
  match depth with
  | O => [data]
  | S depth' =>
    match data with
    | PyList items => concat (map (items_at depth') items)
    | _ => [data]
    end
  end.

(** [np.array(data, dtype=object)] *)
Definition np_array_object (data : pyobj) : ndarray :=
  let shape := discover_shape data in
  {| nd_dtype := np_object; nd_shape := shape; nd_buffer := [];
     nd_items := items_at (length shape) data; nd_mask := None |}.

(** [np.frombuffer(data, dtype=dtype)]: the number of elements read. *)
Definition np_frombuffer (data : pybytes) (dtype : np_dtype) : result nat :=
  match dtype with
  | np_object => Raise ValueError
  | _ =>
    if (length data mod np_itemsize dtype =? 0)%nat
    then Ok (length data / np_itemsize dtype)%nat
    else Raise ValueError
  end.

(** The dimensions asked for by the argument of [reshape]. *)
Fixpoint shape_dims (items : list pyobj) : result (list Z) :=
  match items with
  | [] => Ok []
  | PyInt n :: items' => dims ← shape_dims items'; Ok (n :: dims)
  | _ :: _ => Raise TypeError
  end.

(** [a.reshape(shape)] for an array of [size] elements: the new shape.  One
    dimension may be [-1], to be inferred. *)
Definition np_reshape (size : nat) (shape : pyobj) : result (list nat) :=
  dims ← match shape with
         | PyList items => shape_dims items
         | PyInt n => Ok [n]
         | _ => Raise TypeError
         end;
  let known := filter (fun d => negb (d =? -1)) dims in
  let unknown := (length dims - length known)%nat in
  if negb (forallb (fun d => 0 <=? d) known) then Raise ValueError
  else
    let p := np_size (map Z.to_nat known) in
    match unknown with
    | O => if (p =? size)%nat then Ok (map Z.to_nat dims) else Raise ValueError
    | S O =>
      if (p =? 0)%nat then Raise ValueError
      else if negb (size mod p =? 0)%nat then Raise ValueError
      else Ok (map (fun d => if d =? -1 then (size / p)%nat else Z.to_nat d)
                   dims)
    | _ => Raise ValueError
    end.

(** One byte per element of a boolean array. *)
Definition byte_of_bool (x : bool) : byte := if x then Byte.x01 else Byte.x00.
Definition bool_of_byte (x : byte) : bool := negb (byte.unsigned x =? 0).

(** [memoryview(mask).tobytes()]: [nomask] is the scalar [False]. *)
Definition mask_tobytes (mask : ma_mask) : pybytes :=
  match mask with
  | nomask => [Byte.x00]
  | mask_array m => map byte_of_bool m
  end.

(** [np.ma.array(array, mask=mask_array)]: a mask of another shape is
    resized when it has one element, reshaped when the sizes agree. *)
Definition np_ma_array (array : ndarray) (mask_shape : list nat)
    (mask : list bool) : result ndarray :=
  let with_mask m :=
    {| nd_dtype := nd_dtype array; nd_shape := nd_shape array;
       nd_buffer := nd_buffer array; nd_items := nd_items array;
       nd_mask := Some (mask_array m) |} in
  if bool_decide (mask_shape = nd_shape array) then Ok (with_mask mask)
  else
    let nd := np_size (nd_shape array) in
    let nm := length mask in
    if (nm =? 1)%nat then Ok (with_mask (repeat (hd false mask) nd))
    else if (nm =? nd)%nat then Ok (with_mask mask)
    else Raise MaskError.

(** [DataType.numpy], and [DataType.kind] which reads it. *)
Definition DataType_numpy_of `{Vaex} (d : DataType) : result np_dtype :=
  match d with
  | DataType_numpy t => Ok t
  | DataType_arrow t => arrow_to_numpy t
  end.

Definition DataType_kind `{Vaex} (d : DataType) : result ascii :=
  np_kind <$> DataType_numpy_of d.

(** The key of [registry[typename]]: a str, or else an object that is
    either unhashable or not a key of the registry. *)
Definition typename_of (key : pyobj) : result string :=
  match key with
  | PyStr s => Ok s
  | PyList _ | PyDict _ | PyNdarray _ => Raise TypeError
  | _ => Raise (KeyError None)
  end.

(** ** The codecs *)

Section Codecs.
Context `{Uuid} `{NumPy} `{PyArrow} `{Vaex}.

(** [@register("json")]: passes the data through. *)
Definition vaex_json_encoding : codec :=
  {| codec_encode := fun _ result => mret result;
     codec_decode := fun _ result_encoded kw =>
       no_kwargs kw;; mret result_encoded |}.

(** [@register("vaex-task-result")] *)
Definition vaex_task_result_encoding : codec :=
  {| codec_encode := fun encoding result =>
       encode_with encoding "vaex-evaluate-result" result;
     codec_decode := fun encoding result_encoded kw =>
       no_kwargs kw;;
       decode_with encoding "vaex-evaluate-result" result_encoded [] |}.

(** [@register("vaex-rmi-result")] *)
Definition vaex_rmi_result_encoding : codec :=
  {| codec_encode := fun encoding result =>
       encode_with encoding "json" result;
     codec_decode := fun encoding result_encoded kw =>
       no_kwargs kw;; decode_with encoding "json" result_encoded [] |}.

(** [@register("vaex-evaluate-result")] *)
Fixpoint vaex_evaluate_results_encode (encoding : dispatcher)
    (result : pyobj) : M pyobj :=
  match result with
  | PyList items =>
    PyList <$> (fix each (l : list pyobj) : M (list pyobj) :=
      match l with
      | [] => mret []
      | k :: l' =>
        x ← vaex_evaluate_results_encode encoding k;
        xs ← each l'; mret (x :: xs)
      end) items
  | _ => encode_with encoding "array" result
  end.

Fixpoint vaex_evaluate_results_decode (encoding : dispatcher)
    (result_encoded : pyobj) : M pyobj :=
  match result_encoded with
  | PyList items =>
    PyList <$> (fix each (l : list pyobj) : M (list pyobj) :=
      match l with
      | [] => mret []
      | k :: l' =>
        x ← vaex_evaluate_results_decode encoding k;
        xs ← each l'; mret (x :: xs)
      end) items
  | _ => decode_with encoding "array" result_encoded []
  end.

Definition vaex_evaluate_results_encoding : codec :=
  {| codec_encode := vaex_evaluate_results_encode;
     codec_decode := fun encoding result_encoded kw =>
       no_kwargs kw;; vaex_evaluate_results_decode encoding result_encoded |}.

(** [@register("array")].  [numbers.Number] covers [int], [bool] and the
    numpy scalars of the integer, float and complex kinds; [item()] exists
    on the numpy ones only. *)
Definition array_encode (encoding : dispatcher) (result : pyobj) : M pyobj :=
  match result with
  | PyNdarray _ =>
    data ← encode_with encoding "ndarray" result;
    mret (PyDict [("type", PyStr "ndarray"); ("data", data)])
  | PyArrowArray _ =>
    data ← encode_with encoding "arrow-array" result;
    mret (PyDict [("type", PyStr "arrow-array"); ("data", data)])
  | PyInt _ | PyBool _ =>
    mret (PyDict [("type", PyStr "json"); ("data", result)])
  | PyNpGeneric s =>
    if char_in (np_kind (sc_dtype s)) "iufc"
    then mret (PyDict [("type", PyStr "json"); ("data", sc_item s)])
    else raise ValueError
  | _ => raise ValueError
  end.

Definition array_decode (encoding : dispatcher) (result_encoded : pyobj)
  : M pyobj :=
  type ← lift (getitem result_encoded "type");
  data ← lift (getitem result_encoded "data");
  typename ← lift (typename_of type);
  decode_with encoding typename data [].

Definition array_encoding : codec :=
  {| codec_encode := array_encode;
     codec_decode := fun encoding result_encoded kw =>
       no_kwargs kw;; array_decode encoding result_encoded |}.

(** [@register("arrow-array")] *)
Definition arrow_array_encode (encoding : dispatcher) (array : pyobj)
  : M pyobj :=
  match array with
  | PyArrowArray a =>
    let '(type, chunks) :=
      match a with
      | pa_Array c => (pa_type c, [c])
      | pa_ChunkedArray type chunks => (type, chunks)
      end in
    let blob := ipc_write_table [("x", (type, chunks))] in
    ref ← add_blob blob;
    mret (PyDict [("arrow-ipc-blob", ref)])
  | _ => raise AttributeError
  end.

Definition arrow_array_decode (encoding : dispatcher)
    (result_encoded : pyobj) : M pyobj :=
  legacy ← lift (contains result_encoded "arrow-serialized-blob");
  if (legacy : bool) then
    ref ← lift (getitem result_encoded "arrow-serialized-blob");
    blob ← get_blob ref;
    lift (pa_deserialize blob)
  else
    ref ← lift (getitem result_encoded "arrow-ipc-blob");
    blob ← get_blob ref;
    table ← lift (ipc_read_all blob);
    lift (py_assert (len table =? 1));;
    '(_, (type, chunks)) ← lift (py_index table 0);
    match chunks with
    | [chunk] => mret (PyArrowArray (pa_Array chunk))
    | _ => mret (PyArrowArray (pa_ChunkedArray type chunks))
    end.

Definition arrow_array_encoding : codec :=
  {| codec_encode := arrow_array_encode;
     codec_decode := fun encoding result_encoded kw =>
       no_kwargs kw;; arrow_array_decode encoding result_encoded |}.

(** [@register("ndarray")] *)
Definition ndarray_encode (encoding : dispatcher) (array : pyobj) : M pyobj :=
  match array with
  | PyNdarray a =>
    let mask := nd_mask a in
    let dtype := nd_dtype a in
    let values_dtype :=
      if char_in (np_kind dtype) "mM" then np_uint64 else dtype in
    let shape := PyList (map (fun n => PyInt (Z.of_nat n)) (nd_shape a)) in
    values ← (if Ascii.eqb (np_kind values_dtype) "O"
              then mret (tolist (nd_shape a) (nd_items a))
              else add_blob (nd_buffer a));
    tag ← encode_with encoding "dtype" (PyDataType (DataType_numpy dtype));
    let data := [("values", values); ("shape", shape); ("dtype", tag)] in
    match mask with
    | Some mask =>
      ref ← add_blob (mask_tobytes mask);
      mret (PyDict (dict_set data "mask" ref))
    | None => mret (PyDict data)
    end
  | _ => raise AttributeError
  end.

Definition ndarray_decode_one (encoding : dispatcher)
    (result_encoded : pyobj) : M pyobj :=
  tag ← lift (getitem result_encoded "dtype");
  decoded ← decode_with encoding "dtype" tag [];
  dtype ← match decoded with
          | PyDataType d => mret d
          | _ => raise AttributeError
          end;
  shape ← lift (getitem result_encoded "shape");
  kind ← lift (DataType_kind dtype);
  array ← (if Ascii.eqb kind "O" then
             data ← lift (getitem result_encoded "values");
             _ ← lift (DataType_numpy_of dtype);
             mret (np_array_object data)
           else
             ref ← lift (getitem result_encoded "values");
             data ← get_blob ref;
             numpy ← lift (DataType_numpy_of dtype);
             count ← lift (np_frombuffer data numpy);
             dims ← lift (np_reshape count shape);
             mret {| nd_dtype := numpy; nd_shape := dims; nd_buffer := data;
                     nd_items := []; nd_mask := None |});
  masked ← lift (contains result_encoded "mask");
  if (masked : bool) then
    ref ← lift (getitem result_encoded "mask");
    mask_data ← get_blob ref;
    count ← lift (np_frombuffer mask_data np_bool);
    dims ← lift (np_reshape count shape);
    PyNdarray <$> lift (np_ma_array array dims (map bool_of_byte mask_data))
  else mret (PyNdarray array).

Fixpoint ndarray_decode (encoding : dispatcher) (result_encoded : pyobj)
  : M pyobj :=
  match result_encoded with
  | PyList items =>
    PyList <$> (fix each (l : list pyobj) : M (list pyobj) :=
      match l with
      | [] => mret []
      | k :: l' =>
        x ← ndarray_decode encoding k; xs ← each l'; mret (x :: xs)
      end) items
  | _ => ndarray_decode_one encoding result_encoded
  end.

Definition ndarray_encoding : codec :=
  {| codec_encode := ndarray_encode;
     codec_decode := fun encoding result_encoded kw =>
       no_kwargs kw;; ndarray_decode encoding result_encoded |}.

(** [@register("dtype")] *)
Definition dtype_encode (encoding : dispatcher) (dtype : pyobj) : M pyobj :=
  match dtype with
  | PyDataType (DataType_numpy internal) =>
    mret (PyStr (np_dtype_str internal))
  | PyDataType (DataType_arrow internal) =>
    mret (PyStr (arrow_type_str internal))
  | _ => raise AttributeError
  end.

Definition str_eq (obj : pyobj) (s : string) : bool :=
  match obj with
  | PyStr t => String.eqb t s
  | _ => false
  end.

Definition dtype_decode (encoding : dispatcher) (type_spec : pyobj)
  : M pyobj :=
  if str_eq type_spec "string" then
    mret (PyDataType (DataType_arrow pa_string))
  else if str_eq type_spec "large_string" then
    mret (PyDataType (DataType_arrow pa_large_string))
  else if str_eq type_spec "timestamp[ms]" then
    mret (PyDataType (DataType_arrow pa_timestamp_ms))
  else
    internal ← lift (np_dtype_of type_spec);
    mret (PyDataType (DataType_numpy internal)).

Definition dtype_encoding : codec :=
  {| codec_encode := dtype_encode;
     codec_decode := fun encoding type_spec kw =>
       no_kwargs kw;; dtype_decode encoding type_spec |}.

(** [@register("numpy-scalar")] *)
Definition numpy_scalar_encode (encoding : dispatcher) (scalar : pyobj)
  : M pyobj :=
  match scalar with
  | PyNpGeneric s =>
    let value :=
      if char_in (np_kind (sc_dtype s)) "mM" then PyInt (sc_int s)
      else sc_item s in
    tag ← encode_with encoding "dtype"
            (PyDataType (DataType_numpy (sc_dtype s)));
    mret (PyDict [("value", value); ("dtype", tag)])
  | _ => raise AttributeError
  end.

Definition numpy_scalar_decode (encoding : dispatcher) (scalar_spec : pyobj)
  : M pyobj :=
  tag ← lift (getitem scalar_spec "dtype");
  decoded ← decode_with encoding "dtype" tag [];
  value ← lift (getitem scalar_spec "value");
  match decoded with
  | PyDataType d =>
    numpy ← lift (DataType_numpy_of d);
    PyNpGeneric <$> lift (np_scalar_of value numpy)
  | _ => raise AttributeError
  end.

Definition numpy_scalar_encoding : codec :=
  {| codec_encode := numpy_scalar_encode;
     codec_decode := fun encoding scalar_spec kw =>
       no_kwargs kw;; numpy_scalar_decode encoding scalar_spec |}.

(** [@register("dataframe-state")] *)
Definition dataframe_state_encoding : codec :=
  {| codec_encode := fun _ state => mret state;
     codec_decode := fun _ state_spec kw => no_kwargs kw;; mret state_spec |}.

(** [@register("selection")] *)
Definition selection_encode (encoding : dispatcher) (selection : pyobj)
  : M pyobj :=
  match selection with
  | PyNone => mret PyNone
  | _ => lift (selection_to_dict selection)
  end.

Definition selection_decode (encoding : dispatcher) (selection_spec : pyobj)
  : M pyobj :=
  match selection_spec with
  | PyNone => mret PyNone
  | _ => lift (selection_from_dict selection_spec)
  end.

Definition selection_encoding : codec :=
  {| codec_encode := selection_encode;
     codec_decode := fun encoding selection_spec kw =>
       no_kwargs kw;; selection_decode encoding selection_spec |}.

(** [@register("function")].  The signature of [decode] is
    [(encoding, function_spec, trusted=False)]: the one keyword it takes is
    [trusted], and [False] stands in when the call does not give it. *)
Definition function_encode (encoding : dispatcher) (function : pyobj)
  : M pyobj :=
  lift (serialize_to_dict function).

Definition function_decode (encoding : dispatcher) (function_spec : pyobj)
    (kw : kwargs) : M pyobj :=
  if negb (forallb (fun k => String.eqb k "trusted") (dict_keys kw))
  then raise TypeError
  else
    let trusted := default (PyBool false) (dict_get kw "trusted") in
    match function_spec with
    | PyNone => mret PyNone
    | _ => lift (serialize_from_dict function_spec trusted)
    end.

Definition function_encoding : codec :=
  {| codec_encode := function_encode; codec_decode := function_decode |}.

(** [@register("variable")].  The class tests run in the order of the
    source; the second [np.ndarray] test and the tests for [np.integer],
    [np.floating] and [np.bytes_] come after [np.generic] and
    [np.ndarray], which take all their instances. *)
Definition variable_encode (encoding : dispatcher) (obj : pyobj) : M pyobj :=
  match obj with
  | PyNdarray _ =>
    data ← encode_with encoding "ndarray" obj;
    mret (PyDict [("type", PyStr "ndarray"); ("data", data)])
  | PyArrowArray _ =>
    data ← encode_with encoding "arrow-array" obj;
    mret (PyDict [("type", PyStr "arrow-array"); ("data", data)])
  | PyOrderedSet _ =>
    data ← encode_with encoding "ordered-set" obj;
    mret (PyDict [("type", PyStr "ordered-set"); ("data", data)])
  | PyNpGeneric _ =>
    data ← encode_with encoding "numpy-scalar" obj;
    mret (PyDict [("type", PyStr "numpy-scalar"); ("data", data)])
  | PyBytes b => PyStr <$> lift (bytes_decode_utf8 b)
  | _ => mret obj
  end.

Definition variable_decode (encoding : dispatcher) (obj_spec : pyobj)
  : M pyobj :=
  match obj_spec with
  | PyDict _ =>
    type ← lift (getitem obj_spec "type");
    data ← lift (getitem obj_spec "data");
    typename ← lift (typename_of type);
    decode_with encoding typename data []
  | _ => mret obj_spec
  end.

Definition variable_encoding : codec :=
  {| codec_encode := variable_encode;
     codec_decode := fun encoding obj_spec kw =>
       no_kwargs kw;; variable_decode encoding obj_spec |}.

(** [@register("ordered-set")] *)
Definition ordered_set_encode (encoding : dispatcher) (obj : pyobj) : M pyobj :=
  match obj with
  | PyOrderedSet s =>
    let values :=
      PyList (map (fun kv => PyList [fst kv; PyInt (snd kv)]) (os_extract s)) in
    mret (PyDict
      [("class", PyStr (os_class s));
       ("data", PyDict [("values", values);
                        ("count", PyInt (os_count s));
                        ("nan_count", PyInt (os_nan_count s));
                        ("missing_count", PyInt (os_null_count s))])])
  | _ => raise AttributeError
  end.

Definition ordered_set_decode (encoding : dispatcher) (obj_spec : pyobj)
  : M pyobj :=
  cls ← lift (getitem obj_spec "class");
  clsname ← match cls with
            | PyStr s => mret s
            | _ => raise TypeError
            end;
  data ← lift (getitem obj_spec "data");
  values ← lift (getitem data "values");
  count ← lift (getitem data "count");
  nan_count ← lift (getitem data "nan_count");
  missing_count ← lift (getitem data "missing_count");
  lift (hash_new clsname values count nan_count missing_count).

Definition ordered_set_encoding : codec :=
  {| codec_encode := ordered_set_encode;
     codec_decode := fun encoding obj_spec kw =>
       no_kwargs kw;; ordered_set_decode encoding obj_spec |}.

(** The module's [registry] once its [@register] lines have run, in the
    order of the source.  The classes for ["binner"] and ["grid"], which
    nothing below goes through, are not part of this development. *)
Definition registrations : list (string * codec) :=
  [("json", vaex_json_encoding);
   ("vaex-task-result", vaex_task_result_encoding);
   ("vaex-rmi-result", vaex_rmi_result_encoding);
   ("vaex-evaluate-result", vaex_evaluate_results_encoding);
   ("array", array_encoding);
   ("arrow-array", arrow_array_encoding);
   ("ndarray", ndarray_encoding);
   ("numpy-scalar", numpy_scalar_encoding);
   ("dtype", dtype_encoding);
   ("dataframe-state", dataframe_state_encoding);
   ("selection", selection_encoding);
   ("function", function_encoding);
   ("variable", variable_encoding);
   ("ordered-set", ordered_set_encoding)].

Definition registry : gmap string codec :=
  fold_left (fun reg entry => snd (register (fst entry) (snd entry) reg))
            registrations ∅.
End Codecs.

(** ** The binary envelope of a session: [class binary] *)

Section Binary.
Context `{Platform} `{Json}.

Definition binary_serialize (data : pyobj) : M pybytes :=
  encoding ← get_self;
  let blob_refs := dict_keys (blobs encoding) in
  blobs ← lift ((fix each (l : list string) : result (list pybytes) :=
                   match l with
                   | [] => Ok []
                   | k :: l' =>
                     x ← dict_getitem (blobs encoding) k;
                     xs ← each l'; Ok (x :: xs)
                   end) blob_refs);
  json_blob ← lift (json_dumps (PyDict
    [("data", data);
     ("blob_refs", PyList (map PyStr blob_refs));
     ("objects", PyDict (_object_specs encoding))]));
  lift (_pack_blobs (str_encode_utf8 json_blob :: blobs)).

(** The keys of the rebuilt blob table.  Identifiers are [str] everywhere
    in the module; a document that lists anything else, or whose objects
    are not a dict, is refused here. *)
Fixpoint blob_ids (refs : list pyobj) : result (list string) :=
  match refs with
  | [] => Ok []
  | PyStr id :: refs' => ids ← blob_ids refs'; Ok (id :: ids)
  | _ :: _ => Raise TypeError
  end.

(** [json_data, *blobs = ...] binds the first blob and the list of the
    others, called [payload] here. *)
Definition binary_deserialize (data : pybytes) : M pyobj :=
  unpacked ← lift (_unpack_blobs data);
  starred ← match unpacked with
            | first :: rest => mret (first, rest)
            | [] => raise ValueError
            end;
  let json_data := fst starred in
  let payload := snd starred in
  json_data ← lift (bytes_decode_utf8 json_data);
  json_data ← lift (json_loads json_data);
  data ← lift (getitem json_data "data");
  blob_refs ← lift (getitem json_data "blob_refs");
  ids ← match blob_refs with
        | PyList refs => lift (blob_ids refs)
        | _ => raise TypeError
        end;
  encoding ← get_self;
  set_self {| blobs := dict_of_pairs (py_zip ids payload);
              _object_specs := _object_specs encoding;
              _objects := _objects encoding |};;
  objects ← lift (getitem json_data "objects");
  specs ← match objects with
          | PyDict d => mret d
          | _ => raise TypeError
          end;
  encoding ← get_self;
  set_self {| blobs := blobs encoding;
              _object_specs := specs;
              _objects := _objects encoding |};;
  mret data.
End Binary.

(** ** The text envelope of a session: [class inline] *)

(** [base64.b64encode] and [base64.b64decode]. *)
Class Base64 : Type := {
  b64encode : pybytes -> pybytes;
  b64decode : pybytes -> result pybytes
}.

(** [b.decode('ascii')] and [s.encode('ascii')]: anything outside ASCII is
    refused, with [UnicodeDecodeError] and with [UnicodeEncodeError], which
    is a [ValueError]. *)
Definition is_ascii (b : pybytes) : bool := forallb (byte_in 0 127) b.

Definition bytes_decode_ascii (b : pybytes) : result string :=
  if is_ascii b then Ok (string_of_list_byte b) else Raise UnicodeDecodeError.

Definition str_encode_ascii (s : string) : result pybytes :=
  if is_ascii (list_byte_of_string s) then Ok (list_byte_of_string s)
  else Raise ValueError.

(** [{key: f(value) for key, value in items}] for an [f] that may raise. *)
Fixpoint comprehension_from {A B} (f : A -> result B)
    (items : list (string * A)) (acc : list (string * B))
  : result (list (string * B)) :=
  match items with
  | [] => Ok acc
  | (key, value) :: items' =>
    x ← f value; comprehension_from f items' (dict_set acc key x)
  end.

Definition dict_comprehension {A B} (f : A -> result B)
    (items : list (string * A)) : result (list (string * B)) :=
  comprehension_from f items [].

Section Inline.
Context `{Json} `{Base64}.

Definition inline_serialize (data : pyobj) : M string :=
  encoding ← get_self;
  blobs ← lift (dict_comprehension
                  (fun value => PyStr <$> bytes_decode_ascii (b64encode value))
                  (blobs encoding));
  lift (json_dumps (PyDict [("data", data); ("blobs", PyDict blobs)])).

Definition inline_deserialize (data : string) : M pyobj :=
  data ← lift (json_loads data);
  blobs ← lift (getitem data "blobs");
  items ← match blobs with
          | PyDict d => mret d
          | _ => raise AttributeError
          end;
  decoded ← lift (dict_comprehension
                    (fun value =>
                       match value with
                       | PyStr s => b ← str_encode_ascii s; b64decode b
                       | _ => Raise AttributeError
                       end) items);
  encoding ← get_self;
  set_self {| blobs := decoded;
              _object_specs := _object_specs encoding;
              _objects := _objects encoding |};;
  lift (getitem data "data").
End Inline.

(** ** Sample libraries

    Small executable instances of the interfaces above, used to run the
    module on concrete inputs.  The results proved for every instance do
    not depend on them. *)

Module Sample.

#[export] Instance platform : Platform := {| native_order := LittleEndian |}.

(** Identifiers that count up, in the layout of a version-4 UUID. *)
Definition hex_digit (n : nat) : ascii :=
  nth n (list_ascii_of_string "0123456789abcdef") "0"%char.

Fixpoint hex (width n : nat) : string :=
  match width with
  | O => ""
  | S w => (hex w (n / 16) ++ String (hex_digit (n mod 16)) "")%string
  end.

#[export] Instance uuid : Uuid :=
  {| uuid4_str := fun n => ("00000000-0000-4000-8000-" ++ hex 12 n)%string |}.

(** numpy's names of the element types. *)
Definition unit_str (u : time_unit) : string :=
  match u with
  | unit_generic => ""
  | unit_Y => "[Y]" | unit_M => "[M]" | unit_W => "[W]" | unit_D => "[D]"
  | unit_h => "[h]" | unit_m => "[m]" | unit_s => "[s]"
  | unit_ms => "[ms]" | unit_us => "[us]" | unit_ns => "[ns]"
  | unit_ps => "[ps]" | unit_fs => "[fs]" | unit_as => "[as]"
  end.

Definition dtype_str (d : np_dtype) : string :=
  match d with
  | np_bool => "bool"
  | np_int8 => "int8" | np_int16 => "int16"
  | np_int32 => "int32" | np_int64 => "int64"
  | np_uint8 => "uint8" | np_uint16 => "uint16"
  | np_uint32 => "uint32" | np_uint64 => "uint64"
  | np_float16 => "float16" | np_float32 => "float32"
  | np_float64 => "float64"
  | np_complex64 => "complex64" | np_complex128 => "complex128"
  | np_timedelta64 u => ("timedelta64" ++ unit_str u)%string
  | np_datetime64 u => ("datetime64" ++ unit_str u)%string
  | np_object => "object"
  end.

Definition all_units : list time_unit :=
  [unit_generic; unit_Y; unit_M; unit_W; unit_D; unit_h; unit_m; unit_s;
   unit_ms; unit_us; unit_ns; unit_ps; unit_fs; unit_as].

Definition all_dtypes : list np_dtype :=
  [np_bool; np_int8; np_int16; np_int32; np_int64;
   np_uint8; np_uint16; np_uint32; np_uint64;
   np_float16; np_float32; np_float64; np_complex64; np_complex128]
  ++ map np_timedelta64 all_units ++ map np_datetime64 all_units
  ++ [np_object].

(** [np.dtype(spec)] for the canonical names only. *)
Definition dtype_of (spec : pyobj) : result np_dtype :=
  match spec with
  | PyStr s =>
    match find (fun d => String.eqb (dtype_str d) s) all_dtypes with
    | Some d => Ok d
    | None => Raise TypeError
    end
  | _ => Raise TypeError
  end.

#[export] Instance numpy : NumPy :=
  {| np_dtype_str := dtype_str;
     np_dtype_of := dtype_of;
     np_scalar_of := fun value dtype =>
       Ok {| sc_dtype := dtype; sc_item := value;
             sc_int := match value with PyInt n => n | _ => 0 end |} |}.

(** A table format with length prefixes in place of the IPC stream. *)
Definition put_bytes (b : pybytes) : pybytes := le_split 8 (len b) ++ b.

Definition put_chunk (c : pa_array) : pybytes :=
  put_bytes (str_encode_utf8 (arrow_type_str (pa_type c)))
  ++ put_bytes (pa_content c).

Definition put_column (c : string * (arrow_type * list pa_array)) : pybytes :=
  put_bytes (str_encode_utf8 (fst c))
  ++ put_bytes (str_encode_utf8 (arrow_type_str (fst (snd c))))
  ++ le_split 8 (len (snd (snd c)))
  ++ concat (map put_chunk (snd (snd c))).

Definition write_table (t : pa_table) : pybytes :=
  le_split 8 (len t) ++ concat (map put_column t).

Definition get_word (b : pybytes) : option (nat * pybytes) :=
  if (length b <? 8)%nat then None
  else Some (Z.to_nat (le_combine (firstn 8 b)), skipn 8 b).

Definition get_bytes (b : pybytes) : option (pybytes * pybytes) :=
  '(n, rest) ← get_word b;
  if (length rest <? n)%nat then None
  else Some (firstn n rest, skipn n rest).

Definition get_str (b : pybytes) : option (string * pybytes) :=
  '(x, rest) ← get_bytes b; Some (string_of_list_byte x, rest).

Fixpoint get_many {A} (get : pybytes -> option (A * pybytes)) (n : nat)
    (b : pybytes) : option (list A * pybytes) :=
  match n with
  | O => Some ([], b)
  | S n' =>
    '(x, rest) ← get b;
    '(xs, rest') ← get_many get n' rest;
    Some (x :: xs, rest')
  end.

Definition get_chunk (b : pybytes) : option (pa_array * pybytes) :=
  '(type, rest) ← get_str b;
  '(content, rest') ← get_bytes rest;
  Some ({| pa_type := mk_arrow_type type; pa_content := content |}, rest').

Definition get_column (b : pybytes)
  : option ((string * (arrow_type * list pa_array)) * pybytes) :=
  '(name, r1) ← get_str b;
  '(type, r2) ← get_str r1;
  '(n, r3) ← get_word r2;
  '(chunks, r4) ← get_many get_chunk n r3;
  Some ((name, (mk_arrow_type type, chunks)), r4).

Definition read_all (b : pybytes) : result pa_table :=
  match get_word b ≫= (fun '(n, rest) => get_many get_column n rest) with
  | Some (t, []) => Ok t
  | _ => Raise ValueError
  end.

#[export] Instance pyarrow : PyArrow :=
  {| ipc_write_table := write_table;
     ipc_read_all := read_all;
     pa_deserialize := fun b =>
       match get_chunk b with
       | Some (c, []) => Ok (PyArrowArray (pa_Array c))
       | _ => Raise ValueError
       end |}.

(** Collaborators: selections and functions are objects whose dict form
    names them; a function is rebuilt only when [trusted] is [True]. *)
#[export] Instance vaex : Vaex :=
  {| arrow_to_numpy := fun t =>
       if String.eqb (arrow_type_str t) "timestamp[ms]"
       then Ok (np_datetime64 unit_ms)
       else if String.eqb (arrow_type_str t) "string" then Ok np_object
       else if String.eqb (arrow_type_str t) "large_string" then Ok np_object
       else Raise TypeError;
     selection_to_dict := fun selection =>
       match selection with
       | PyObject id => Ok (PyDict [("type", PyStr "selection");
                                    ("id", PyInt (Z.of_N id))])
       | _ => Raise AttributeError
       end;
     selection_from_dict := fun spec =>
       id ← getitem spec "id";
       match id with
       | PyInt n => Ok (PyObject (Z.to_N n))
       | _ => Raise TypeError
       end;
     serialize_to_dict := fun function =>
       match function with
       | PyObject id => Ok (PyDict [("cls", PyStr "function");
                                    ("id", PyInt (Z.of_N id))])
       | _ => Raise AttributeError
       end;
     serialize_from_dict := fun spec trusted =>
       id ← getitem spec "id";
       match id, trusted with
       | PyInt n, PyBool true => Ok (PyObject (Z.to_N n))
       | PyInt _, _ => Raise ValueError
       | _, _ => Raise TypeError
       end;
     hash_new := fun clsname values count nan_count missing_count =>
       if str_startswith "ordered_set_" clsname
       then Ok (PyDict [("class", PyStr clsname); ("values", values)])
       else Raise AttributeError |}.

(** A JSON writer and reader for trees of [None], booleans, integers,
    strings, lists and dicts, with the separators [json.dumps] uses. *)
Definition quote_char : ascii := ascii_of_nat 34.

Definition escape_char (c : ascii) : string :=
  if Ascii.eqb c quote_char then String "\" (String quote_char "")
  else if Ascii.eqb c "\" then "\\"
  else if (nat_of_ascii c <? 32)%nat
       then ("\u00" ++ hex 2 (nat_of_ascii c))%string
       else String c "".

Fixpoint escape (s : string) : string :=
  match s with
  | EmptyString => ""
  | String c s' => (escape_char c ++ escape s')%string
  end.

Definition quote (s : string) : string :=
  String quote_char (escape s ++ String quote_char "").

Fixpoint join (sep : string) (parts : list string) : string :=
  match parts with
  | [] => ""
  | [x] => x
  | x :: rest => (x ++ sep ++ join sep rest)%string
  end.

Definition sequence {A} (l : list (result A)) : result (list A) :=
  fold_right (fun r acc => x ← r; xs ← acc; Ok (x :: xs)) (Ok []) l.

Fixpoint dumps (obj : pyobj) : result string :=
  match obj with
  | PyNone => Ok "null"
  | PyBool true => Ok "true"
  | PyBool false => Ok "false"
  | PyInt n => Ok (NilZero.string_of_int (Z.to_int n))
  | PyStr s => Ok (quote s)
  | PyList items =>
    parts ← sequence (map dumps items);
    Ok ("[" ++ join ", " parts ++ "]")%string
  | PyDict items =>
    parts ← sequence (map (fun kv =>
               v ← dumps (snd kv); Ok (quote (fst kv) ++ ": " ++ v)%string)
             items);
    Ok ("{" ++ join ", " parts ++ "}")%string
  | _ => Raise TypeError
  end.

Definition is_space (c : ascii) : bool :=
  Ascii.eqb c " " || (nat_of_ascii c =? 10)%nat
  || (nat_of_ascii c =? 13)%nat || (nat_of_ascii c =? 9)%nat.

Fixpoint skip_space (s : string) : string :=
  match s with
  | String c s' => if is_space c then skip_space s' else s
  | EmptyString => s
  end.

Definition is_digit (c : ascii) : bool :=
  (48 <=? nat_of_ascii c)%nat && (nat_of_ascii c <=? 57)%nat.

(** The longest run of digits, after an optional sign. *)
Fixpoint take_digits (s : string) : string * string :=
  match s with
  | String c s' =>
    if is_digit c
    then let '(d, rest) := take_digits s' in (String c d, rest)
    else ("", s)
  | EmptyString => ("", s)
  end.

Definition hex_value (c : ascii) : option nat :=
  let n := nat_of_ascii c in
  if is_digit c then Some (n - 48)%nat
  else if (97 <=? n)%nat && (n <=? 102)%nat then Some (n - 87)%nat
  else if (65 <=? n)%nat && (n <=? 70)%nat then Some (n - 55)%nat
  else None.

(** The body of a string, up to the closing quote. *)
Fixpoint read_string (s : string) : option (string * string) :=
  match s with
  | EmptyString => None
  | String c s' =>
    if Ascii.eqb c quote_char then Some ("", s')
    else if Ascii.eqb c "\" then
      match s' with
      | String e s'' =>
        if Ascii.eqb e "u" then
          match s'' with
          | String a (String b (String c1 (String c2 rest))) =>
            match hex_value a, hex_value b, hex_value c1, hex_value c2 with
            | Some 0%nat, Some 0%nat, Some h, Some l =>
              if (h <? 8)%nat then
                '(body, after) ← read_string rest;
                Some (String (ascii_of_nat (16 * h + l)) body, after)
              else None
            | _, _, _, _ => None
            end
          | _ => None
          end
        else
          let plain :=
            if Ascii.eqb e quote_char then Some e
            else if Ascii.eqb e "\" then Some e
            else if Ascii.eqb e "/" then Some e
            else if Ascii.eqb e "n" then Some (ascii_of_nat 10)
            else if Ascii.eqb e "r" then Some (ascii_of_nat 13)
            else if Ascii.eqb e "t" then Some (ascii_of_nat 9)
            else if Ascii.eqb e "b" then Some (ascii_of_nat 8)
            else if Ascii.eqb e "f" then Some (ascii_of_nat 12)
            else None in
          ch ← plain;
          '(body, after) ← read_string s'';
          Some (String ch body, after)
      | EmptyString => None
      end
    else
      '(body, after) ← read_string s';
      Some (String c body, after)
  end.

Definition read_int (s : string) : option (pyobj * string) :=
  let '(sign, body) :=
    match s with
    | String "-" s' => ("-"%string, s')
    | _ => (""%string, s)
    end in
  let '(digits, rest) := take_digits body in
  n ← NilZero.int_of_string (sign ++ digits);
  Some (PyInt (Z.of_int n), rest).

(** [fuel] bounds the number of values read. *)
Fixpoint read_value (fuel : nat) (s : string) : option (pyobj * string) :=
  match fuel with
  | O => None
  | S fuel' =>
    match skip_space s with
    | String "n" (String "u" (String "l" (String "l" rest))) =>
      Some (PyNone, rest)
    | String "t" (String "r" (String "u" (String "e" rest))) =>
      Some (PyBool true, rest)
    | String "f" (String "a" (String "l" (String "s" (String "e" rest)))) =>
      Some (PyBool false, rest)
    | String "[" rest =>
      match skip_space rest with
      | String "]" after => Some (PyList [], after)
      | _ => '(items, after) ← read_items fuel' rest;
             Some (PyList items, after)
      end
    | String "{" rest =>
      match skip_space rest with
      | String "}" after => Some (PyDict [], after)
      | _ => '(items, after) ← read_members fuel' rest;
             Some (PyDict (dict_of_pairs items), after)
      end
    | String c rest as other =>
      if Ascii.eqb c quote_char
      then '(body, after) ← read_string rest; Some (PyStr body, after)
      else read_int other
    | EmptyString => None
    end
  end
with read_items (fuel : nat) (s : string) : option (list pyobj * string) :=
  match fuel with
  | O => None
  | S fuel' =>
    '(x, after) ← read_value fuel' s;
    match skip_space after with
    | String "," rest =>
      '(xs, after') ← read_items fuel' rest; Some (x :: xs, after')
    | String "]" rest => Some ([x], rest)
    | _ => None
    end
  end
with read_members (fuel : nat) (s : string)
  : option (list (string * pyobj) * string) :=
  match fuel with
  | O => None
  | S fuel' =>
    match skip_space s with
    | String c rest =>
      if negb (Ascii.eqb c quote_char) then None
      else
        '(key, after) ← read_string rest;
        match skip_space after with
        | String ":" rest' =>
          '(x, after') ← read_value fuel' rest';
          match skip_space after' with
          | String "," rest'' =>
            '(xs, after'') ← read_members fuel' rest'';
            Some ((key, x) :: xs, after'')
          | String "}" rest'' => Some ([(key, x)], rest'')
          | _ => None
          end
        | _ => None
        end
    | EmptyString => None
    end
  end.

Definition loads (s : string) : result pyobj :=
  match read_value (S (String.length s)) s with
  | Some (obj, rest) =>
    match skip_space rest with
    | EmptyString => Ok obj
    | _ => Raise ValueError
    end
  | None => Raise ValueError
  end.

#[export] Instance json : Json := {| json_dumps := dumps; json_loads := loads |}.

End Sample.

(** The standard base64 alphabet, with padding; the reader is strict. *)
Module SampleBase64.

Definition alphabet : pybytes :=
  list_byte_of_string
    "ABCDEFGHIJKLMNOPQRSTUVWXYZabcdefghijklmnopqrstuvwxyz0123456789+/".

Definition pad : byte := Byte.x3d.

Definition digit (n : Z) : byte := nth (Z.to_nat n) alphabet pad.

Fixpoint encode (b : pybytes) : pybytes :=
  match b with
  | [] => []
  | x :: rest =>
    let a := byte.unsigned x in
    match rest with
    | [] => [digit (a / 4); digit (a mod 4 * 16); pad; pad]
    | y :: rest' =>
      let b := byte.unsigned y in
      match rest' with
      | [] => [digit (a / 4); digit (a mod 4 * 16 + b / 16);
               digit (b mod 16 * 4); pad]
      | z :: rest'' =>
        let c := byte.unsigned z in
        digit (a / 4) :: digit (a mod 4 * 16 + b / 16)
        :: digit (b mod 16 * 4 + c / 64) :: digit (c mod 64)
        :: encode rest''
      end
    end
  end.

Fixpoint index_from (n : Z) (x : byte) (l : pybytes) : option Z :=
  match l with
  | [] => None
  | y :: l' =>
    if byte.unsigned x =? byte.unsigned y then Some n
    else index_from (n + 1) x l'
  end.

Definition value_of (x : byte) : option Z := index_from 0 x alphabet.

Definition is_pad (x : byte) : bool := byte.unsigned x =? byte.unsigned pad.

Fixpoint decode (s : pybytes) : option pybytes :=
  match s with
  | [] => Some []
  | w :: x :: y :: z :: rest =>
    a ← value_of w;
    b ← value_of x;
    let first := byte.of_Z (a * 4 + b / 16) in
    if is_pad y && is_pad z then
      match rest with
      | [] => Some [first]
      | _ => None
      end
    else
      c ← value_of y;
      let second := byte.of_Z (b mod 16 * 16 + c / 4) in
      if is_pad z then
        match rest with
        | [] => Some [first; second]
        | _ => None
        end
      else
        d ← value_of z;
        more ← decode rest;
        Some (first :: second :: byte.of_Z (c mod 4 * 64 + d) :: more)
  | _ => None
  end.

#[export] Instance base64 : Base64 :=
  {| b64encode := encode;
     b64decode := fun s =>
       match decode s with
       | Some b => Ok b
       | None => Raise ValueError
       end |}.
End SampleBase64.


(** ** Vocabulary of the statements *)

(** The offsets of an envelope whose blobs have the lengths [lens] and whose
    first blob starts at [start]. *)
Fixpoint offsets_of (start : Z) (lens : list Z) : list Z :=
  match lens with
  | [] => [start]
  | l :: lens' => start :: offsets_of (start + l) lens'
  end.

Definition total_len (blobs : list pybytes) : Z :=
  fold_right Z.add 0 (map len blobs).

(** An envelope of [blobs] fits: its length is a valid [Py_ssize_t]. *)
Definition envelope_fits (blobs : list pybytes) : Prop :=
  8 * (len blobs + 2) + total_len blobs <= int64_max.

(** [bytes] with the 8 bytes of header word [k] overwritten by [word]
    (word 0 is the count, word [i+1] is offset [i]). *)
Definition set_header_word (k : nat) (word : pybytes) (bytes : pybytes)
  : pybytes :=
  firstn (8 * k) bytes ++ word ++ skipn (8 * k + 8) bytes.

Fixpoint increasing (strict : bool) (l : list Z) : bool :=
  match l with
  | x :: (y :: _) as l' =>
    (if strict then x <? y else x <=? y) && increasing strict l'
  | _ => true
  end.

(** The session after a computation, and its outcome. *)
Definition outcome {A} (m : M A) (p : process) : result A := fst (m p).
Definition session_after {A} (m : M A) (p : process) : Encoding :=
  self (snd (m p)).

(** A dict has each key once. *)
Definition dict_ok {V} (d : list (string * V)) : Prop := NoDup (dict_keys d).

Definition sum_Z (l : list Z) : Z := fold_right Z.add 0 l.

(** The words of the header [_pack_blobs] writes when nothing wraps. *)
Definition header_words (blobs : list pybytes) : list Z :=
  len blobs :: offsets_of (8 * (2 + len blobs)) (map len blobs).

(** What [_unpack_blobs] does once the header has been read. *)
Definition unpack_body (bytes : pybytes) (offsets : list Z)
  : result (list pybytes) :=
  last ← py_index offsets (-1);
  py_assert (last =? len bytes);;
  Ok (map (fun '(i1, i2) => py_slice bytes (Some i1) (Some i2))
          (py_zip (py_slice offsets None (Some (-1)))
                  (py_slice offsets (Some 1) None))).

(** ** Vocabulary of the further statements, and sample values *)

(** The one-column table the encoder writes. *)
Definition table_of (a : arrow_array) : pa_table :=
  match a with
  | pa_Array c => [("x", (pa_type c, [c]))]
  | pa_ChunkedArray type chunks => [("x", (type, chunks))]
  end.

(** The three tags the decoder maps to columnar types. *)
Definition arrow_tags : list string := ["string"; "large_string"; "timestamp[ms]"].

(** The [shape] entry of an encoded array. *)
Definition shape_value (shape : list nat) : pyobj :=
  PyList (map (fun n => PyInt (Z.of_nat n)) shape).

(** A dense array: elements packed in the buffer, and a mask, if there is
    one, that is an array of the shape of the data. *)
Definition dense (a : ndarray) : Prop :=
  nd_dtype a <> np_object
  /\ length (nd_buffer a) = (np_itemsize (nd_dtype a) * np_size (nd_shape a))%nat
  /\ nd_items a = []
  /\ match nd_mask a with
     | Some (mask_array m) => length m = np_size (nd_shape a)
     | Some nomask => False
     | None => True
     end.

(** numpy reads the name it prints for [d] as [d], and the name is none of
    the tags kept for columnar types. *)
Definition dtype_tag_ok `{NumPy} (d : np_dtype) : Prop :=
  np_dtype_of (PyStr (np_dtype_str d)) = Ok d
  /\ np_dtype_str d ∉ arrow_tags.

(** The metadata document of a session and its root form. *)
Definition metadata (data : pyobj) (e : Encoding) : pyobj :=
  PyDict [("data", data);
          ("blob_refs", PyList (map PyStr (dict_keys (blobs e))));
          ("objects", PyDict (_object_specs e))].

(** [[d[k] for k in keys]] *)
Fixpoint getitems {V} (d : list (string * V)) (keys : list string)
  : result (list V) :=
  match keys with
  | [] => Ok []
  | k :: keys' => x ← dict_getitem d k; xs ← getitems d keys'; Ok (x :: xs)
  end.



(** [None], booleans, integers, strings, bytes and dicts: values that
    numpy keeps as one element of an array of objects, and that [tolist]
    returns as they are. *)
Definition is_leaf (v : pyobj) : bool :=
  match v with
  | PyNone | PyBool _ | PyInt _ | PyStr _ | PyBytes _ | PyDict _ => true
  | _ => false
  end.

(** An array of dtype object without a mask, whose items are such
    values. *)
Definition boxed (a : ndarray) : Prop :=
  nd_dtype a = np_object
  /\ nd_buffer a = []
  /\ nd_mask a = None
  /\ length (nd_items a) = np_size (nd_shape a)
  /\ Forall (fun v => is_leaf v = true) (nd_items a).

(** A fresh session in a process that has drawn no identifier yet. *)
Definition p0 : process := {| self := Encoding_init; uuid_calls := 0 |}.

(** The int64 array of 1, 2, 3; the same with its second element masked;
    the same as a masked array without a mask. *)
Definition a123 : ndarray :=
  {| nd_dtype := np_int64; nd_shape := [3%nat];
     nd_buffer := le_split 8 1 ++ le_split 8 2 ++ le_split 8 3;
     nd_items := []; nd_mask := None |}.

Definition a123_masked : ndarray :=
  {| nd_dtype := np_int64; nd_shape := [3%nat];
     nd_buffer := le_split 8 1 ++ le_split 8 2 ++ le_split 8 3;
     nd_items := [];
     nd_mask := Some (mask_array [false; true; false]) |}.


Definition utf8_chunk : pa_array :=
  {| pa_type := pa_string; pa_content := [Byte.x61; Byte.x62] |}.


Definition no_rows : ndarray :=
  {| nd_dtype := np_object; nd_shape := [0%nat; 3%nat]; nd_buffer := [];
     nd_items := []; nd_mask := None |}.

(** A session with two blobs and one object spec. *)
Definition p2 : process :=
  {| self := {| blobs := [("id-1", [Byte.x01; Byte.x02]); ("id-2", [])];
                _object_specs := [("df", PyList [PyInt 1; PyNone])];
                _objects := [] |};
     uuid_calls := 2 |}.

(** What [inline.serialize] hands to [json.dumps]. *)
Definition inline_form `{Base64} (data : pyobj) (e : Encoding) : pyobj :=
  PyDict [("data", data);
          ("blobs",
           PyDict (map (fun kv => (fst kv,
                                   PyStr (string_of_list_byte
                                            (b64encode (snd kv)))))
                       (blobs e)))].

(** * Properties *)

(** * Words of the header *)

Section Words.
Context `{Platform}.

Lemma int64_signed_mod (z : Z) :
  in_int64 z = true -> int64_signed (z mod 2 ^ 64) = z.
Proof.
  unfold in_int64, int64_signed, int64_min, int64_max.
  rewrite andb_true_iff, !Z.leb_le. intros [Hlo Hhi].
  destruct (Z.ltb_spec (z mod 2 ^ 64) (2 ^ 63)) as [Hlt | Hge].
  - destruct (Z.neg_nonneg_cases z) as [Hneg | Hpos].
    + exfalso.
      assert (z mod 2 ^ 64 = z + 2 ^ 64) as E.
      { symmetry. apply (Z.mod_unique z (2 ^ 64) (-1)); lia. }
      lia.
    + apply Z.mod_small. lia.
  - destruct (Z.neg_nonneg_cases z) as [Hneg | Hpos].
    + assert (z mod 2 ^ 64 = z + 2 ^ 64) as E.
      { symmetry. apply (Z.mod_unique z (2 ^ 64) (-1)); lia. }
      lia.
    + rewrite Z.mod_small in Hge by lia. lia.
Qed.

Lemma int64_wrap_id (z : Z) : in_int64 z = true -> int64_wrap z = z.
Proof. apply int64_signed_mod. Qed.

Lemma length_pack_q (z : Z) : length (pack_q z) = 8%nat.
Proof.
  unfold pack_q. destruct native_order.
  - apply length_le_split.
  - rewrite length_rev. apply length_le_split.
Qed.

Lemma unpack_pack_q (z : Z) : in_int64 z = true -> unpack_q (pack_q z) = z.
Proof.
  intros Hz. unfold unpack_q, pack_q. destruct native_order.
  - rewrite le_combine_split. change (Z.of_nat 8 * 8) with 64.
    by apply int64_signed_mod.
  - rewrite rev_involutive, le_combine_split. change (Z.of_nat 8 * 8) with 64.
    by apply int64_signed_mod.
Qed.

Lemma unpack_words_app (vals : list Z) (rest : pybytes) :
  forallb in_int64 vals = true ->
  unpack_words (length vals) (concat (map pack_q vals) ++ rest) = vals.
Proof.
  induction vals as [| z vals IH]; intros Hall; [done |].
  simpl in Hall. apply andb_true_iff in Hall as [Hz Hall].
  cbn [length unpack_words map concat].
  rewrite <- app_assoc.
  rewrite take_app_length' by (by rewrite length_pack_q).
  rewrite drop_app_length' by (by rewrite length_pack_q).
  rewrite unpack_pack_q by done. f_equal. by apply IH.
Qed.

Lemma length_pack_words (vals : list Z) :
  length (concat (map pack_q vals)) = (8 * length vals)%nat.
Proof.
  induction vals as [| z vals IH]; [done |].
  cbn [map concat]. rewrite length_app, length_pack_q, IH. simpl. lia.
Qed.
End Words.

Section Envelope.
Context `{Platform}.

Lemma BytesIO_write_end (b v : pybytes) :
  BytesIO_write b {| getvalue := v; tell := length v |}
  = {| getvalue := v ++ b; tell := length (v ++ b) |}.
Proof.
  unfold BytesIO_write; cbn [getvalue tell].
  rewrite firstn_all, skipn_all2 by lia.
  by rewrite app_nil_r, length_app.
Qed.

Lemma BytesIO_write_all (blobs : list pybytes) (v : pybytes) :
  fold_left (fun s blob => BytesIO_write blob s) blobs
            {| getvalue := v; tell := length v |}
  = {| getvalue := v ++ concat blobs; tell := length (v ++ concat blobs) |}.
Proof.
  revert v. induction blobs as [| blob blobs IH]; intros v; cbn [fold_left concat].
  - by rewrite app_nil_r.
  - rewrite BytesIO_write_end, IH. by rewrite <- app_assoc.
Qed.

Lemma in_int64_range (z : Z) : 0 <= z <= int64_max -> in_int64 z = true.
Proof.
  unfold in_int64, int64_min, int64_max. intros Hz.
  apply andb_true_iff. rewrite !Z.leb_le. lia.
Qed.

Lemma sum_Z_nonneg (lens : list Z) : Forall (Z.le 0) lens -> 0 <= sum_Z lens.
Proof. induction 1; simpl; [lia |]. unfold sum_Z in *. lia. Qed.

Lemma offsets_nowrap (lens : list Z) (acc h : Z) :
  0 <= acc -> 0 <= h -> Forall (Z.le 0) lens ->
  acc + h + sum_Z lens <= int64_max ->
  np_add (np_cumsum_from acc lens) h = tail (offsets_of (acc + h) lens).
Proof.
  revert acc. induction lens as [| l lens IH]; intros acc Hacc Hh Hpos Hsum.
  - done.
  - apply Forall_cons in Hpos as [Hl Hpos]. cbn [sum_Z fold_right] in Hsum.
    pose proof (sum_Z_nonneg _ Hpos) as Hs.
    fold (sum_Z lens) in Hsum.
    cbn [np_cumsum_from np_add map offsets_of tail].
    rewrite (int64_wrap_id (acc + l)) by (apply in_int64_range; lia).
    rewrite (int64_wrap_id (acc + l + h)) by (apply in_int64_range; lia).
    fold (np_add (np_cumsum_from (acc + l) lens) h).
    rewrite IH by (done || lia).
    replace (acc + l + h) with (acc + h + l) by lia.
    by destruct lens.
Qed.

Lemma offsets_of_cons (start : Z) (lens : list Z) :
  offsets_of start lens = start :: tail (offsets_of start lens).
Proof. by destruct lens. Qed.

Lemma header_offsets_nowrap (lens : list Z) (h : Z) :
  0 <= h -> Forall (Z.le 0) lens -> h + sum_Z lens <= int64_max ->
  np_add (np_cumsum (0 :: lens)) h = offsets_of h lens.
Proof.
  intros Hh Hpos Hsum. pose proof (sum_Z_nonneg _ Hpos) as Hs.
  unfold np_cumsum. cbn [np_cumsum_from np_add map].
  change (int64_wrap (0 + 0)) with 0.
  fold (np_add (np_cumsum_from 0 lens) h).
  rewrite offsets_nowrap by (done || lia).
  rewrite (int64_wrap_id (0 + h)) by (apply in_int64_range; lia).
  rewrite Z.add_0_l. symmetry. apply offsets_of_cons.
Qed.

Lemma length_offsets_of (start : Z) (lens : list Z) :
  length (offsets_of start lens) = S (length lens).
Proof. revert start. induction lens; intros; simpl; [done | by rewrite IHlens]. Qed.

Lemma last_offsets_of (start : Z) (lens : list Z) :
  last (offsets_of start lens) = Some (start + sum_Z lens).
Proof.
  revert start. induction lens as [| l lens IH]; intros start.
  - simpl. f_equal. lia.
  - cbn [offsets_of]. rewrite (offsets_of_cons (start + l)).
    rewrite last_cons_cons, <- offsets_of_cons, IH. f_equal. simpl. lia.
Qed.

Lemma offsets_of_bounds (start : Z) (lens : list Z) :
  Forall (Z.le 0) lens ->
  Forall (fun o => start <= o <= start + sum_Z lens) (offsets_of start lens).
Proof.
  revert start. induction lens as [| l lens IH]; intros start Hpos.
  - repeat constructor; simpl; lia.
  - apply Forall_cons in Hpos as [Hl Hpos]. cbn [offsets_of].
    pose proof (sum_Z_nonneg _ Hpos) as Hs.
    constructor; [simpl; fold (sum_Z lens); lia |].
    eapply Forall_impl; [apply IH; done |].
    intros o Ho; simpl in *. fold (sum_Z lens). lia.
Qed.

(** [l[-1]] is the last element. *)
Lemma py_index_last {A} (l : list A) (x : A) :
  last l = Some x -> py_index l (-1) = Ok x.
Proof.
  intros Hl. unfold py_index, len.
  destruct l as [| y l] using rev_ind; [done |].
  rewrite last_snoc in Hl. injection Hl as ->.
  rewrite length_app. cbn [length].
  change (-1 <? 0) with true. cbv iota.
  destruct (Z.ltb_spec (-1 + Z.of_nat (length l + 1)) 0) as [|_]; [lia |].
  replace (Z.to_nat (-1 + Z.of_nat (length l + 1))) with (length l) by lia.
  rewrite nth_error_app2 by lia. by rewrite Nat.sub_diag.
Qed.

Lemma lens_nonneg (blobs : list pybytes) : Forall (Z.le 0) (map len blobs).
Proof. induction blobs; constructor; [unfold len; lia | done]. Qed.

Lemma len_concat (blobs : list pybytes) : len (concat blobs) = total_len blobs.
Proof.
  unfold len, total_len. induction blobs as [| b blobs IH]; [done |].
  cbn [concat map fold_right]. rewrite length_app, <- IH. unfold len. lia.
Qed.

Lemma header_words_in_int64 (blobs : list pybytes) :
  envelope_fits blobs -> forallb in_int64 (header_words blobs) = true.
Proof.
  unfold envelope_fits. intros Hfit.
  assert (0 <= total_len blobs) as Ht by (rewrite <- len_concat; unfold len; lia).
  assert (0 <= len blobs) as Hl by (unfold len; lia).
  apply forallb_forall. intros z Hz. apply in_int64_range.
  destruct Hz as [<- | Hz]; [lia |].
  pose proof (offsets_of_bounds (8 * (2 + len blobs)) _ (lens_nonneg blobs)) as Hb.
  rewrite List.Forall_forall in Hb. apply Hb in Hz.
  change (sum_Z (map len blobs)) with (total_len blobs) in Hz. lia.
Qed.

Lemma pack_blobs_ok (blobs : list pybytes) :
  envelope_fits blobs ->
  _pack_blobs blobs
  = Ok (concat (map pack_q (header_words blobs)) ++ concat blobs).
Proof.
  intros Hfit. pose proof Hfit as Hfit'. unfold envelope_fits in Hfit'.
  assert (0 <= total_len blobs) as Ht by (rewrite <- len_concat; unfold len; lia).
  assert (0 <= len blobs) as Hl by (unfold len; lia).
  unfold _pack_blobs.
  rewrite header_offsets_nowrap;
    [| lia | apply lens_nonneg
     | change (sum_Z (map len blobs)) with (total_len blobs); lia].
  fold (header_words blobs).
  unfold struct_pack_q.
  replace (len blobs + 2 =? len (header_words blobs)) with true; cycle 1.
  { symmetry. apply Z.eqb_eq. unfold header_words, len. cbn [length].
    rewrite length_offsets_of, length_map. lia. }
  rewrite header_words_in_int64 by done. cbn [negb mbind result_bind].
  change (BytesIO_new []) with {| getvalue := []; tell := length (@nil byte) |}.
  rewrite BytesIO_write_end, BytesIO_write_all. cbn [getvalue app].
  erewrite py_index_last; cycle 1.
  { rewrite last_offsets_of. reflexivity. }
  cbn [mbind result_bind].
  replace (_ =? _) with true; [done |].
  symmetry. apply Z.eqb_eq.
  unfold len at 3. rewrite length_app, length_pack_words.
  unfold header_words. cbn [length]. rewrite length_offsets_of, length_map.
  change (sum_Z (map len blobs)) with (total_len blobs).
  rewrite <- len_concat. unfold len. lia.
Qed.
End Envelope.

Section Slices.
Context {A : Type}.

Lemma py_slice_init (l : list A) :
  l <> [] -> py_slice l None (Some (-1)) = removelast l.
Proof.
  intros Hl. unfold py_slice, slice_bound, len.
  change (-1 <? 0) with true. cbv iota.
  rewrite removelast_firstn_len. simpl drop.
  destruct l as [| x l]; [done |]. cbn [length Init.Nat.pred].
  f_equal. lia.
Qed.

Lemma py_slice_tail (l : list A) : py_slice l (Some 1) None = tail l.
Proof.
  unfold py_slice, slice_bound, len. change (1 <? 0) with false. cbv iota.
  destruct l as [| x l]; [done |].
  cbn [length]. replace (Z.to_nat (Z.min 1 (Z.of_nat (S (length l))))) with 1%nat by lia.
  cbn [drop tail]. apply firstn_all2. lia.
Qed.

Lemma py_slice_middle (pre mid post : list A) :
  py_slice (pre ++ mid ++ post) (Some (len pre)) (Some (len pre + len mid)) = mid.
Proof.
  unfold py_slice, slice_bound, len.
  destruct (Z.ltb_spec (Z.of_nat (length pre)) 0); [lia |].
  destruct (Z.ltb_spec (Z.of_nat (length pre) + Z.of_nat (length mid)) 0); [lia |].
  rewrite !length_app.
  replace (Z.to_nat (Z.min (Z.of_nat (length pre)) _)) with (length pre) by lia.
  rewrite drop_app_length.
  replace (Z.to_nat _) with (length mid) by lia.
  apply take_app_length.
Qed.
End Slices.

Lemma offsets_of_nonempty (start : Z) (lens : list Z) : offsets_of start lens <> [].
Proof. by destruct lens. Qed.

Lemma zip_offsets_cons (start l : Z) (lens : list Z) :
  py_zip (removelast (offsets_of start (l :: lens)))
         (tail (offsets_of start (l :: lens)))
  = (start, start + l)
    :: py_zip (removelast (offsets_of (start + l) lens))
              (tail (offsets_of (start + l) lens)).
Proof.
  cbn [offsets_of tail].
  rewrite (offsets_of_cons (start + l) lens).
  generalize (tail (offsets_of (start + l) lens)). intros t.
  by destruct t.
Qed.

Lemma slices_of_offsets (blobs : list pybytes) (pre post : pybytes) :
  map (fun '(i1, i2) =>
         py_slice (pre ++ concat blobs ++ post) (Some i1) (Some i2))
      (py_zip (removelast (offsets_of (len pre) (map len blobs)))
              (tail (offsets_of (len pre) (map len blobs))))
  = blobs.
Proof.
  revert pre. induction blobs as [| b blobs IH]; intros pre; [done |].
  cbn [map]. rewrite zip_offsets_cons. cbn [map concat].
  f_equal.
  - rewrite <- (app_assoc b). apply py_slice_middle.
  - replace (len pre + len b) with (len (pre ++ b))
      by (unfold len; rewrite length_app; lia).
    rewrite <- (app_assoc b), (app_assoc pre b). apply IH.
Qed.

Section Unpack.
Context `{Platform}.

Lemma int64_signed_mod_eq (u : Z) :
  0 <= u < 2 ^ 64 -> int64_signed u mod 2 ^ 64 = u.
Proof.
  intros Hu. unfold int64_signed. destruct (Z.ltb_spec u (2 ^ 63)).
  - apply Z.mod_small. lia.
  - symmetry. apply (Z.mod_unique _ _ (-1)); lia.
Qed.

Lemma int64_signed_in_int64 (u : Z) :
  0 <= u < 2 ^ 64 -> in_int64 (int64_signed u) = true.
Proof.
  intros Hu. unfold in_int64, int64_signed, int64_min, int64_max.
  apply andb_true_iff. rewrite !Z.leb_le.
  destruct (Z.ltb_spec u (2 ^ 63)); lia.
Qed.

Lemma le_combine_8_bound (w : pybytes) :
  length w = 8%nat -> 0 <= le_combine w < 2 ^ 64.
Proof. intros Hw. pose proof (le_combine_bound w) as Hb. by rewrite Hw in Hb. Qed.

Lemma pack_unpack_q (w : pybytes) : length w = 8%nat -> pack_q (unpack_q w) = w.
Proof.
  intros Hw. unfold pack_q, unpack_q. destruct native_order.
  - rewrite le_split_mod. change (Z.of_nat 8 * 8) with 64.
    rewrite int64_signed_mod_eq by (by apply le_combine_8_bound).
    rewrite <- Hw. apply split_le_combine.
  - rewrite le_split_mod. change (Z.of_nat 8 * 8) with 64.
    assert (length (rev w) = 8%nat) as Hr by (by rewrite length_rev).
    rewrite int64_signed_mod_eq by (by apply le_combine_8_bound).
    rewrite <- Hr, split_le_combine. apply rev_involutive.
Qed.

Lemma unpack_q_in_int64 (w : pybytes) :
  length w = 8%nat -> in_int64 (unpack_q w) = true.
Proof.
  intros Hw. unfold unpack_q. destruct native_order.
  - by apply int64_signed_in_int64, le_combine_8_bound.
  - apply int64_signed_in_int64, le_combine_8_bound. by rewrite length_rev.
Qed.

Lemma BytesIO_read_at (n : Z) (a b c v : pybytes) :
  v = a ++ b ++ c ->
  in_int64 n = true -> 0 <= n -> Z.to_nat n = length b ->
  BytesIO_read n {| getvalue := v; tell := length a |}
  = Ok (b, {| getvalue := v; tell := (length a + length b)%nat |}).
Proof.
  intros -> Hin Hn Hb. unfold BytesIO_read. cbn [getvalue tell].
  rewrite Hin. cbn [negb].
  destruct (Z.ltb_spec n 0) as [| _]; [lia |].
  rewrite drop_app_length, Hb, take_app_length. done.
Qed.

Lemma struct_unpack_pack (n : Z) (vals : list Z) :
  n = len vals -> forallb in_int64 vals = true ->
  struct_unpack_q n (concat (map pack_q vals)) = Ok vals.
Proof.
  intros -> Hall. unfold struct_unpack_q, len.
  destruct (Z.ltb_spec (Z.of_nat (length vals)) 0) as [| _]; [lia |].
  rewrite length_pack_words.
  replace (_ =? _) with true by (symmetry; apply Z.eqb_eq; lia).
  cbn [negb]. rewrite Nat2Z.id.
  rewrite <- (app_nil_r (concat (map pack_q vals))).
  by rewrite unpack_words_app.
Qed.

Lemma struct_unpack_one (z : Z) :
  in_int64 z = true -> struct_unpack_q 1 (pack_q z) = Ok [z].
Proof.
  intros Hz. rewrite <- (app_nil_r (pack_q z)).
  apply (struct_unpack_pack 1 [z]); [done |]. by cbn [forallb]; rewrite Hz.
Qed.

Lemma unpack_blobs_header (count : Z) (offs : list Z) (body : pybytes) :
  len offs = count + 1 ->
  forallb in_int64 (count :: offs) = true ->
  in_int64 (8 * (count + 1)) = true ->
  _unpack_blobs (concat (map pack_q (count :: offs)) ++ body)
  = unpack_body (concat (map pack_q (count :: offs)) ++ body) offs.
Proof.
  intros Hlen Hall Hread.
  pose proof Hall as Hall'. cbn [forallb] in Hall'.
  apply andb_true_iff in Hall' as [Hcount Hoffs].
  assert (0 <= count + 1) as Hnn by (unfold len in Hlen; lia).
  unfold _unpack_blobs, unpack_body.
  set (bytes := concat (map pack_q (count :: offs)) ++ body).
  assert (bytes = [] ++ pack_q count ++ (concat (map pack_q offs) ++ body)) as E1.
  { unfold bytes. cbn [map concat app]. by rewrite <- app_assoc. }
  assert (bytes = pack_q count ++ concat (map pack_q offs) ++ body) as E2.
  { exact E1. }
  unfold BytesIO_new. change 0%nat with (length (@nil byte)).
  rewrite (BytesIO_read_at 8 [] (pack_q count) _ bytes E1)
    by (done || by rewrite length_pack_q).
  cbn [mbind result_bind].
  rewrite struct_unpack_one by done.
  cbn [mbind result_bind].
  change (py_index [count] 0) with (Ok count). cbn [mbind result_bind].
  cbn [length Init.Nat.add].
  rewrite (BytesIO_read_at (8 * (count + 1)) (pack_q count)
             (concat (map pack_q offs)) body bytes E2);
    [| done | lia | rewrite length_pack_words; unfold len in Hlen; lia].
  cbn [mbind result_bind].
  rewrite struct_unpack_pack by done.
  done.
Qed.

Lemma len_header (blobs : list pybytes) :
  len (concat (map pack_q (header_words blobs))) = 8 * (2 + len blobs).
Proof.
  unfold len, header_words. rewrite length_pack_words. cbn [length].
  rewrite length_offsets_of, length_map. lia.
Qed.

Lemma len_envelope (blobs : list pybytes) :
  len (concat (map pack_q (header_words blobs)) ++ concat blobs)
  = 8 * (2 + len blobs) + total_len blobs.
Proof.
  rewrite <- len_header, <- len_concat. unfold len. rewrite length_app. lia.
Qed.

(** Unpacking what was packed gives the blobs back. *)
Lemma unpack_pack_blobs (blobs : list pybytes) :
  envelope_fits blobs ->
  exists bytes, _pack_blobs blobs = Ok bytes /\ _unpack_blobs bytes = Ok blobs.
Proof.
  intros Hfit. eexists. split; [by apply pack_blobs_ok |].
  pose proof Hfit as Hfit'. unfold envelope_fits in Hfit'.
  assert (0 <= total_len blobs) as Ht by (rewrite <- len_concat; unfold len; lia).
  assert (0 <= len blobs) as Hl by (unfold len; lia).
  pose proof (len_envelope blobs) as Henv.
  pose proof (len_header blobs) as Hhdr.
  unfold header_words in *.
  rewrite unpack_blobs_header; cycle 1.
  - unfold len. rewrite length_offsets_of, length_map. lia.
  - by apply (header_words_in_int64 blobs).
  - apply in_int64_range. unfold int64_max in *. lia.
  - unfold unpack_body.
    erewrite py_index_last by apply last_offsets_of.
    cbn [mbind result_bind]. rewrite Henv.
    change (sum_Z (map len blobs)) with (total_len blobs).
    rewrite Z.eqb_refl. cbn [py_assert mbind result_bind]. f_equal.
    rewrite py_slice_init by apply offsets_of_nonempty.
    rewrite py_slice_tail.
    set (pre := concat (map pack_q _)) in *.
    rewrite <- Hhdr.
    rewrite <- (app_nil_r (concat blobs)).
    apply slices_of_offsets.
Qed.
End Unpack.

Lemma py_index_nonneg {A} (l : list A) (i : Z) :
  0 <= i -> py_index l i = match nth_error l (Z.to_nat i) with
                           | Some x => Ok x
                           | None => Raise IndexError
                           end.
Proof.
  intros Hi. unfold py_index.
  destruct (Z.ltb_spec i 0) as [| _]; [lia |].
  by destruct (Z.ltb_spec i 0) as [| _]; [lia |].
Qed.

Lemma increasing_cons (strict : bool) (x y : Z) (l : list Z) :
  increasing strict (x :: y :: l)
  = (if strict then x <? y else x <=? y) && increasing strict (y :: l).
Proof. done. Qed.

Lemma increasing_offsets_of (start : Z) (lens : list Z) :
  Forall (Z.le 0) lens -> increasing false (offsets_of start lens) = true.
Proof.
  revert start. induction lens as [| l lens IH]; intros start Hpos; [done |].
  apply Forall_cons in Hpos as [Hl Hpos].
  cbn [offsets_of]. rewrite (offsets_of_cons (start + l)).
  rewrite increasing_cons, <- offsets_of_cons, IH by done.
  apply andb_true_iff. split; [apply Z.leb_le; lia | done].
Qed.

(** Blob [i] lies between offsets [i] and [i+1]. *)
Lemma blob_between_offsets (blobs : list pybytes) (pre post : pybytes)
    (i : nat) (blob : pybytes) :
  nth_error blobs i = Some blob ->
  exists o1 o2,
    nth_error (offsets_of (len pre) (map len blobs)) i = Some o1
    /\ nth_error (offsets_of (len pre) (map len blobs)) (S i) = Some o2
    /\ py_slice (pre ++ concat blobs ++ post) (Some o1) (Some o2) = blob.
Proof.
  revert pre i. induction blobs as [| b blobs IH]; intros pre i Hi.
  - by destruct i.
  - destruct i as [| i].
    + injection Hi as ->. exists (len pre), (len pre + len blob).
      cbn [map offsets_of nth_error]. rewrite (offsets_of_cons (len pre + len blob)).
      repeat split. cbn [concat]. rewrite <- app_assoc. apply py_slice_middle.
    + cbn [nth_error] in Hi.
      destruct (IH (pre ++ b) i Hi) as (o1 & o2 & H1 & H2 & H3).
      replace (len (pre ++ b)) with (len pre + len b) in H1, H2
        by (unfold len; rewrite length_app; lia).
      exists o1, o2. cbn [map offsets_of nth_error concat].
      repeat split; [done | done |].
      rewrite <- H3. by rewrite <- !app_assoc.
Qed.

Section EnvelopeFacts.
Context `{Platform}.

Lemma header_offsets_packed (blobs : list pybytes) :
  envelope_fits blobs ->
  header_offsets (concat (map pack_q (header_words blobs)) ++ concat blobs)
  = Ok (offsets_of (8 * (2 + len blobs)) (map len blobs)).
Proof.
  intros Hfit. pose proof (header_words_in_int64 blobs Hfit) as Hall.
  pose proof Hall as Hall'. unfold header_words in Hall'. cbn [forallb] in Hall'.
  apply andb_true_iff in Hall' as [Hcount Hoffs].
  unfold header_offsets, header_words. cbn [map concat].
  rewrite <- app_assoc.
  set (offs := offsets_of (8 * (2 + len blobs)) (map len blobs)) in *.
  assert (len offs = len blobs + 1) as Hlen.
  { unfold offs, len. rewrite length_offsets_of, length_map. lia. }
  assert (forall rest, py_slice (pack_q (len blobs) ++ rest) (Some 0) (Some 8)
                       = pack_q (len blobs)) as S1.
  { intros rest. pose proof (py_slice_middle [] (pack_q (len blobs)) rest) as S.
    unfold len in S. rewrite length_pack_q in S. exact S. }
  assert (py_slice (pack_q (len blobs) ++ concat (map pack_q offs) ++ concat blobs)
                   (Some 8) (Some (8 * (len blobs + 2)))
          = concat (map pack_q offs)) as S2.
  { pose proof (py_slice_middle (pack_q (len blobs)) (concat (map pack_q offs))
                  (concat blobs)) as S.
    replace (len (pack_q (len blobs))) with 8 in S
      by (unfold len; by rewrite length_pack_q).
    replace (len (concat (map pack_q offs))) with (8 * len offs) in S
      by (unfold len; rewrite length_pack_words; lia).
    replace (8 * (len blobs + 2)) with (8 + 8 * len offs) by lia. exact S. }
  rewrite S1, struct_unpack_one by done. cbn [mbind result_bind].
  change (py_index [len blobs] 0) with (Ok (len blobs)). cbn [mbind result_bind].
  rewrite S2. by apply struct_unpack_pack.
Qed.
End EnvelopeFacts.

Lemma nth_error_last {A} (l : list A) (x : A) :
  last l = Some x -> nth_error l (Init.Nat.pred (length l)) = Some x.
Proof.
  destruct l as [| y l] using rev_ind; [done |].
  rewrite last_snoc. intros [= ->].
  rewrite length_app. cbn [length].
  replace (Init.Nat.pred (length l + 1)) with (length l) by lia.
  rewrite nth_error_app2 by lia. by rewrite Nat.sub_diag.
Qed.

(** C3.  For blobs whose envelope fits a [Py_ssize_t], [_pack_blobs]
    returns a buffer that starts with [M+2] 8-byte words: the count [M] and
    [M+1] offsets; offset 0 is the header length [8*(M+2)], offset [M] is
    the length of the buffer, the offsets never decrease, and blob [i] is
    the slice between offsets [i] and [i+1]. *)
Theorem pack_blobs_layout `{Platform} (blobs : list pybytes) :
  envelope_fits blobs ->
  exists bytes offsets,
    _pack_blobs blobs = Ok bytes
    /\ struct_unpack_q (len blobs + 2)
         (py_slice bytes (Some 0) (Some (8 * (len blobs + 2))))
       = Ok (len blobs :: offsets)
    /\ len offsets = len blobs + 1
    /\ py_index offsets 0 = Ok (8 * (len blobs + 2))
    /\ py_index offsets (len blobs) = Ok (len bytes)
    /\ increasing false offsets = true
    /\ forall i blob,
         0 <= i -> py_index blobs i = Ok blob ->
         exists o1 o2,
           py_index offsets i = Ok o1 /\ py_index offsets (i + 1) = Ok o2
           /\ py_slice bytes (Some o1) (Some o2) = blob.
Proof.
  intros Hfit.
  exists (concat (map pack_q (header_words blobs)) ++ concat blobs),
         (offsets_of (8 * (2 + len blobs)) (map len blobs)).
  pose proof (len_header blobs) as Hhdr.
  pose proof (len_envelope blobs) as Henv.
  assert (len (offsets_of (8 * (2 + len blobs)) (map len blobs)) = len blobs + 1)
    as Hlen by (unfold len; rewrite length_offsets_of, length_map; lia).
  split; [by apply pack_blobs_ok |].
  split.
  { pose proof (py_slice_middle [] (concat (map pack_q (header_words blobs)))
                  (concat blobs)) as S.
    rewrite Hhdr in S. change (len []) with 0 in S.
    replace (0 + 8 * (2 + len blobs)) with (8 * (len blobs + 2)) in S by lia.
    cbn [app] in S. rewrite S.
    apply struct_unpack_pack.
    - unfold header_words, len in *. cbn [length]. lia.
    - by apply header_words_in_int64. }
  split; [done |].
  split.
  { rewrite (offsets_of_cons _ (map len blobs)). unfold py_index. simpl.
    f_equal. lia. }
  split.
  { rewrite py_index_nonneg by (unfold len; lia).
    pose proof (nth_error_last _ _
      (last_offsets_of (8 * (2 + len blobs)) (map len blobs))) as Hl.
    rewrite length_offsets_of, length_map in Hl. cbn [Init.Nat.pred] in Hl.
    replace (Z.to_nat (len blobs)) with (length blobs) by (unfold len; lia).
    rewrite Hl, Henv. done. }
  split; [apply increasing_offsets_of, lens_nonneg |].
  intros i blob Hi Hblob.
  rewrite py_index_nonneg in Hblob by done.
  destruct (nth_error blobs (Z.to_nat i)) as [blob' |] eqn:Hnth; [| done].
  injection Hblob as ->.
  destruct (blob_between_offsets blobs
              (concat (map pack_q (header_words blobs))) [] _ _ Hnth)
    as (o1 & o2 & H1 & H2 & H3).
  rewrite Hhdr in H1, H2. rewrite app_nil_r in H3.
  exists o1, o2. rewrite !py_index_nonneg by lia.
  replace (Z.to_nat (i + 1)) with (S (Z.to_nat i)) by lia.
  by rewrite H1, H2.
Qed.

Section Corruption.
Context `{Platform}.

Lemma pack_words_snoc (vals : list Z) (z : Z) :
  concat (map pack_q (vals ++ [z])) = concat (map pack_q vals) ++ pack_q z.
Proof. by rewrite map_app, concat_app; cbn [map concat]; rewrite app_nil_r. Qed.

(** Overwriting the last header word of an envelope. *)
Lemma set_last_header_word (count : Z) (init : list Z) (lst : Z)
    (word body : pybytes) :
  length word = 8%nat ->
  set_header_word (S (length init)) word
    (concat (map pack_q (count :: init ++ [lst])) ++ body)
  = concat (map pack_q (count :: init ++ [unpack_q word])) ++ body.
Proof.
  intros Hw. unfold set_header_word.
  rewrite !app_comm_cons, !pack_words_snoc, pack_unpack_q by done.
  rewrite <- !app_assoc.
  assert (length (concat (map pack_q (count :: init))) = (8 * S (length init))%nat)
    as Hl by (by rewrite length_pack_words).
  rewrite take_app_length' by done.
  rewrite drop_app_add' by done.
  by rewrite drop_app_length' by (by rewrite length_pack_q).
Qed.

(** C4, amended.  Overwriting the last offset of a packed envelope with
    any other value makes [_unpack_blobs] fail, on the assertion
    [offsets[-1] == len(bytes)]; that assertion is the only check there
    is. *)
Theorem corrupt_last_offset_detected (blobs : list pybytes)
    (bytes word : pybytes) :
  envelope_fits blobs ->
  _pack_blobs blobs = Ok bytes ->
  length word = 8%nat ->
  unpack_q word <> len bytes ->
  _unpack_blobs (set_header_word (length blobs + 1) word bytes)
  = Raise AssertionError.
Proof.
  intros Hfit Hpack Hw Hne.
  assert (bytes = concat (map pack_q (header_words blobs)) ++ concat blobs) as ->.
  { rewrite pack_blobs_ok in Hpack by done. congruence. }
  clear Hpack.
  pose proof (header_words_in_int64 blobs Hfit) as Hall.
  pose proof Hfit as Hfit'. unfold envelope_fits in Hfit'.
  assert (0 <= total_len blobs) as Ht by (rewrite <- len_concat; unfold len; lia).
  unfold header_words in *.
  set (offs := offsets_of (8 * (2 + len blobs)) (map len blobs)) in *.
  assert (length offs = S (length blobs)) as Hlen
    by (unfold offs; by rewrite length_offsets_of, length_map).
  destruct (exists_last (offsets_of_nonempty (8 * (2 + len blobs)) (map len blobs)))
    as (init & lst & Hsplit).
  fold offs in Hsplit.
  assert (length init = length blobs) as Hinit.
  { rewrite Hsplit, length_app in Hlen. cbn [length] in Hlen. lia. }
  rewrite Hsplit in *.
  replace (length blobs + 1)%nat with (S (length init)) by lia.
  rewrite set_last_header_word by done.
  assert (len (concat (map pack_q (len blobs :: init ++ [unpack_q word]))
               ++ concat blobs)
          = len (concat (map pack_q (len blobs :: init ++ [lst])) ++ concat blobs))
    as Hsame.
  { unfold len. rewrite !length_app, !length_pack_words. cbn [length].
    by rewrite !length_app. }
  rewrite unpack_blobs_header; cycle 1.
  - unfold len. rewrite length_app. cbn [length]. lia.
  - cbn [forallb] in *. apply andb_true_iff in Hall as [Hc Ho].
    rewrite forallb_app in *. apply andb_true_iff in Ho as [Hi _].
    rewrite Hc, Hi. cbn [forallb]. by rewrite unpack_q_in_int64.
  - apply in_int64_range. unfold len, int64_max in *. lia.
  - unfold unpack_body.
    erewrite py_index_last by apply last_snoc.
    cbn [mbind result_bind]. rewrite Hsame.
    apply Z.eqb_neq in Hne. by rewrite Hne.
Qed.
End Corruption.

(** C5, amended.  Three blobs of lengths 5, 0 and 7 pack into an envelope
    whose count is 3 and whose offsets are 40, 45, 45, 52 (non-decreasing,
    not strictly increasing), and unpacking returns the three blobs in
    order. *)
Theorem pack_three_blobs `{Platform} (b1 b2 b3 : pybytes) :
  length b1 = 5%nat -> length b2 = 0%nat -> length b3 = 7%nat ->
  exists bytes,
    _pack_blobs [b1; b2; b3] = Ok bytes
    /\ struct_unpack_q 1 (py_slice bytes (Some 0) (Some 8)) = Ok [3]
    /\ header_offsets bytes = Ok [40; 45; 45; 52]
    /\ increasing false [40; 45; 45; 52] = true
    /\ _unpack_blobs bytes = Ok [b1; b2; b3].
Proof.
  intros H1 H2 H3.
  assert (envelope_fits [b1; b2; b3]) as Hfit.
  { unfold envelope_fits, total_len, len. cbn [map fold_right length].
    rewrite H1, H2, H3. by vm_compute. }
  destruct (unpack_pack_blobs _ Hfit) as (bytes & Hpack & Hunpack).
  exists bytes. split; [done |].
  pose proof (header_offsets_packed _ Hfit) as Hoffs.
  assert (bytes = concat (map pack_q (header_words [b1; b2; b3]))
                  ++ concat [b1; b2; b3]) as ->.
  { rewrite pack_blobs_ok in Hpack by done. congruence. }
  assert (offsets_of (8 * (2 + len [b1; b2; b3])) (map len [b1; b2; b3])
          = [40; 45; 45; 52]) as E.
  { unfold len. cbn [map length offsets_of]. rewrite H1, H2, H3. done. }
  rewrite E in Hoffs.
  split; [| done].
  unfold header_words. cbn [map concat]. rewrite <- app_assoc.
  assert (forall rest, py_slice (pack_q (len [b1; b2; b3]) ++ rest)
                                (Some 0) (Some 8)
                       = pack_q (len [b1; b2; b3])) as S.
  { intros rest.
    pose proof (py_slice_middle [] (pack_q (len [b1; b2; b3])) rest) as S.
    unfold len in S. rewrite length_pack_q in S. exact S. }
  rewrite S. by apply struct_unpack_one.
Qed.

(** Witness of [pack_blobs_layout]: three blobs, the second empty. *)
Lemma pack_blobs_layout_witness :
  let blobs := [[Byte.x61; Byte.x62]; []; [Byte.x63]] in
  envelope_fits blobs
  /\ exists bytes offsets,
       @_pack_blobs Sample.platform blobs = Ok bytes
       /\ @struct_unpack_q Sample.platform (len blobs + 2)
            (py_slice bytes (Some 0) (Some (8 * (len blobs + 2))))
          = Ok (len blobs :: offsets)
       /\ len offsets = len blobs + 1
       /\ py_index offsets 0 = Ok (8 * (len blobs + 2))
       /\ py_index offsets (len blobs) = Ok (len bytes)
       /\ increasing false offsets = true
       /\ forall i blob,
            0 <= i -> py_index blobs i = Ok blob ->
            exists o1 o2,
              py_index offsets i = Ok o1 /\ py_index offsets (i + 1) = Ok o2
              /\ py_slice bytes (Some o1) (Some o2) = blob.
Proof.
  intros blobs.
  assert (envelope_fits blobs) as Hfit by (vm_compute; discriminate).
  split; [exact Hfit |].
  exact (@pack_blobs_layout Sample.platform blobs Hfit).
Defined.

(** Witness of [corrupt_last_offset_detected]: offset 2 of a two-blob
    envelope, 34, overwritten by 33. *)
Lemma corrupt_last_offset_detected_witness :
  let blobs := [[Byte.x61]; [Byte.x62]] in
  let word := @pack_q Sample.platform 33 in
  exists bytes,
    envelope_fits blobs
    /\ @_pack_blobs Sample.platform blobs = Ok bytes
    /\ length word = 8%nat
    /\ @unpack_q Sample.platform word <> len bytes
    /\ @_unpack_blobs Sample.platform
         (set_header_word (length blobs + 1) word bytes)
       = Raise AssertionError.
Proof.
  intros blobs word.
  destruct (@_pack_blobs Sample.platform blobs) as [bytes | e] eqn:Hpack;
    [| vm_compute in Hpack; discriminate].
  exists bytes.
  assert (envelope_fits blobs) as Hfit by (vm_compute; discriminate).
  assert (length word = 8%nat) as Hw by reflexivity.
  assert (@unpack_q Sample.platform word <> len bytes) as Hne.
  { vm_compute in Hpack. injection Hpack as <-. vm_compute. discriminate. }
  repeat split; try done.
  exact (@corrupt_last_offset_detected Sample.platform blobs bytes word
           Hfit Hpack Hw Hne).
Defined.

(** C4 as stated fails: with offset 1 of the same envelope changed from 33
    to 32, unpacking raises nothing and returns other blobs. *)
Lemma corrupt_inner_offset_undetected :
  let blobs := [[Byte.x61]; [Byte.x62]] in
  exists bytes,
    @_pack_blobs Sample.platform blobs = Ok bytes
    /\ @header_offsets Sample.platform bytes = Ok [32; 33; 34]
    /\ @header_offsets Sample.platform
         (set_header_word 2 (@pack_q Sample.platform 32) bytes)
       = Ok [32; 32; 34]
    /\ @_unpack_blobs Sample.platform
         (set_header_word 2 (@pack_q Sample.platform 32) bytes)
       = Ok [[]; [Byte.x61; Byte.x62]].
Proof.
  intros blobs. eexists. split; [vm_compute; reflexivity |].
  repeat split; vm_compute; reflexivity.
Qed.

(** Witness of [pack_three_blobs]. *)
Lemma pack_three_blobs_witness :
  let b1 := [Byte.x68; Byte.x65; Byte.x6c; Byte.x6c; Byte.x6f] in
  let b2 := @nil byte in
  let b3 := [Byte.x76; Byte.x61; Byte.x65; Byte.x78; Byte.x21; Byte.x21; Byte.x21] in
  (length b1 = 5%nat /\ length b2 = 0%nat /\ length b3 = 7%nat)
  /\ exists bytes,
       @_pack_blobs Sample.platform [b1; b2; b3] = Ok bytes
       /\ @struct_unpack_q Sample.platform 1 (py_slice bytes (Some 0) (Some 8))
          = Ok [3]
       /\ @header_offsets Sample.platform bytes = Ok [40; 45; 45; 52]
       /\ increasing false [40; 45; 45; 52] = true
       /\ @_unpack_blobs Sample.platform bytes = Ok [b1; b2; b3].
Proof.
  intros b1 b2 b3. split; [repeat split |].
  exact (@pack_three_blobs Sample.platform b1 b2 b3 eq_refl eq_refl eq_refl).
Defined.

(** C5 as stated fails: the four offsets of these blobs are 40, 45, 45, 52,
    and an empty blob makes two of them equal. *)
Lemma three_blobs_offsets_not_strict :
  let b1 := [Byte.x68; Byte.x65; Byte.x6c; Byte.x6c; Byte.x6f] in
  let b2 := @nil byte in
  let b3 := [Byte.x76; Byte.x61; Byte.x65; Byte.x78; Byte.x21; Byte.x21; Byte.x21] in
  exists bytes offsets,
    @_pack_blobs Sample.platform [b1; b2; b3] = Ok bytes
    /\ @header_offsets Sample.platform bytes = Ok offsets
    /\ len offsets = 4
    /\ increasing true offsets = false.
Proof.
  intros b1 b2 b3. do 2 eexists. split; [vm_compute; reflexivity |].
  repeat split; vm_compute; reflexivity.
Qed.

(** * Further properties of the module *)

(** * Dicts *)

Section Dicts.
Context {V : Type}.
Implicit Types (d : list (string * V)) (k : string) (v : V).

Lemma dict_get_set_same d k v : dict_get (dict_set d k v) k = Some v.
Proof.
  induction d as [| [k' v'] d IH]; cbn [dict_set dict_get].
  - by rewrite String.eqb_refl.
  - destruct (String.eqb_spec k' k) as [-> | Hne]; cbn [dict_get].
    + by rewrite String.eqb_refl.
    + by apply String.eqb_neq in Hne as ->.
Qed.

Lemma dict_get_set_other d k k' v :
  k <> k' -> dict_get (dict_set d k v) k' = dict_get d k'.
Proof.
  intros Hne. induction d as [| [k0 v0] d IH]; cbn [dict_set dict_get].
  - by apply String.eqb_neq in Hne as ->.
  - destruct (String.eqb_spec k0 k) as [-> | Hne0]; cbn [dict_get].
    + by apply String.eqb_neq in Hne as ->.
    + by rewrite IH.
Qed.

Lemma dict_get_None d k : k ∉ dict_keys d -> dict_get d k = None.
Proof.
  induction d as [| [k' v'] d IH]; [done |].
  cbn [dict_keys map fst dict_get]. intros Hn.
  apply not_elem_of_cons in Hn as [Hne Hn].
  destruct (String.eqb_spec k' k) as [-> | _]; [done |]. by apply IH.
Qed.

Lemma dict_set_fresh d k v : k ∉ dict_keys d -> dict_set d k v = d ++ [(k, v)].
Proof.
  induction d as [| [k' v'] d IH]; [done |].
  cbn [dict_keys map fst dict_set app]. intros Hn.
  apply not_elem_of_cons in Hn as [Hne Hn].
  destruct (String.eqb_spec k' k) as [-> | _]; [done |].
  by rewrite IH.
Qed.

Lemma dict_of_pairs_from d acc :
  NoDup (dict_keys (acc ++ d)) ->
  fold_left (fun a kv => dict_set a (fst kv) (snd kv)) d acc = acc ++ d.
Proof.
  revert acc. induction d as [| [k v] d IH]; intros acc Hnd; cbn [fold_left].
  - by rewrite app_nil_r.
  - cbn [fst snd]. rewrite dict_set_fresh.
    + rewrite IH; rewrite <- app_assoc; done.
    + unfold dict_keys in *. rewrite map_app in Hnd. cbn [map fst] in Hnd.
      apply NoDup_app in Hnd as (_ & Hdis & _).
      intros Hin. apply (Hdis k Hin). left.
Qed.

(** Rebuilding a dict from its items gives the dict. *)
Lemma dict_of_pairs_id d : dict_ok d -> dict_of_pairs d = d.
Proof. intros Hd. unfold dict_of_pairs. by rewrite dict_of_pairs_from. Qed.

Lemma dict_get_here d k v : dict_get ((k, v) :: d) k = Some v.
Proof. cbn [dict_get]. by rewrite String.eqb_refl. Qed.

Lemma dict_get_next d k k' v :
  k' <> k -> dict_get ((k', v) :: d) k = dict_get d k.
Proof. intros Hne. cbn [dict_get]. by apply String.eqb_neq in Hne as ->. Qed.

Lemma py_zip_fst_snd d : py_zip (dict_keys d) (map snd d) = d.
Proof.
  induction d as [| [k v] d IH]; [done |].
  cbn [dict_keys map fst snd py_zip]. f_equal. exact IH.
Qed.
End Dicts.


(** Look a literal key up in a dict written out in full. *)
Ltac dict_lookup :=
  unfold dict_getitem, dict_contains;
  repeat (rewrite dict_get_here || rewrite dict_get_next by discriminate);
  cbn [dict_get].

(** * The registry *)

Lemma register_taken (name : string) (cls : codec)
    (registry : gmap string codec) :
  is_Some (registry !! name) ->
  register name cls registry = (Raise AssertionError, registry).
Proof.
  intros Hin. unfold register.
  by rewrite bool_decide_eq_true_2.
Qed.

Lemma register_fresh (name : string) (cls : codec)
    (registry : gmap string codec) :
  registry !! name = None ->
  register name cls registry = (Ok tt, <[name := cls]> registry).
Proof.
  intros Hout. unfold register.
  rewrite bool_decide_eq_false_2; [done |].
  rewrite Hout. by intros [? ?].
Qed.

(** Running a list of registrations with distinct names. *)
Lemma register_all (entries : list (string * codec))
    (acc : gmap string codec) (name : string) :
  NoDup (map fst entries) ->
  (forall k, k ∈ map fst entries -> acc !! k = None) ->
  fold_left (fun reg entry => snd (register (fst entry) (snd entry) reg))
            entries acc !! name
  = match dict_get entries name with
    | Some cls => Some cls
    | None => acc !! name
    end.
Proof.
  revert acc. induction entries as [| [k cls] entries IH]; intros acc Hnd Hacc.
  - done.
  - cbn [map fst] in Hnd, Hacc. apply NoDup_cons in Hnd as [Hk Hnd].
    cbn [fold_left fst snd dict_get].
    rewrite register_fresh by (apply Hacc; left). cbn [snd].
    rewrite IH; [| done |].
    + destruct (String.eqb_spec k name) as [-> | Hne].
      * rewrite dict_get_None by done. by rewrite lookup_insert_eq.
      * destruct (dict_get entries name); [done |].
        by rewrite lookup_insert_ne.
    + intros k' Hk'. rewrite lookup_insert_ne; [apply Hacc; by right |].
      intros ->. done.
Qed.

Section Registry.
Context `{Uuid} `{NumPy} `{PyArrow} `{Vaex}.

(** The [@register] lines of the module run without a clash: a name of
    [registrations] is bound to its class, any other name is not bound. *)
Lemma registry_lookup (name : string) :
  registry !! name = dict_get registrations name.
Proof.
  unfold registry. rewrite register_all.
  - by destruct (dict_get registrations name).
  - cbn [registrations map fst]. apply (bool_decide_unpack _). by vm_compute.
  - done.
Qed.
End Registry.

(** X1: registering a class under a tag that is already bound fails on the
    assertion, and the registry is left as it was. *)
Theorem register_duplicate_fails (name : string) (cls : codec)
    (registry : gmap string codec) :
  is_Some (registry !! name) ->
  register name cls registry = (Raise AssertionError, registry).
Proof. apply register_taken. Qed.

(** A new tag is bound to its class, and no other tag changes. *)
Theorem register_new_tag (name : string) (cls : codec)
    (registry : gmap string codec) :
  registry !! name = None ->
  exists registry',
    register name cls registry = (Ok tt, registry')
    /\ registry' !! name = Some cls
    /\ forall other, other <> name -> registry' !! other = registry !! other.
Proof.
  intros Hnew. eexists. split; [by apply register_fresh |].
  split; [apply lookup_insert_eq |].
  intros other Hother. by apply lookup_insert_ne.
Qed.

(** * Blobs *)

(** Unfold the plumbing of a session computation. *)
Ltac run_M :=
  cbv [mbind M_bind mret M_ret fmap M_fmap lift raise get_self set_self
       no_kwargs].


Section Blobs.
Context `{Uuid}.

Lemma add_blob_eq (buffer : pybytes) (p : process) :
  add_blob buffer p
  = (Ok (PyStr ("blob:" ++ uuid4_str (uuid_calls p))),
     {| self := {| blobs := dict_set (blobs (self p))
                                     (uuid4_str (uuid_calls p)) buffer;
                   _object_specs := _object_specs (self p);
                   _objects := _objects (self p) |};
        uuid_calls := S (uuid_calls p) |}).
Proof. done. Qed.

Lemma get_blob_eq (id : string) (p : process) :
  get_blob (PyStr ("blob:" ++ id)) p = (dict_getitem (blobs (self p)) id, p).
Proof.
  unfold get_blob.
  change (str_startswith "blob:" ("blob:" ++ id)) with true.
  change (str_drop 5 ("blob:" ++ id)) with id.
  run_M. cbn [py_assert self]. by destruct (dict_getitem _ _).
Qed.

(** X3: adding the same buffer twice, when [uuid4] gives two different
    identifiers, gives two different references, and each of them reads the
    buffer back. *)
Theorem add_blob_twice (b : pybytes) (p : process) :
  uuid4_str (uuid_calls p) <> uuid4_str (S (uuid_calls p)) ->
  exists ref1 ref2 p1 p2,
    add_blob b p = (Ok ref1, p1)
    /\ add_blob b p1 = (Ok ref2, p2)
    /\ ref1 <> ref2
    /\ get_blob ref1 p2 = (Ok b, p2)
    /\ get_blob ref2 p2 = (Ok b, p2).
Proof.
  intros Hfresh. do 4 eexists.
  split; [apply add_blob_eq |].
  split; [apply add_blob_eq |].
  cbn [uuid_calls self blobs].
  split; [intros [= E]; by apply Hfresh |].
  rewrite !get_blob_eq. cbn [self blobs]. unfold dict_getitem.
  split.
  - rewrite dict_get_set_other by congruence. by rewrite dict_get_set_same.
  - by rewrite dict_get_set_same.
Qed.
End Blobs.

Lemma add_blob_twice_witness :
  let b := [Byte.x01; Byte.x02] in
  let p := {| self := Encoding_init; uuid_calls := 0 |} in
  @uuid4_str Sample.uuid (uuid_calls p) <> @uuid4_str Sample.uuid (S (uuid_calls p))
  /\ exists ref1 ref2 p1 p2,
       @add_blob Sample.uuid b p = (Ok ref1, p1)
       /\ @add_blob Sample.uuid b p1 = (Ok ref2, p2)
       /\ ref1 <> ref2
       /\ get_blob ref1 p2 = (Ok b, p2)
       /\ get_blob ref2 p2 = (Ok b, p2).
Proof.
  intros b p.
  assert (@uuid4_str Sample.uuid (uuid_calls p)
          <> @uuid4_str Sample.uuid (S (uuid_calls p))) as Hfresh
    by (vm_compute; discriminate).
  split; [exact Hfresh |].
  exact (@add_blob_twice Sample.uuid b p Hfresh).
Defined.

(** * Dispatch *)

Lemma encode_registered (reg : gmap string codec) (depth : nat)
    (typename : string) (cls : codec) (value : pyobj) :
  reg !! typename = Some cls ->
  Encoding_encode reg (S depth) typename value
  = codec_encode cls (dispatch reg depth) value.
Proof.
  intros Hreg. unfold Encoding_encode. cbn [dispatch encode_with].
  unfold registry_getitem. by rewrite Hreg.
Qed.

Lemma decode_registered (reg : gmap string codec) (depth : nat)
    (typename : string) (cls : codec) (value : pyobj) (kw : kwargs) :
  reg !! typename = Some cls ->
  Encoding_decode reg (S depth) typename value kw
  = codec_decode cls (dispatch reg depth) value kw.
Proof.
  intros Hreg. unfold Encoding_decode. cbn [dispatch decode_with].
  unfold registry_getitem. by rewrite Hreg.
Qed.

Section VariableCodec.
Context `{Uuid} `{NumPy} `{PyArrow} `{Vaex}.

(** X12: the variable codec encodes bytes as their UTF-8 text: valid UTF-8
    gives a string that holds the same bytes and that the decoder returns as
    a string, not as bytes; bytes that are not UTF-8 end in
    [UnicodeDecodeError]. *)
Theorem variable_bytes (reg : gmap string codec) (depth : nat)
    (b : pybytes) (p : process) :
  reg !! "variable" = Some variable_encoding ->
  Encoding_encode reg (S depth) "variable" (PyBytes b) p
  = (PyStr <$> bytes_decode_utf8 b, p)
  /\ (utf8_valid b = true ->
      exists s,
        Encoding_encode reg (S depth) "variable" (PyBytes b) p = (Ok (PyStr s), p)
        /\ str_encode_utf8 s = b
        /\ Encoding_decode reg (S depth) "variable" (PyStr s) [] p
           = (Ok (PyStr s), p)
        /\ PyStr s <> PyBytes b)
  /\ (utf8_valid b = false ->
      Encoding_encode reg (S depth) "variable" (PyBytes b) p
      = (Raise UnicodeDecodeError, p)).
Proof.
  intros Hreg.
  rewrite (encode_registered _ _ _ _ _ Hreg).
  assert (codec_encode variable_encoding (dispatch reg depth) (PyBytes b) p
          = (PyStr <$> bytes_decode_utf8 b, p)) as Henc.
  { cbn [codec_encode variable_encoding variable_encode]. run_M.
    by destruct (bytes_decode_utf8 b). }
  rewrite Henc. unfold bytes_decode_utf8.
  split; [done |]. split.
  - intros ->. exists (string_of_list_byte b). split; [done |].
    split; [apply list_byte_of_string_of_list_byte |].
    split; [| done].
    rewrite (decode_registered _ _ _ _ _ _ Hreg). done.
  - by intros ->.
Qed.
End VariableCodec.

Section VariableExamples.
Import Sample.

Lemma variable_bytes_witness :
  let b := [Byte.x76; Byte.x61; Byte.x65; Byte.x78] in
  let p := {| self := Encoding_init; uuid_calls := 0 |} in
  registry !! "variable" = Some variable_encoding
  /\ Encoding_encode registry 1 "variable" (PyBytes b) p
     = (Ok (PyStr "vaex"), p)
  /\ Encoding_decode registry 1 "variable" (PyStr "vaex") [] p
     = (Ok (PyStr "vaex"), p).
Proof.
  intros b p.
  assert (registry !! "variable" = Some variable_encoding) as Hreg
    by apply registry_lookup.
  split; [exact Hreg |].
  destruct (variable_bytes registry 0 b p Hreg) as (Henc & Hvalid & _).
  destruct (Hvalid eq_refl) as (s & Hs & Hb & Hdec & _).
  assert (s = "vaex"%string) as ->.
  { rewrite Henc in Hs. vm_compute in Hs. congruence. }
  split; [exact Hs | exact Hdec].
Defined.

(** Bytes that are not UTF-8 make the encode raise. *)
Lemma variable_bytes_not_utf8 :
  let p := {| self := Encoding_init; uuid_calls := 0 |} in
  Encoding_encode registry 1 "variable" (PyBytes [Byte.xff]) p
  = (Raise UnicodeDecodeError, p).
Proof.
  intros p.
  assert (registry !! "variable" = Some variable_encoding) as Hreg
    by apply registry_lookup.
  rewrite (encode_registered _ _ _ _ _ Hreg). reflexivity.
Qed.
End VariableExamples.

(** * The session tables *)

Section Session.
Context `{Uuid}.

(** X4: [add_blob] returns the reference made of the prefix and the new
    identifier, [get_blob] on it reads the buffer back, and the object
    tables of the session do not change. *)
Theorem get_blob_add_blob (b : pybytes) (p : process) :
  exists ref p',
    add_blob b p = (Ok (PyStr ref), p')
    /\ ref = ("blob:" ++ uuid4_str (uuid_calls p))%string
    /\ get_blob (PyStr ref) p' = (Ok b, p')
    /\ _object_specs (self p') = _object_specs (self p)
    /\ _objects (self p') = _objects (self p).
Proof.
  do 2 eexists. split; [apply add_blob_eq |]. split; [done |].
  rewrite get_blob_eq. cbn [self blobs]. unfold dict_getitem.
  by rewrite dict_get_set_same.
Qed.

(** Blobs stored before stay readable when the new identifier is not
    one of theirs. *)
Theorem add_blob_keeps_blobs (b old : pybytes) (id : string) (p : process) :
  dict_get (blobs (self p)) id = Some old ->
  uuid4_str (uuid_calls p) <> id ->
  get_blob (PyStr ("blob:" ++ id)) (snd (add_blob b p))
  = (Ok old, snd (add_blob b p)).
Proof.
  intros Hold Hne. rewrite add_blob_eq. cbn [snd].
  rewrite get_blob_eq. cbn [self blobs]. unfold dict_getitem.
  rewrite dict_get_set_other by done. by rewrite Hold.
Qed.

(** An identifier that comes back overwrites the blob stored under
    it. *)
Theorem add_blob_same_id_overwrites (b1 b2 : pybytes) (p : process) :
  uuid4_str (uuid_calls p) = uuid4_str (S (uuid_calls p)) ->
  exists ref p1 p2,
    add_blob b1 p = (Ok ref, p1)
    /\ add_blob b2 p1 = (Ok ref, p2)
    /\ get_blob ref p2 = (Ok b2, p2).
Proof.
  intros Hsame. do 3 eexists.
  split; [apply add_blob_eq |].
  split; [rewrite add_blob_eq; cbn [uuid_calls]; by rewrite <- Hsame |].
  rewrite get_blob_eq. cbn [self blobs uuid_calls]. unfold dict_getitem.
  by rewrite dict_get_set_same.
Qed.
End Session.

(** X5: [get_blob] on a reference without the prefix fails on its assertion,
    and on an unknown identifier with [KeyError] on the identifier without
    the prefix; the session is left as it was. *)
Theorem get_blob_errors (ref : string) (p : process) :
  (str_startswith "blob:" ref = false ->
   get_blob (PyStr ref) p = (Raise AssertionError, p))
  /\ (str_startswith "blob:" ref = true ->
      dict_get (blobs (self p)) (str_drop 5 ref) = None ->
      get_blob (PyStr ref) p = (Raise (KeyError (Some (str_drop 5 ref))), p)).
Proof.
  split.
  - intros Hp. unfold get_blob. rewrite Hp. by run_M.
  - intros Hp Hnone. unfold get_blob. rewrite Hp. run_M.
    cbn [py_assert]. unfold dict_getitem. by rewrite Hnone.
Qed.

Lemma set_object_spec_eq (id : string) (obj : pyobj) (p : process) :
  set_object_spec id obj p
  = if dict_contains (_object_specs (self p)) id
    then (Raise AssertionError, p)
    else (Ok tt,
          {| self := {| blobs := blobs (self p);
                        _object_specs := dict_set (_object_specs (self p)) id obj;
                        _objects := _objects (self p) |};
             uuid_calls := uuid_calls p |}).
Proof.
  unfold set_object_spec. run_M. cbn [self].
  by destruct (dict_contains _ _).
Qed.

Lemma set_object_eq (id : string) (obj : pyobj) (p : process) :
  set_object id obj p
  = if dict_contains (_objects (self p)) id
    then (Raise AssertionError, p)
    else (Ok tt,
          {| self := {| blobs := blobs (self p);
                        _object_specs := _object_specs (self p);
                        _objects := dict_set (_objects (self p)) id obj |};
             uuid_calls := uuid_calls p |}).
Proof.
  unfold set_object. run_M. cbn [self].
  by destruct (dict_contains _ _).
Qed.

(** X6: an object spec is written once: after [set_object_spec] on a new id,
    [has_object_spec] is true, [get_object_spec] returns the spec, a second
    [set_object_spec] on the id fails on the assertion, and the other tables
    of the session are unchanged. *)
Theorem set_object_spec_write_once (id : string) (obj obj' : pyobj)
    (p : process) :
  has_object_spec id p = (Ok false, p) ->
  exists p',
    set_object_spec id obj p = (Ok tt, p')
    /\ has_object_spec id p' = (Ok true, p')
    /\ get_object_spec id p' = (Ok obj, p')
    /\ set_object_spec id obj' p' = (Raise AssertionError, p')
    /\ blobs (self p') = blobs (self p)
    /\ _objects (self p') = _objects (self p).
Proof.
  unfold has_object_spec, get_object_spec. run_M. intros [= Hfree].
  eexists. rewrite !set_object_spec_eq, Hfree. split; [done |].
  cbn [self _object_specs]. unfold dict_contains, dict_getitem.
  rewrite dict_get_set_same. done.
Qed.

(** X7: a decoded object is stored once: after [set_object] on a new id,
    [has_object] is true, [get_object] returns the object, a second
    [set_object] on the id fails on the assertion, and the other tables of
    the session are unchanged. *)
Theorem set_object_write_once (id : string) (obj obj' : pyobj)
    (p : process) :
  has_object id p = (Ok false, p) ->
  exists p',
    set_object id obj p = (Ok tt, p')
    /\ has_object id p' = (Ok true, p')
    /\ get_object id p' = (Ok obj, p')
    /\ set_object id obj' p' = (Raise AssertionError, p')
    /\ blobs (self p') = blobs (self p)
    /\ _object_specs (self p') = _object_specs (self p).
Proof.
  unfold has_object, get_object. run_M. intros [= Hfree].
  eexists. rewrite !set_object_eq, Hfree. split; [done |].
  cbn [self _objects]. unfold dict_contains, dict_getitem.
  rewrite dict_get_set_same. done.
Qed.

(** A missing id is [KeyError]. *)
Theorem get_object_spec_missing (id : string) (p : process) :
  has_object_spec id p = (Ok false, p) ->
  get_object_spec id p = (Raise (KeyError (Some id)), p).
Proof.
  unfold has_object_spec, get_object_spec. run_M. intros [= Hfree].
  unfold dict_contains, dict_getitem in *.
  by destruct (dict_get _ _).
Qed.

(** X2: [Encoding.encode] and [Encoding.decode] with a type name that is not
    in the registry end in [KeyError] on that name, and the session is left
    as it was. *)
Theorem dispatch_unknown_type (reg : gmap string codec) (depth : nat)
    (typename : string) (value : pyobj) (kw : kwargs) (p : process) :
  reg !! typename = None ->
  Encoding_encode reg (S depth) typename value p
  = (Raise (KeyError (Some typename)), p)
  /\ Encoding_decode reg (S depth) typename value kw p
     = (Raise (KeyError (Some typename)), p).
Proof.
  intros Hreg. unfold Encoding_encode, Encoding_decode.
  cbn [dispatch encode_with decode_with]. unfold registry_getitem.
  rewrite Hreg. by run_M.
Qed.

(** * Codecs that pass through or delegate *)

Section FunctionCodec.
Context `{Vaex}.

(** X8: decoding a function spec other than [None] calls
    [vaex.serialize.from_dict] with [trusted=False] when the caller gives no
    keyword, and with the caller's value when [trusted] is given. *)
Theorem function_decode_trusted (reg : gmap string codec) (depth : nat)
    (function_spec trusted : pyobj) (p : process) :
  reg !! "function" = Some function_encoding ->
  function_spec <> PyNone ->
  Encoding_decode reg (S depth) "function" function_spec [] p
  = (serialize_from_dict function_spec (PyBool false), p)
  /\ Encoding_decode reg (S depth) "function" function_spec
       [("trusted", trusted)] p
     = (serialize_from_dict function_spec trusted, p).
Proof.
  intros Hreg Hspec. rewrite !(decode_registered _ _ _ _ _ _ Hreg).
  cbn [codec_decode function_encoding]. unfold function_decode.
  cbn [dict_keys map fst forallb negb dict_get default].
  change (String.eqb "trusted" "trusted") with true. cbn [andb negb].
  by destruct function_spec.
Qed.

(** X9: the function codec decodes [None] to [None] whatever [trusted] is,
    and a keyword other than [trusted] ends in [TypeError]. *)
Theorem function_decode_none_and_keywords (reg : gmap string codec)
    (depth : nat) (function_spec trusted value : pyobj) (key : string)
    (p : process) :
  reg !! "function" = Some function_encoding ->
  key <> "trusted"%string ->
  Encoding_decode reg (S depth) "function" PyNone [] p = (Ok PyNone, p)
  /\ Encoding_decode reg (S depth) "function" PyNone [("trusted", trusted)] p
     = (Ok PyNone, p)
  /\ Encoding_decode reg (S depth) "function" function_spec [(key, value)] p
     = (Raise TypeError, p).
Proof.
  intros Hreg Hkey. rewrite !(decode_registered _ _ _ _ _ _ Hreg).
  cbn [codec_decode function_encoding]. unfold function_decode.
  cbn [dict_keys map fst forallb negb dict_get default].
  change (String.eqb "trusted" "trusted") with true. cbn [andb negb].
  apply String.eqb_neq in Hkey. rewrite Hkey. done.
Qed.
End FunctionCodec.

(** The codecs declared as [(cls, encoding, x)] take no keyword. *)
Theorem json_decode_keyword (reg : gmap string codec) (depth : nat)
    (value option : pyobj) (key : string) (p : process) :
  reg !! "json" = Some vaex_json_encoding ->
  Encoding_decode reg (S depth) "json" value [(key, option)] p
  = (Raise TypeError, p)
  /\ Encoding_decode reg (S depth) "json" value [] p = (Ok value, p)
  /\ Encoding_encode reg (S depth) "json" value p = (Ok value, p).
Proof.
  intros Hreg. rewrite !(decode_registered _ _ _ _ _ _ Hreg).
  by rewrite (encode_registered _ _ _ _ _ Hreg).
Qed.

(** [vaex-rmi-result] is [json] under another name. *)
Theorem rmi_result_is_json (reg : gmap string codec) (depth : nat)
    (value : pyobj) (p : process) :
  reg !! "vaex-rmi-result" = Some vaex_rmi_result_encoding ->
  reg !! "json" = Some vaex_json_encoding ->
  Encoding_encode reg (S (S depth)) "vaex-rmi-result" value p = (Ok value, p)
  /\ Encoding_decode reg (S (S depth)) "vaex-rmi-result" value [] p
     = (Ok value, p).
Proof.
  intros Hrmi Hjson.
  rewrite (encode_registered _ _ _ _ _ Hrmi).
  rewrite (decode_registered _ _ _ _ _ _ Hrmi).
  cbn [codec_encode codec_decode vaex_rmi_result_encoding].
  change (encode_with (dispatch reg (S depth))) with (Encoding_encode reg (S depth)).
  rewrite (encode_registered _ _ _ _ _ Hjson).
  split; [done |]. run_M.
  change (decode_with (dispatch reg (S depth))) with (Encoding_decode reg (S depth)).
  by rewrite (decode_registered _ _ _ _ _ _ Hjson).
Qed.

(** With too little depth left the dispatch stops. *)
Theorem rmi_result_depth (reg : gmap string codec) (value : pyobj)
    (p : process) :
  reg !! "vaex-rmi-result" = Some vaex_rmi_result_encoding ->
  Encoding_encode reg 1 "vaex-rmi-result" value p = (Raise RecursionError, p).
Proof.
  intros Hrmi. by rewrite (encode_registered _ _ _ _ _ Hrmi).
Qed.

Section ArrayCodec.
Context `{Uuid} `{NumPy} `{PyArrow} `{Vaex}.

Lemma array_number_inverse (reg : gmap string codec) (depth : nat)
    (value : pyobj) (p : process) :
  reg !! "array" = Some array_encoding ->
  reg !! "json" = Some vaex_json_encoding ->
  (exists n, value = PyInt n) \/ (exists b, value = PyBool b) ->
  Encoding_encode reg (S depth) "array" value p
  = (Ok (PyDict [("type", PyStr "json"); ("data", value)]), p)
  /\ Encoding_decode reg (S (S depth)) "array"
       (PyDict [("type", PyStr "json"); ("data", value)]) [] p
     = (Ok value, p).
Proof.
  intros Harr Hjson Hval.
  rewrite (encode_registered _ _ _ _ _ Harr).
  rewrite (decode_registered _ _ _ _ _ _ Harr).
  split.
  - by destruct Hval as [[n ->] | [b ->]].
  - cbn [codec_decode array_encoding]. unfold array_decode. run_M.
    cbn [getitem]. dict_lookup. cbn [typename_of].
    change (decode_with (dispatch reg (S depth))) with (Encoding_decode reg (S depth)).
    by rewrite (decode_registered _ _ _ _ _ _ Hjson).
Qed.

(** X10: an integer or a boolean is encoded by the array codec as the
    wrapper of type json around the value itself, and decoding that wrapper
    gives the value back; the session does not change. *)
Theorem array_number_roundtrip (reg : gmap string codec) (depth : nat)
    (value : pyobj) (p : process) :
  reg !! "array" = Some array_encoding ->
  reg !! "json" = Some vaex_json_encoding ->
  (exists n, value = PyInt n) \/ (exists b, value = PyBool b) ->
  Encoding_encode reg (S depth) "array" value p
  = (Ok (PyDict [("type", PyStr "json"); ("data", value)]), p)
  /\ Encoding_decode reg (S (S depth)) "array"
       (PyDict [("type", PyStr "json"); ("data", value)]) [] p
     = (Ok value, p).
Proof. apply array_number_inverse. Qed.


(** The array decoder needs both keys of the wrapper. *)
Theorem array_decode_missing_key (reg : gmap string codec) (depth : nat)
    (d : pydict) (p : process) :
  reg !! "array" = Some array_encoding ->
  (dict_get d "type" = None ->
   Encoding_decode reg (S depth) "array" (PyDict d) [] p
   = (Raise (KeyError (Some "type")), p))
  /\ (forall t, dict_get d "type" = Some t -> dict_get d "data" = None ->
      Encoding_decode reg (S depth) "array" (PyDict d) [] p
      = (Raise (KeyError (Some "data")), p)).
Proof.
  intros Harr. rewrite !(decode_registered _ _ _ _ _ _ Harr).
  cbn [codec_decode array_encoding]. unfold array_decode. run_M.
  cbn [getitem]. unfold dict_getitem. split.
  - by intros ->.
  - by intros t -> ->.
Qed.
End ArrayCodec.

Section VariablePlain.
Context `{Uuid} `{NumPy} `{PyArrow} `{Vaex}.

(** X13: [None], booleans, integers, strings and lists pass through the
    variable codec unchanged in both directions. *)
Theorem variable_plain_roundtrip (reg : gmap string codec) (depth : nat)
    (obj : pyobj) (p : process) :
  reg !! "variable" = Some variable_encoding ->
  match obj with
  | PyNone | PyBool _ | PyInt _ | PyStr _ | PyList _ => True
  | _ => False
  end ->
  Encoding_encode reg (S depth) "variable" obj p = (Ok obj, p)
  /\ Encoding_decode reg (S depth) "variable" obj [] p = (Ok obj, p).
Proof.
  intros Hreg Hobj.
  rewrite (encode_registered _ _ _ _ _ Hreg).
  rewrite (decode_registered _ _ _ _ _ _ Hreg).
  by destruct obj.
Qed.

(** X14: a dict without the key type is encoded unchanged by the variable
    codec, and decoding what was encoded ends in [KeyError] on type: the
    decoder takes every dict for a wrapper. *)
Theorem variable_dict_no_roundtrip (reg : gmap string codec) (depth : nat)
    (d : pydict) (p : process) :
  reg !! "variable" = Some variable_encoding ->
  dict_get d "type" = None ->
  Encoding_encode reg (S depth) "variable" (PyDict d) p = (Ok (PyDict d), p)
  /\ Encoding_decode reg (S depth) "variable" (PyDict d) [] p
     = (Raise (KeyError (Some "type")), p).
Proof.
  intros Hreg Hd.
  rewrite (encode_registered _ _ _ _ _ Hreg).
  rewrite (decode_registered _ _ _ _ _ _ Hreg).
  split; [done |].
  cbn [codec_decode variable_encoding]. run_M. unfold variable_decode. run_M.
  cbn [getitem]. unfold dict_getitem. by rewrite Hd.
Qed.
End VariablePlain.

Section ArrowCodec.
Context `{Uuid} `{NumPy} `{PyArrow} `{Vaex}.

Lemma arrow_array_encode_eq (reg : gmap string codec) (depth : nat)
    (a : arrow_array) (p : process) :
  reg !! "arrow-array" = Some arrow_array_encoding ->
  Encoding_encode reg (S depth) "arrow-array" (PyArrowArray a) p
  = (Ok (PyDict [("arrow-ipc-blob",
                  PyStr ("blob:" ++ uuid4_str (uuid_calls p)))]),
     {| self := {| blobs := dict_set (blobs (self p))
                              (uuid4_str (uuid_calls p))
                              (ipc_write_table (table_of a));
                   _object_specs := _object_specs (self p);
                   _objects := _objects (self p) |};
        uuid_calls := S (uuid_calls p) |}).
Proof.
  intros Hreg. rewrite (encode_registered _ _ _ _ _ Hreg).
  cbn [codec_encode arrow_array_encoding]. unfold arrow_array_encode.
  destruct a as [c | type chunks]; cbn [table_of];
    unfold mbind at 1, M_bind; by rewrite add_blob_eq.
Qed.

(** X15: the arrow decoder reads the blob under arrow-serialized-blob with
    [pa.deserialize] whenever that key is present, and without it needs
    arrow-ipc-blob, whose absence is a [KeyError]. *)
Theorem arrow_array_decode_keys (reg : gmap string codec) (depth : nat)
    (d : pydict) (p : process) :
  reg !! "arrow-array" = Some arrow_array_encoding ->
  (forall ref blob,
     dict_get d "arrow-serialized-blob" = Some ref ->
     get_blob ref p = (Ok blob, p) ->
     Encoding_decode reg (S depth) "arrow-array" (PyDict d) [] p
     = (pa_deserialize blob, p))
  /\ (dict_get d "arrow-serialized-blob" = None ->
      dict_get d "arrow-ipc-blob" = None ->
      Encoding_decode reg (S depth) "arrow-array" (PyDict d) [] p
      = (Raise (KeyError (Some "arrow-ipc-blob")), p)).
Proof.
  intros Hreg. rewrite !(decode_registered _ _ _ _ _ _ Hreg).
  cbn [codec_decode arrow_array_encoding]. unfold arrow_array_decode. run_M.
  cbn [contains getitem]. unfold dict_contains, dict_getitem. split.
  - intros ref blob -> Hblob. rewrite Hblob. by destruct (pa_deserialize blob).
  - by intros -> ->.
Qed.

(** X16: an arrow array written by the encoder is read back by the decoder
    when the IPC stream reads back the table written; a chunked array of
    exactly one chunk comes back as that chunk. *)
Theorem arrow_array_roundtrip (reg : gmap string codec) (depth : nat)
    (a : arrow_array) (p : process) :
  reg !! "arrow-array" = Some arrow_array_encoding ->
  ipc_read_all (ipc_write_table (table_of a)) = Ok (table_of a) ->
  exists form p',
    Encoding_encode reg (S depth) "arrow-array" (PyArrowArray a) p
    = (Ok form, p')
    /\ Encoding_decode reg (S depth) "arrow-array" form [] p'
       = (Ok (PyArrowArray
                match a with
                | pa_ChunkedArray _ [chunk] => pa_Array chunk
                | _ => a
                end), p').
Proof.
  intros Hreg Hipc. do 2 eexists.
  split; [by apply arrow_array_encode_eq |].
  rewrite (decode_registered _ _ _ _ _ _ Hreg).
  cbn [codec_decode arrow_array_encoding]. unfold arrow_array_decode. run_M.
  cbn [contains getitem]. dict_lookup.
  rewrite get_blob_eq. cbn [self blobs]. unfold dict_getitem.
  rewrite dict_get_set_same, Hipc.
  destruct a as [c | type [| c [| c' chunks]]]; done.
Qed.
End ArrowCodec.

(** * The dtype tag *)

Section DtypeCodec.
Context `{NumPy}.

Lemma dtype_decode_numpy (encoding : dispatcher) (tag : string) (p : process) :
  tag ∉ arrow_tags ->
  dtype_decode encoding (PyStr tag) p
  = (PyDataType <$> (DataType_numpy <$> np_dtype_of (PyStr tag)), p).
Proof.
  intros Htag. unfold arrow_tags in Htag.
  rewrite !not_elem_of_cons in Htag. destruct Htag as (H1 & H2 & H3 & _).
  unfold dtype_decode, str_eq.
  apply not_eq_sym, String.eqb_neq in H1, H2, H3.
  rewrite String.eqb_sym, H1, String.eqb_sym, H2, String.eqb_sym, H3.
  run_M. by destruct (np_dtype_of (PyStr tag)).
Qed.

Lemma dtype_inverse (reg : gmap string codec) (depth : nat)
    (d : np_dtype) (p : process) :
  reg !! "dtype" = Some dtype_encoding ->
  np_dtype_of (PyStr (np_dtype_str d)) = Ok d ->
  np_dtype_str d ∉ arrow_tags ->
  Encoding_encode reg (S depth) "dtype" (PyDataType (DataType_numpy d)) p
  = (Ok (PyStr (np_dtype_str d)), p)
  /\ Encoding_decode reg (S depth) "dtype" (PyStr (np_dtype_str d)) [] p
     = (Ok (PyDataType (DataType_numpy d)), p).
Proof.
  intros Hreg Hparse Htag.
  rewrite (encode_registered _ _ _ _ _ Hreg).
  rewrite (decode_registered _ _ _ _ _ _ Hreg).
  split; [done |].
  cbn [codec_decode dtype_encoding]. run_M.
  rewrite dtype_decode_numpy by done. by rewrite Hparse.
Qed.

(** X17: a numpy element type is encoded as the name numpy prints for it and
    decoded back to the same type, when numpy reads that name back and it is
    none of the three names kept for columnar types. *)
Theorem dtype_roundtrip (reg : gmap string codec) (depth : nat)
    (d : np_dtype) (p : process) :
  reg !! "dtype" = Some dtype_encoding ->
  np_dtype_of (PyStr (np_dtype_str d)) = Ok d ->
  np_dtype_str d ∉ arrow_tags ->
  Encoding_encode reg (S depth) "dtype" (PyDataType (DataType_numpy d)) p
  = (Ok (PyStr (np_dtype_str d)), p)
  /\ Encoding_decode reg (S depth) "dtype" (PyStr (np_dtype_str d)) [] p
     = (Ok (PyDataType (DataType_numpy d)), p).
Proof. apply dtype_inverse. Qed.

(** X18: the columnar types string, large_string and timestamp[ms] are
    encoded as their names and decoded back to themselves, without asking
    numpy. *)
Theorem dtype_arrow_roundtrip (reg : gmap string codec) (depth : nat)
    (t : arrow_type) (p : process) :
  reg !! "dtype" = Some dtype_encoding ->
  t = pa_string \/ t = pa_large_string \/ t = pa_timestamp_ms ->
  Encoding_encode reg (S depth) "dtype" (PyDataType (DataType_arrow t)) p
  = (Ok (PyStr (arrow_type_str t)), p)
  /\ Encoding_decode reg (S depth) "dtype" (PyStr (arrow_type_str t)) [] p
     = (Ok (PyDataType (DataType_arrow t)), p).
Proof.
  intros Hreg Ht.
  rewrite (encode_registered _ _ _ _ _ Hreg).
  rewrite (decode_registered _ _ _ _ _ _ Hreg).
  split; [done |].
  by destruct Ht as [-> | [-> | ->]].
Qed.
End DtypeCodec.

(** * numpy operations *)

Lemma shape_dims_of_shape (shape : list nat) :
  shape_dims (map (fun n => PyInt (Z.of_nat n)) shape)
  = Ok (map Z.of_nat shape).
Proof.
  induction shape as [| n shape IH]; [done |].
  cbn [map shape_dims]. by rewrite IH.
Qed.

Lemma filter_known (shape : list nat) :
  filter (fun d => negb (d =? -1)) (map Z.of_nat shape) = map Z.of_nat shape.
Proof.
  induction shape as [| n shape IH]; [done |].
  cbn [map]. rewrite filter_cons.
  destruct (Z.eqb_spec (Z.of_nat n) (-1)) as [| _]; [lia |].
  cbn. by rewrite IH.
Qed.

Lemma to_nat_of_nat (shape : list nat) :
  map Z.to_nat (map Z.of_nat shape) = shape.
Proof.
  induction shape as [| n shape IH]; [done |].
  cbn [map]. by rewrite Nat2Z.id, IH.
Qed.

(** Reshaping to a shape of the right size gives that shape. *)
Lemma np_reshape_shape (shape : list nat) :
  np_reshape (np_size shape) (shape_value shape) = Ok shape.
Proof.
  unfold np_reshape, shape_value. rewrite shape_dims_of_shape.
  cbn [mbind result_bind]. rewrite filter_known, Nat.sub_diag.
  replace (forallb _ _) with true; cycle 1.
  { symmetry. apply forallb_forall. intros x Hx.
    apply in_map_iff in Hx as (n & <- & _). apply Z.leb_le. lia. }
  cbn [negb]. by rewrite to_nat_of_nat, Nat.eqb_refl.
Qed.

(** A size that does not match is refused. *)
Lemma np_reshape_wrong_size (size : nat) (shape : list nat) :
  size <> np_size shape ->
  np_reshape size (shape_value shape) = Raise ValueError.
Proof.
  intros Hne. unfold np_reshape, shape_value. rewrite shape_dims_of_shape.
  cbn [mbind result_bind]. rewrite filter_known, Nat.sub_diag.
  replace (forallb _ _) with true; cycle 1.
  { symmetry. apply forallb_forall. intros x Hx.
    apply in_map_iff in Hx as (n & <- & _). apply Z.leb_le. lia. }
  cbn [negb]. rewrite to_nat_of_nat.
  apply not_eq_sym, Nat.eqb_neq in Hne. by rewrite Hne.
Qed.

Lemma np_itemsize_pos (d : np_dtype) : (0 < np_itemsize d)%nat.
Proof. destruct d; cbn; lia. Qed.

Lemma np_frombuffer_count (data : pybytes) (d : np_dtype) (n : nat) :
  d <> np_object ->
  length data = (np_itemsize d * n)%nat ->
  np_frombuffer data d = Ok n.
Proof.
  intros Hd Hlen. pose proof (np_itemsize_pos d) as Hpos.
  unfold np_frombuffer. rewrite Hlen.
  rewrite Nat.mul_comm, Nat.Div0.mod_mul, Nat.div_mul by lia.
  by destruct d.
Qed.

Lemma bool_of_byte_of_bool (m : list bool) :
  map bool_of_byte (map byte_of_bool m) = m.
Proof.
  induction m as [| x m IH]; [done |].
  cbn [map]. rewrite IH. by destruct x.
Qed.

Section NdarrayCodec.
Context `{Uuid} `{NumPy} `{PyArrow} `{Vaex}.

Lemma values_kind_not_object (d : np_dtype) :
  d <> np_object ->
  Ascii.eqb (np_kind (if char_in (np_kind d) "mM" then np_uint64 else d)) "O"
  = false.
Proof. by destruct d. Qed.

Lemma kind_not_object (d : np_dtype) :
  d <> np_object -> Ascii.eqb (np_kind d) "O" = false.
Proof. by destruct d. Qed.

(** What the encoder returns for a dense array without a mask. *)
Lemma ndarray_encode_plain (reg : gmap string codec) (depth : nat)
    (a : ndarray) (p : process) :
  reg !! "ndarray" = Some ndarray_encoding ->
  reg !! "dtype" = Some dtype_encoding ->
  nd_dtype a <> np_object ->
  nd_mask a = None ->
  Encoding_encode reg (S (S depth)) "ndarray" (PyNdarray a) p
  = (Ok (PyDict [("values", PyStr ("blob:" ++ uuid4_str (uuid_calls p)));
                 ("shape", shape_value (nd_shape a));
                 ("dtype", PyStr (np_dtype_str (nd_dtype a)))]),
     snd (add_blob (nd_buffer a) p)).
Proof.
  intros Hnd Hdt Hd Hmask. rewrite (encode_registered _ _ _ _ _ Hnd).
  cbn [codec_encode ndarray_encoding]. unfold ndarray_encode.
  rewrite values_kind_not_object, Hmask by done.
  unfold mbind at 1, M_bind. rewrite add_blob_eq.
  change (encode_with (dispatch reg (S depth))) with (Encoding_encode reg (S depth)).
  unfold mbind at 1, M_bind.
  by rewrite (encode_registered _ _ _ _ _ Hdt).
Qed.

(** What the encoder returns for a masked array. *)
Lemma ndarray_encode_masked (reg : gmap string codec) (depth : nat)
    (a : ndarray) (mask : ma_mask) (p : process) :
  reg !! "ndarray" = Some ndarray_encoding ->
  reg !! "dtype" = Some dtype_encoding ->
  nd_dtype a <> np_object ->
  nd_mask a = Some mask ->
  Encoding_encode reg (S (S depth)) "ndarray" (PyNdarray a) p
  = (Ok (PyDict [("values", PyStr ("blob:" ++ uuid4_str (uuid_calls p)));
                 ("shape", shape_value (nd_shape a));
                 ("dtype", PyStr (np_dtype_str (nd_dtype a)));
                 ("mask", PyStr ("blob:" ++ uuid4_str (S (uuid_calls p))))]),
     snd (add_blob (mask_tobytes mask) (snd (add_blob (nd_buffer a) p)))).
Proof.
  intros Hnd Hdt Hd Hmask. rewrite (encode_registered _ _ _ _ _ Hnd).
  cbn [codec_encode ndarray_encoding]. unfold ndarray_encode.
  rewrite values_kind_not_object, Hmask by done.
  unfold mbind at 1, M_bind. rewrite add_blob_eq.
  change (encode_with (dispatch reg (S depth))) with (Encoding_encode reg (S depth)).
  unfold mbind at 1, M_bind.
  rewrite (encode_registered _ _ _ _ _ Hdt).
  cbn [codec_encode dtype_encoding dtype_encode]. run_M.
  rewrite !add_blob_eq. cbn [snd uuid_calls self blobs _object_specs _objects].
  done.
Qed.

(** Decoding the form of a dense array whose blobs are in the session. *)
Lemma ndarray_decode_dense (reg : gmap string codec) (depth : nat)
    (d : np_dtype) (shape : list nat) (buffer : pybytes) (id : string)
    (p : process) :
  reg !! "ndarray" = Some ndarray_encoding ->
  reg !! "dtype" = Some dtype_encoding ->
  d <> np_object ->
  dtype_tag_ok d ->
  length buffer = (np_itemsize d * np_size shape)%nat ->
  dict_get (blobs (self p)) id = Some buffer ->
  Encoding_decode reg (S (S depth)) "ndarray"
    (PyDict [("values", PyStr ("blob:" ++ id));
             ("shape", shape_value shape);
             ("dtype", PyStr (np_dtype_str d))]) [] p
  = (Ok (PyNdarray {| nd_dtype := d; nd_shape := shape; nd_buffer := buffer;
                      nd_items := []; nd_mask := None |}), p).
Proof.
  intros Hnd Hdt Hd [Hparse Htag] Hlen Hblob.
  rewrite (decode_registered _ _ _ _ _ _ Hnd).
  cbn [codec_decode ndarray_encoding]. run_M. cbn [ndarray_decode].
  unfold ndarray_decode_one. run_M.
  cbn [getitem contains]. dict_lookup.
  change (decode_with (dispatch reg (S depth))) with (Encoding_decode reg (S depth)).
  destruct (dtype_inverse reg depth d p Hdt Hparse Htag) as [_ ->].
  cbn [DataType_kind DataType_numpy_of fmap result_fmap].
  rewrite kind_not_object by done.
  rewrite get_blob_eq. unfold dict_getitem at 1. rewrite Hblob.
  rewrite (np_frombuffer_count _ _ _ Hd Hlen), np_reshape_shape.
  done.
Qed.
End NdarrayCodec.

Section NdarrayRoundtrip.
Context `{Uuid} `{NumPy} `{PyArrow} `{Vaex}.

(** Decoding the form of a dense array with a mask blob. *)
Lemma ndarray_decode_masked (reg : gmap string codec) (depth : nat)
    (d : np_dtype) (shape : list nat) (buffer mask_data : pybytes)
    (id id' : string) (p : process) :
  reg !! "ndarray" = Some ndarray_encoding ->
  reg !! "dtype" = Some dtype_encoding ->
  d <> np_object ->
  dtype_tag_ok d ->
  length buffer = (np_itemsize d * np_size shape)%nat ->
  dict_get (blobs (self p)) id = Some buffer ->
  dict_get (blobs (self p)) id' = Some mask_data ->
  Encoding_decode reg (S (S depth)) "ndarray"
    (PyDict [("values", PyStr ("blob:" ++ id));
             ("shape", shape_value shape);
             ("dtype", PyStr (np_dtype_str d));
             ("mask", PyStr ("blob:" ++ id'))]) [] p
  = (if (length mask_data =? np_size shape)%nat
     then Ok (PyNdarray {| nd_dtype := d; nd_shape := shape;
                           nd_buffer := buffer; nd_items := [];
                           nd_mask := Some (mask_array
                                              (map bool_of_byte mask_data)) |})
     else Raise ValueError, p).
Proof.
  intros Hnd Hdt Hd [Hparse Htag] Hlen Hblob Hmask.
  rewrite (decode_registered _ _ _ _ _ _ Hnd).
  cbn [codec_decode ndarray_encoding]. run_M. cbn [ndarray_decode].
  unfold ndarray_decode_one. run_M.
  cbn [getitem contains]. dict_lookup.
  change (decode_with (dispatch reg (S depth))) with (Encoding_decode reg (S depth)).
  destruct (dtype_inverse reg depth d p Hdt Hparse Htag) as [_ ->].
  cbn [DataType_kind DataType_numpy_of fmap result_fmap].
  rewrite kind_not_object by done.
  rewrite get_blob_eq. unfold dict_getitem at 1. rewrite Hblob.
  rewrite (np_frombuffer_count _ _ _ Hd Hlen), np_reshape_shape.
  cbv beta iota.
  rewrite get_blob_eq. unfold dict_getitem at 1. rewrite Hmask.
  rewrite (np_frombuffer_count mask_data np_bool (length mask_data));
    [| done | cbn; lia].
  destruct (Nat.eqb_spec (length mask_data) (np_size shape)) as [E | Hne].
  - rewrite E, np_reshape_shape. unfold np_ma_array. cbn [nd_shape].
    by rewrite bool_decide_eq_true_2.
  - by rewrite np_reshape_wrong_size.
Qed.

Lemma ndarray_inverse (reg : gmap string codec) (depth : nat)
    (a : ndarray) (p : process) :
  reg !! "ndarray" = Some ndarray_encoding ->
  reg !! "dtype" = Some dtype_encoding ->
  dense a ->
  dtype_tag_ok (nd_dtype a) ->
  uuid4_str (uuid_calls p) <> uuid4_str (S (uuid_calls p)) ->
  exists form p',
    Encoding_encode reg (S (S depth)) "ndarray" (PyNdarray a) p = (Ok form, p')
    /\ Encoding_decode reg (S (S depth)) "ndarray" form [] p'
       = (Ok (PyNdarray a), p').
Proof.
  intros Hnd Hdt (Hd & Hlen & Hitems & Hmask) Htag Hfresh.
  destruct (nd_mask a) as [[| m] |] eqn:Em; [done | |].
  - do 2 eexists. split; [by apply ndarray_encode_masked |].
    set (p' := snd (add_blob _ (snd (add_blob _ p)))).
    assert (dict_get (blobs (self p')) (uuid4_str (uuid_calls p))
            = Some (nd_buffer a)) as Hb1.
    { unfold p'. rewrite !add_blob_eq. cbn [snd self blobs uuid_calls].
      rewrite dict_get_set_other by (intros E; by apply Hfresh).
      apply dict_get_set_same. }
    assert (dict_get (blobs (self p')) (uuid4_str (S (uuid_calls p)))
            = Some (mask_tobytes (mask_array m))) as Hb2.
    { unfold p'. rewrite !add_blob_eq. cbn [snd self blobs uuid_calls].
      apply dict_get_set_same. }
    rewrite (ndarray_decode_masked _ _ _ _ _ _ _ _ _ Hnd Hdt Hd Htag Hlen Hb1 Hb2).
    cbn [mask_tobytes]. rewrite length_map, Hmask, Nat.eqb_refl.
    rewrite bool_of_byte_of_bool.
    destruct a; cbn in *; by subst.
  - do 2 eexists. split; [by apply ndarray_encode_plain |].
    set (p' := snd (add_blob _ p)).
    assert (dict_get (blobs (self p')) (uuid4_str (uuid_calls p))
            = Some (nd_buffer a)) as Hb1.
    { unfold p'. rewrite !add_blob_eq. cbn [snd self blobs uuid_calls].
      apply dict_get_set_same. }
    rewrite (ndarray_decode_dense _ _ _ _ _ _ _ Hnd Hdt Hd Htag Hlen Hb1).
    destruct a; cbn in *; by subst.
Qed.

(** X19: a dense array, masked by a mask array of its shape or not masked,
    is encoded with its buffers as blobs of the session and decoded to the
    array that was encoded, when [uuid4] gives two different identifiers. *)
Theorem ndarray_roundtrip (reg : gmap string codec) (depth : nat)
    (a : ndarray) (p : process) :
  reg !! "ndarray" = Some ndarray_encoding ->
  reg !! "dtype" = Some dtype_encoding ->
  dense a ->
  dtype_tag_ok (nd_dtype a) ->
  uuid4_str (uuid_calls p) <> uuid4_str (S (uuid_calls p)) ->
  exists form p',
    Encoding_encode reg (S (S depth)) "ndarray" (PyNdarray a) p = (Ok form, p')
    /\ Encoding_decode reg (S (S depth)) "ndarray" form [] p'
       = (Ok (PyNdarray a), p').
Proof. apply ndarray_inverse. Qed.


End NdarrayRoundtrip.

(** * The envelope of a session *)

Lemma dict_get_elem {V} (d : list (string * V)) (k : string) (v : V) :
  dict_ok d -> (k, v) ∈ d -> dict_get d k = Some v.
Proof.
  intros Hd Hin. induction d as [| [k0 v0] d IH]; [by apply elem_of_nil in Hin |].
  unfold dict_ok in Hd. cbn [dict_keys map fst] in Hd.
  apply NoDup_cons in Hd as [Hk0 Hd]. cbn [dict_get].
  apply elem_of_cons in Hin as [[= -> ->] | Hin].
  - by rewrite String.eqb_refl.
  - destruct (String.eqb_spec k0 k) as [-> | _]; [| by apply IH].
    exfalso. apply Hk0. apply (list_elem_of_fmap_2 fst) in Hin. done.
Qed.

Lemma getitems_keys {V} (d d' : list (string * V)) :
  dict_ok d -> d' ⊆ d -> getitems d (dict_keys d') = Ok (map snd d').
Proof.
  intros Hd. induction d' as [| [k v] d' IH]; intros Hsub; [done |].
  cbn [dict_keys map fst snd getitems].
  unfold dict_getitem. rewrite (dict_get_elem d k v) by (done || set_solver).
  cbn [mbind result_bind]. unfold dict_keys in IH. rewrite IH by set_solver.
  done.
Qed.

Lemma blobs_in_order (d : list (string * pybytes)) :
  dict_ok d -> getitems d (dict_keys d) = Ok (map snd d).
Proof. intros Hd. by apply getitems_keys. Qed.

Lemma each_getitems (d : list (string * pybytes)) (l : list string) :
  (fix each (l : list string) : result (list pybytes) :=
     match l with
     | [] => Ok []
     | k :: l' => x ← dict_getitem d k; xs ← each l'; Ok (x :: xs)
     end) l = getitems d l.
Proof. induction l as [| k l IH]; [done |]. cbn [getitems]. by rewrite <- IH. Qed.

Lemma blob_ids_strs (ids : list string) : blob_ids (map PyStr ids) = Ok ids.
Proof. induction ids as [| id ids IH]; [done |]. cbn. by rewrite IH. Qed.

Section BinaryEnvelope.
Context `{Platform} `{Json}.

(** X25: [binary.deserialize] on the bytes [binary.serialize] made of a
    session and a root form returns the root form and leaves the reading
    session with the blobs and the object specs of the writing one, its
    decoded objects untouched; for a blob table with each key once, a JSON
    text that reads back, and an envelope that fits. *)
Theorem binary_roundtrip (data : pyobj) (text : string) (p q : process) :
  dict_ok (blobs (self p)) ->
  json_dumps (metadata data (self p)) = Ok text ->
  utf8_valid (str_encode_utf8 text) = true ->
  json_loads text = Ok (metadata data (self p)) ->
  envelope_fits (str_encode_utf8 text :: map snd (blobs (self p))) ->
  exists bytes,
    binary_serialize data p = (Ok bytes, p)
    /\ binary_deserialize bytes q
       = (Ok data,
          {| self := {| blobs := blobs (self p);
                        _object_specs := _object_specs (self p);
                        _objects := _objects (self q) |};
             uuid_calls := uuid_calls q |}).
Proof.
  intros Hd Hdumps Hvalid Hloads Hfit.
  destruct (unpack_pack_blobs _ Hfit) as (bytes & Hpack & Hunpack).
  exists bytes. split.
  - unfold binary_serialize. run_M. cbn [self].
    rewrite each_getitems, blobs_in_order by done.
    fold (metadata data (self p)). rewrite Hdumps, Hpack. by destruct p.
  - unfold binary_deserialize. run_M. rewrite Hunpack. cbn [fst snd].
    unfold bytes_decode_utf8. rewrite Hvalid.
    unfold str_encode_utf8. rewrite string_of_list_byte_of_string, Hloads.
    unfold metadata. cbn [getitem]. dict_lookup.
    rewrite blob_ids_strs. cbn [self blobs _object_specs _objects uuid_calls].
    by rewrite py_zip_fst_snd, dict_of_pairs_id.
Qed.

(** Bytes that hold no blob at all, or a first blob that is not UTF-8,
    are refused. *)
Theorem binary_deserialize_errors (bytes : pybytes) (q : process) :
  (_unpack_blobs bytes = Ok [] ->
   binary_deserialize bytes q = (Raise ValueError, q))
  /\ (forall first rest,
        _unpack_blobs bytes = Ok (first :: rest) ->
        utf8_valid first = false ->
        binary_deserialize bytes q = (Raise UnicodeDecodeError, q))
  /\ (forall e, _unpack_blobs bytes = Raise e ->
        binary_deserialize bytes q = (Raise e, q)).
Proof.
  unfold binary_deserialize. run_M. repeat split.
  - by intros ->.
  - intros first rest -> Hbad. cbn [fst]. unfold bytes_decode_utf8.
    by rewrite Hbad.
  - by intros e ->.
Qed.
End BinaryEnvelope.

(** * Envelopes that are cut or extended *)

Section Truncation.
Context `{Platform}.

(** X26: unpacking the envelope [_pack_blobs] made of any list of blobs
    gives the same blobs in the same order. *)
Theorem unpack_blobs_pack_blobs (blobs : list pybytes) :
  envelope_fits blobs ->
  exists bytes, _pack_blobs blobs = Ok bytes /\ _unpack_blobs bytes = Ok blobs.
Proof. apply unpack_pack_blobs. Qed.

(** A buffer with fewer than 8 bytes has no count to read. *)
Theorem unpack_blobs_short (bytes : pybytes) :
  (length bytes < 8)%nat -> _unpack_blobs bytes = Raise struct_error.
Proof.
  intros Hshort. unfold _unpack_blobs.
  assert (BytesIO_read 8 (BytesIO_new bytes)
          = Ok (bytes, {| getvalue := bytes; tell := length bytes |})) as ->.
  { unfold BytesIO_read, BytesIO_new. cbn [getvalue tell].
    change (in_int64 8) with true. cbn [negb drop].
    change (8 <? 0) with false. cbv iota. change (Z.to_nat 8) with 8%nat.
    rewrite drop_0, firstn_all2 by lia. done. }
  cbn [mbind result_bind].
  unfold struct_unpack_q. change (1 <? 0) with false. cbv iota.
  destruct (Z.eqb_spec (len bytes) (8 * 1)) as [E | _]; [unfold len in E; lia |].
  done.
Qed.

(** The envelope of [blobs] with its tail replaced by [tail]. *)
Lemma unpack_changed_body (blobs : list pybytes) (body : pybytes) :
  envelope_fits blobs ->
  length body <> length (concat blobs) ->
  _unpack_blobs (concat (map pack_q (header_words blobs)) ++ body)
  = Raise AssertionError.
Proof.
  intros Hfit Hne. pose proof Hfit as Hfit'. unfold envelope_fits in Hfit'.
  assert (0 <= total_len blobs) as Ht by (rewrite <- len_concat; unfold len; lia).
  pose proof (len_header blobs) as Hhdr.
  unfold header_words in *.
  rewrite unpack_blobs_header; cycle 1.
  - unfold len. rewrite length_offsets_of, length_map. lia.
  - by apply (header_words_in_int64 blobs).
  - apply in_int64_range. unfold len, int64_max in *. lia.
  - unfold unpack_body.
    erewrite py_index_last by apply last_offsets_of.
    cbn [mbind result_bind].
    replace (_ =? _) with false; [done |].
    symmetry. apply Z.eqb_neq.
    change (sum_Z (map len blobs)) with (total_len blobs).
    rewrite <- len_concat. unfold len in *. rewrite length_app. lia.
Qed.

(** X27: an envelope followed by more bytes, or cut short anywhere after its
    header, fails the assertion of [_unpack_blobs] on the last offset. *)
Theorem unpack_blobs_wrong_length (blobs : list pybytes)
    (bytes extra : pybytes) (n : nat) :
  envelope_fits blobs ->
  _pack_blobs blobs = Ok bytes ->
  (extra <> [] -> _unpack_blobs (bytes ++ extra) = Raise AssertionError)
  /\ (8 * (length blobs + 2) <= n < length bytes ->
      _unpack_blobs (firstn n bytes) = Raise AssertionError)%nat.
Proof.
  intros Hfit Hpack.
  assert (bytes = concat (map pack_q (header_words blobs)) ++ concat blobs) as ->.
  { rewrite pack_blobs_ok in Hpack by done. congruence. }
  pose proof (len_header blobs) as Hhdr. unfold len in Hhdr.
  split.
  - intros Hextra. rewrite <- app_assoc. apply unpack_changed_body; [done |].
    rewrite length_app. destruct extra; [done |]. cbn [length]. lia.
  - intros [Hlo Hhi]. rewrite length_app in Hhi.
    rewrite take_app_ge by lia.
    apply unpack_changed_body; [done |].
    rewrite length_take. lia.
Qed.
End Truncation.

(** * Arrays of objects *)







Section ObjectArrays.
Context `{Uuid} `{NumPy} `{PyArrow} `{Vaex}.

Lemma ndarray_encode_boxed (reg : gmap string codec) (depth : nat)
    (a : ndarray) (p : process) :
  reg !! "ndarray" = Some ndarray_encoding ->
  reg !! "dtype" = Some dtype_encoding ->
  nd_dtype a = np_object ->
  nd_mask a = None ->
  Encoding_encode reg (S (S depth)) "ndarray" (PyNdarray a) p
  = (Ok (PyDict [("values", tolist (nd_shape a) (nd_items a));
                 ("shape", shape_value (nd_shape a));
                 ("dtype", PyStr (np_dtype_str np_object))]), p).
Proof.
  intros Hnd Hdt Hd Hmask. rewrite (encode_registered _ _ _ _ _ Hnd).
  cbn [codec_encode ndarray_encoding]. unfold ndarray_encode.
  rewrite Hd, Hmask. cbn [np_kind char_in existsb list_ascii_of_string].
  change (Ascii.eqb "O" "m") with false. change (Ascii.eqb "O" "M") with false.
  cbn [orb]. change (Ascii.eqb "O" "O") with true. cbv iota.
  run_M.
  change (encode_with (dispatch reg (S depth))) with (Encoding_encode reg (S depth)).
  by rewrite (encode_registered _ _ _ _ _ Hdt).
Qed.

Lemma ndarray_decode_boxed (reg : gmap string codec) (depth : nat)
    (data shape : pyobj) (p : process) :
  reg !! "ndarray" = Some ndarray_encoding ->
  reg !! "dtype" = Some dtype_encoding ->
  dtype_tag_ok np_object ->
  Encoding_decode reg (S (S depth)) "ndarray"
    (PyDict [("values", data); ("shape", shape);
             ("dtype", PyStr (np_dtype_str np_object))]) [] p
  = (Ok (PyNdarray (np_array_object data)), p).
Proof.
  intros Hnd Hdt [Hparse Htag].
  rewrite (decode_registered _ _ _ _ _ _ Hnd).
  cbn [codec_decode ndarray_encoding]. run_M. cbn [ndarray_decode].
  unfold ndarray_decode_one. run_M.
  cbn [getitem contains]. dict_lookup.
  change (decode_with (dispatch reg (S depth))) with (Encoding_decode reg (S depth)).
  destruct (dtype_inverse reg depth np_object p Hdt Hparse Htag) as [_ ->].
  done.
Qed.


(** X22: the decoder does not reshape an array of dtype object: an array
    with an empty first axis and further axes is encoded, and comes back as
    the empty array of shape (0,). *)
Theorem ndarray_object_empty_axis (reg : gmap string codec) (depth : nat)
    (a : ndarray) (n : nat) (rest : list nat) (p : process) :
  reg !! "ndarray" = Some ndarray_encoding ->
  reg !! "dtype" = Some dtype_encoding ->
  dtype_tag_ok np_object ->
  boxed a ->
  nd_shape a = 0%nat :: n :: rest ->
  exists form,
    Encoding_encode reg (S (S depth)) "ndarray" (PyNdarray a) p = (Ok form, p)
    /\ Encoding_decode reg (S (S depth)) "ndarray" form [] p
       = (Ok (PyNdarray {| nd_dtype := np_object; nd_shape := [0%nat];
                           nd_buffer := []; nd_items := [];
                           nd_mask := None |}), p).
Proof.
  intros Hnd Hdt Htag (Hd & Hbuf & Hmask & Hlen & Hitems) Hshape.
  eexists. split; [by apply ndarray_encode_boxed |].
  rewrite ndarray_decode_boxed by done.
  by rewrite Hshape.
Qed.

End ObjectArrays.

(** * Wrappers and aliases *)

Section Wrappers.
Context `{Uuid} `{NumPy} `{PyArrow} `{Vaex}.

(** The array codec wraps what the codec of the value's class returns,
    and its decoder hands the wrapped data to the codec the wrapper
    names. *)
Theorem array_wrapper (reg : gmap string codec) (depth : nat)
    (tag : string) (value form : pyobj) (p p' : process) :
  reg !! "array" = Some array_encoding ->
  match value with
  | PyNdarray _ => tag = "ndarray"%string
  | PyArrowArray _ => tag = "arrow-array"%string
  | _ => False
  end ->
  Encoding_encode reg (S depth) tag value p = (Ok form, p') ->
  Encoding_encode reg (S (S depth)) "array" value p
  = (Ok (PyDict [("type", PyStr tag); ("data", form)]), p')
  /\ forall q,
       Encoding_decode reg (S (S depth)) "array"
         (PyDict [("type", PyStr tag); ("data", form)]) [] q
       = Encoding_decode reg (S depth) tag form [] q.
Proof.
  intros Harr Hval Henc.
  rewrite (encode_registered _ _ _ _ _ Harr). split.
  - cbn [codec_encode array_encoding]. unfold array_encode.
    destruct value; try done; subst tag;
      change (encode_with (dispatch reg (S depth)))
        with (Encoding_encode reg (S depth));
      unfold mbind, M_bind; by rewrite Henc.
  - intros q. rewrite (decode_registered _ _ _ _ _ _ Harr).
    cbn [codec_decode array_encoding]. unfold array_decode. run_M.
    cbn [getitem]. dict_lookup. cbn [typename_of]. done.
Qed.

(** X23: a dense numpy array goes through the array codec, which wraps the
    form of the ndarray codec, and comes back as the array that was encoded.
    *)
Theorem array_dense_roundtrip (reg : gmap string codec) (depth : nat)
    (a : ndarray) (p : process) :
  reg !! "array" = Some array_encoding ->
  reg !! "ndarray" = Some ndarray_encoding ->
  reg !! "dtype" = Some dtype_encoding ->
  dense a ->
  dtype_tag_ok (nd_dtype a) ->
  uuid4_str (uuid_calls p) <> uuid4_str (S (uuid_calls p)) ->
  exists form p',
    Encoding_encode reg (S (S (S depth))) "array" (PyNdarray a) p = (Ok form, p')
    /\ Encoding_decode reg (S (S (S depth))) "array" form [] p'
       = (Ok (PyNdarray a), p').
Proof.
  intros Harr Hnd Hdt Hdense Htag Hfresh.
  destruct (ndarray_inverse reg depth a p Hnd Hdt Hdense Htag Hfresh)
    as (form & p' & Henc & Hdec).
  exists (PyDict [("type", PyStr "ndarray"); ("data", form)]), p'.
  rewrite (encode_registered _ _ _ _ _ Harr).
  rewrite (decode_registered _ _ _ _ _ _ Harr). split.
  - cbn [codec_encode array_encoding array_encode].
    change (encode_with (dispatch reg (S (S depth))))
      with (Encoding_encode reg (S (S depth))).
    unfold mbind, M_bind. by rewrite Henc.
  - cbn [codec_decode array_encoding]. unfold array_decode. run_M.
    cbn [getitem]. dict_lookup. cbn [typename_of]. exact Hdec.
Qed.

(** [vaex-task-result] is [vaex-evaluate-result] under another name. *)
Theorem task_result_is_evaluate_result (reg : gmap string codec)
    (depth : nat) (value : pyobj) (p : process) :
  reg !! "vaex-task-result" = Some vaex_task_result_encoding ->
  Encoding_encode reg (S depth) "vaex-task-result" value p
  = Encoding_encode reg depth "vaex-evaluate-result" value p
  /\ Encoding_decode reg (S depth) "vaex-task-result" value [] p
     = Encoding_decode reg depth "vaex-evaluate-result" value [] p.
Proof.
  intros Htask.
  rewrite (encode_registered _ _ _ _ _ Htask).
  rewrite (decode_registered _ _ _ _ _ _ Htask).
  split; [done |].
  cbn [codec_decode vaex_task_result_encoding]. run_M.
  unfold Encoding_decode. by destruct (decode_with _ _ _ _ _) as [[] ?].
Qed.

(** X24: a list of integers is encoded by vaex-evaluate-result as the list
    of their json wrappers, in order, and decoding that list gives the
    integers back in the same order. *)
Theorem evaluate_result_batch (reg : gmap string codec) (depth : nat)
    (numbers : list Z) (p : process) :
  reg !! "vaex-evaluate-result" = Some vaex_evaluate_results_encoding ->
  reg !! "array" = Some array_encoding ->
  reg !! "json" = Some vaex_json_encoding ->
  let wrap n := PyDict [("type", PyStr "json"); ("data", PyInt n)] in
  Encoding_encode reg (S (S (S depth))) "vaex-evaluate-result"
    (PyList (map PyInt numbers)) p
  = (Ok (PyList (map wrap numbers)), p)
  /\ Encoding_decode reg (S (S (S depth))) "vaex-evaluate-result"
       (PyList (map wrap numbers)) [] p
     = (Ok (PyList (map PyInt numbers)), p).
Proof.
  intros Heval Harr Hjson wrap. subst wrap. cbv beta.
  rewrite (encode_registered _ _ _ _ _ Heval).
  rewrite (decode_registered _ _ _ _ _ _ Heval).
  cbn [codec_encode codec_decode vaex_evaluate_results_encoding].
  run_M. cbn [vaex_evaluate_results_encode vaex_evaluate_results_decode].
  run_M. split.
  - match goal with
    | |- match ?loop _ p with _ => _ end = _ =>
        assert (loop (map PyInt numbers) p
                = (Ok (map (fun n => PyDict [("type", PyStr "json");
                                             ("data", PyInt n)]) numbers), p))
          as ->
    end; [| done].
    induction numbers as [| n numbers IH]; [done |].
    cbn [map vaex_evaluate_results_encode].
    change (encode_with (dispatch reg (S (S depth))))
      with (Encoding_encode reg (S (S depth))).
    destruct (array_number_inverse reg (S depth) (PyInt n) p Harr Hjson)
      as [-> _]; [left; by eexists |].
    by rewrite IH.
  - match goal with
    | |- match ?loop _ p with _ => _ end = _ =>
        assert (loop (map (fun n => PyDict [("type", PyStr "json");
                                            ("data", PyInt n)]) numbers) p
                = (Ok (map PyInt numbers), p)) as ->
    end; [| done].
    induction numbers as [| n numbers IH]; [done |].
    cbn [map vaex_evaluate_results_decode].
    change (decode_with (dispatch reg (S (S depth))))
      with (Encoding_decode reg (S (S depth))).
    destruct (array_number_inverse reg depth (PyInt n) p Harr Hjson)
      as [_ ->]; [left; by eexists |].
    by rewrite IH.
Qed.
End Wrappers.

(** * Instances of the theorems on the sample libraries *)

Section Examples.
Import Sample.

Lemma sample_tag_ok (d : np_dtype) : dtype_tag_ok d.
Proof.
  split.
  - destruct d as [| | | | | | | | | | | | | | u | u |]; try reflexivity;
      by destruct u.
  - apply (bool_decide_unpack _).
    destruct d as [| | | | | | | | | | | | | | u | u |]; try reflexivity;
      by destruct u.
Qed.

Lemma sample_fresh (n : nat) : (n < 16)%nat -> uuid4_str n <> uuid4_str (S n).
Proof.
  intros Hn. do 16 (destruct n as [| n]; [by vm_compute |]). lia.
Qed.

Lemma register_duplicate_fails_witness :
  register "json" array_encoding registry = (Raise AssertionError, registry).
Proof.
  apply register_duplicate_fails. rewrite registry_lookup. by eexists.
Defined.

Lemma register_new_tag_witness :
  exists registry',
    register "binner" vaex_json_encoding registry = (Ok tt, registry')
    /\ registry' !! "binner" = Some vaex_json_encoding
    /\ forall other, other <> "binner"%string ->
         registry' !! other = registry !! other.
Proof. apply register_new_tag. by rewrite registry_lookup. Defined.

Lemma dispatch_unknown_type_witness :
  Encoding_encode registry 1 "no-such-type" PyNone p0
  = (Raise (KeyError (Some "no-such-type")), p0)
  /\ Encoding_decode registry 1 "no-such-type" PyNone [] p0
     = (Raise (KeyError (Some "no-such-type")), p0).
Proof. apply dispatch_unknown_type. by rewrite registry_lookup. Defined.

Lemma add_blob_keeps_blobs_witness :
  let p1 := snd (add_blob [Byte.x01] p0) in
  get_blob (PyStr ("blob:" ++ uuid4_str 0)) (snd (add_blob [Byte.x02] p1))
  = (Ok [Byte.x01], snd (add_blob [Byte.x02] p1)).
Proof.
  intros p1. apply add_blob_keeps_blobs; [reflexivity |].
  by vm_compute.
Defined.

Lemma get_blob_errors_witness :
  get_blob (PyStr "id-1") p2 = (Raise AssertionError, p2)
  /\ get_blob (PyStr "blob:id-7") p2 = (Raise (KeyError (Some "id-7")), p2).
Proof.
  split.
  - by apply (proj1 (get_blob_errors "id-1" p2)).
  - by apply (proj2 (get_blob_errors "blob:id-7" p2)).
Defined.

Lemma set_object_spec_write_once_witness :
  exists p',
    set_object_spec "df" (PyInt 1) p0 = (Ok tt, p')
    /\ has_object_spec "df" p' = (Ok true, p')
    /\ get_object_spec "df" p' = (Ok (PyInt 1), p')
    /\ set_object_spec "df" (PyInt 2) p' = (Raise AssertionError, p')
    /\ blobs (self p') = blobs (self p0)
    /\ _objects (self p') = _objects (self p0).
Proof. by apply set_object_spec_write_once. Defined.

Lemma set_object_write_once_witness :
  exists p',
    set_object "df" (PyInt 1) p0 = (Ok tt, p')
    /\ has_object "df" p' = (Ok true, p')
    /\ get_object "df" p' = (Ok (PyInt 1), p')
    /\ set_object "df" (PyInt 2) p' = (Raise AssertionError, p')
    /\ blobs (self p') = blobs (self p0)
    /\ _object_specs (self p') = _object_specs (self p0).
Proof. by apply set_object_write_once. Defined.

Lemma function_decode_trusted_witness :
  let spec := PyDict [("cls", PyStr "function"); ("id", PyInt 7)] in
  Encoding_decode registry 1 "function" spec [] p0 = (Raise ValueError, p0)
  /\ Encoding_decode registry 1 "function" spec [("trusted", PyBool true)] p0
     = (Ok (PyObject 7), p0).
Proof.
  intros spec.
  exact (function_decode_trusted registry 0 spec (PyBool true) p0
           (registry_lookup "function") ltac:(done)).
Defined.

Lemma function_decode_none_and_keywords_witness :
  Encoding_decode registry 1 "function" PyNone [] p0 = (Ok PyNone, p0)
  /\ Encoding_decode registry 1 "function" PyNone [("trusted", PyBool true)] p0
     = (Ok PyNone, p0)
  /\ Encoding_decode registry 1 "function" (PyInt 1) [("trust", PyBool true)] p0
     = (Raise TypeError, p0).
Proof.
  apply function_decode_none_and_keywords;
    [by rewrite registry_lookup | done].
Defined.

Lemma json_decode_keyword_witness :
  Encoding_decode registry 1 "json" (PyInt 1) [("trusted", PyBool true)] p0
  = (Raise TypeError, p0)
  /\ Encoding_decode registry 1 "json" (PyInt 1) [] p0 = (Ok (PyInt 1), p0)
  /\ Encoding_encode registry 1 "json" (PyInt 1) p0 = (Ok (PyInt 1), p0).
Proof. apply json_decode_keyword. by rewrite registry_lookup. Defined.

Lemma array_number_roundtrip_witness :
  Encoding_encode registry 1 "array" (PyInt 42) p0
  = (Ok (PyDict [("type", PyStr "json"); ("data", PyInt 42)]), p0)
  /\ Encoding_decode registry 2 "array"
       (PyDict [("type", PyStr "json"); ("data", PyInt 42)]) [] p0
     = (Ok (PyInt 42), p0).
Proof.
  apply array_number_roundtrip; [by rewrite registry_lookup ..|].
  left. by eexists.
Defined.


Lemma variable_plain_roundtrip_witness :
  Encoding_encode registry 1 "variable" (PyList [PyInt 1; PyStr "a"]) p0
  = (Ok (PyList [PyInt 1; PyStr "a"]), p0)
  /\ Encoding_decode registry 1 "variable" (PyList [PyInt 1; PyStr "a"]) [] p0
     = (Ok (PyList [PyInt 1; PyStr "a"]), p0).
Proof. apply variable_plain_roundtrip; [by rewrite registry_lookup | done]. Defined.

Lemma variable_dict_no_roundtrip_witness :
  Encoding_encode registry 1 "variable" (PyDict [("a", PyInt 1)]) p0
  = (Ok (PyDict [("a", PyInt 1)]), p0)
  /\ Encoding_decode registry 1 "variable" (PyDict [("a", PyInt 1)]) [] p0
     = (Raise (KeyError (Some "type")), p0).
Proof. apply variable_dict_no_roundtrip; [by rewrite registry_lookup | done]. Defined.
End Examples.

Section Examples2.
Import Sample.

Lemma arrow_array_decode_keys_witness :
  let p1 := snd (add_blob (put_chunk utf8_chunk) p0) in
  Encoding_decode registry 1 "arrow-array"
    (PyDict [("arrow-serialized-blob", PyStr ("blob:" ++ uuid4_str 0))]) [] p1
  = (Ok (PyArrowArray (pa_Array utf8_chunk)), p1)
  /\ Encoding_decode registry 1 "arrow-array" (PyDict [("blob", PyNone)]) [] p1
     = (Raise (KeyError (Some "arrow-ipc-blob")), p1).
Proof.
  intros p1.
  destruct (arrow_array_decode_keys registry 0
              [("arrow-serialized-blob", PyStr ("blob:" ++ uuid4_str 0))] p1
              (registry_lookup "arrow-array")) as [Hlegacy _].
  destruct (arrow_array_decode_keys registry 0 [("blob", PyNone)] p1
              (registry_lookup "arrow-array")) as [_ Hneither].
  split.
  - exact (Hlegacy _ (put_chunk utf8_chunk) eq_refl eq_refl).
  - exact (Hneither eq_refl eq_refl).
Defined.

Lemma arrow_array_roundtrip_witness :
  exists form p',
    Encoding_encode registry 1 "arrow-array"
      (PyArrowArray (pa_ChunkedArray pa_string [utf8_chunk])) p0 = (Ok form, p')
    /\ Encoding_decode registry 1 "arrow-array" form [] p'
       = (Ok (PyArrowArray (pa_Array utf8_chunk)), p').
Proof.
  apply (arrow_array_roundtrip registry 0
           (pa_ChunkedArray pa_string [utf8_chunk]) p0
           (registry_lookup "arrow-array")).
  by vm_compute.
Defined.

Lemma dtype_roundtrip_witness :
  Encoding_encode registry 1 "dtype"
    (PyDataType (DataType_numpy (np_datetime64 unit_ns))) p0
  = (Ok (PyStr "datetime64[ns]"), p0)
  /\ Encoding_decode registry 1 "dtype" (PyStr "datetime64[ns]") [] p0
     = (Ok (PyDataType (DataType_numpy (np_datetime64 unit_ns))), p0).
Proof.
  exact (dtype_roundtrip registry 0 (np_datetime64 unit_ns) p0
           (registry_lookup "dtype")
           (proj1 (sample_tag_ok _)) (proj2 (sample_tag_ok _))).
Defined.

Lemma dtype_arrow_roundtrip_witness :
  Encoding_encode registry 1 "dtype" (PyDataType (DataType_arrow pa_string)) p0
  = (Ok (PyStr "string"), p0)
  /\ Encoding_decode registry 1 "dtype" (PyStr "string") [] p0
     = (Ok (PyDataType (DataType_arrow pa_string)), p0).
Proof.
  exact (dtype_arrow_roundtrip registry 0 pa_string p0
           (registry_lookup "dtype") (or_introl eq_refl)).
Defined.

Lemma a123_dense : dense a123.
Proof. repeat split; done. Qed.

Lemma a123_masked_dense : dense a123_masked.
Proof. repeat split; done. Qed.

Lemma ndarray_roundtrip_witness :
  exists form p',
    Encoding_encode registry 2 "ndarray" (PyNdarray a123_masked) p0
    = (Ok form, p')
    /\ Encoding_decode registry 2 "ndarray" form [] p'
       = (Ok (PyNdarray a123_masked), p').
Proof.
  apply ndarray_roundtrip.
  - exact (registry_lookup _).
  - exact (registry_lookup _).
  - apply a123_masked_dense.
  - apply sample_tag_ok.
  - apply sample_fresh. cbn. lia.
Defined.



Lemma ndarray_object_empty_axis_witness :
  exists form,
    Encoding_encode registry 2 "ndarray" (PyNdarray no_rows) p0 = (Ok form, p0)
    /\ Encoding_decode registry 2 "ndarray" form [] p0
       = (Ok (PyNdarray {| nd_dtype := np_object; nd_shape := [0%nat];
                           nd_buffer := []; nd_items := [];
                           nd_mask := None |}), p0).
Proof.
  apply (ndarray_object_empty_axis registry 0 no_rows 3 [] p0).
  - exact (registry_lookup _).
  - exact (registry_lookup _).
  - apply sample_tag_ok.
  - repeat split; try done.
  - done.
Defined.

Lemma array_dense_roundtrip_witness :
  exists form p',
    Encoding_encode registry 3 "array" (PyNdarray a123) p0 = (Ok form, p')
    /\ Encoding_decode registry 3 "array" form [] p' = (Ok (PyNdarray a123), p').
Proof.
  apply array_dense_roundtrip.
  - exact (registry_lookup _).
  - exact (registry_lookup _).
  - exact (registry_lookup _).
  - apply a123_dense.
  - apply sample_tag_ok.
  - apply sample_fresh. cbn. lia.
Defined.

Lemma array_wrapper_witness :
  let a := PyArrowArray (pa_Array utf8_chunk) in
  exists form p',
    Encoding_encode registry 1 "arrow-array" a p0 = (Ok form, p')
    /\ Encoding_encode registry 2 "array" a p0
       = (Ok (PyDict [("type", PyStr "arrow-array"); ("data", form)]), p')
    /\ forall q,
         Encoding_decode registry 2 "array"
           (PyDict [("type", PyStr "arrow-array"); ("data", form)]) [] q
         = Encoding_decode registry 1 "arrow-array" form [] q.
Proof.
  intros a. do 2 eexists. split; [apply arrow_array_encode_eq; exact (registry_lookup _) |].
  apply array_wrapper.
  - exact (registry_lookup _).
  - done.
  - apply arrow_array_encode_eq. exact (registry_lookup _).
Defined.

Lemma binary_roundtrip_witness :
  let data := PyDict [("type", PyStr "json"); ("data", PyInt 42)] in
  exists bytes,
    binary_serialize data p2 = (Ok bytes, p2)
    /\ binary_deserialize bytes p0
       = (Ok data, {| self := self p2; uuid_calls := 0 |}).
Proof.
  intros data.
  destruct (json_dumps (metadata data (self p2))) as [text |] eqn:Htext;
    [| by vm_compute in Htext].
  apply (binary_roundtrip data text p2 p0).
  - apply (bool_decide_unpack _). by vm_compute.
  - exact Htext.
  - vm_compute in Htext. injection Htext as <-. by vm_compute.
  - vm_compute in Htext. injection Htext as <-. by vm_compute.
  - vm_compute in Htext. injection Htext as <-. by vm_compute.
Defined.

Lemma unpack_blobs_pack_blobs_witness :
  exists bytes,
    _pack_blobs [[Byte.x01]; []; [Byte.x02; Byte.x03]] = Ok bytes
    /\ _unpack_blobs bytes = Ok [[Byte.x01]; []; [Byte.x02; Byte.x03]].
Proof. apply unpack_blobs_pack_blobs. by vm_compute. Defined.

Lemma unpack_blobs_short_witness :
  _unpack_blobs [Byte.x00; Byte.x00; Byte.x00] = Raise struct_error.
Proof. apply unpack_blobs_short. cbn. lia. Defined.

Lemma unpack_blobs_wrong_length_witness :
  exists bytes,
    _pack_blobs [[Byte.x01]; [Byte.x02; Byte.x03]] = Ok bytes
    /\ _unpack_blobs (bytes ++ [Byte.x00]) = Raise AssertionError
    /\ _unpack_blobs (firstn 33 bytes) = Raise AssertionError.
Proof.
  destruct (_pack_blobs [[Byte.x01]; [Byte.x02; Byte.x03]]) as [bytes |] eqn:Hpack;
    [| by vm_compute in Hpack].
  exists bytes. split; [done |].
  destruct (unpack_blobs_wrong_length [[Byte.x01]; [Byte.x02; Byte.x03]]
              bytes [Byte.x00] 33 ltac:(by vm_compute) Hpack) as [H1 H2].
  split; [by apply H1 |]. apply H2.
  vm_compute in Hpack. injection Hpack as <-. cbn. lia.
Defined.

Lemma task_result_is_evaluate_result_witness :
  Encoding_encode registry 4 "vaex-task-result" (PyList [PyInt 1]) p0
  = Encoding_encode registry 3 "vaex-evaluate-result" (PyList [PyInt 1]) p0
  /\ Encoding_decode registry 4 "vaex-task-result" (PyList [PyInt 1]) [] p0
     = Encoding_decode registry 3 "vaex-evaluate-result" (PyList [PyInt 1]) [] p0.
Proof. apply task_result_is_evaluate_result. exact (registry_lookup _). Defined.

Lemma evaluate_result_batch_witness :
  Encoding_encode registry 3 "vaex-evaluate-result"
    (PyList [PyInt 1; PyInt 2]) p0
  = (Ok (PyList [PyDict [("type", PyStr "json"); ("data", PyInt 1)];
                 PyDict [("type", PyStr "json"); ("data", PyInt 2)]]), p0)
  /\ Encoding_decode registry 3 "vaex-evaluate-result"
       (PyList [PyDict [("type", PyStr "json"); ("data", PyInt 1)];
                PyDict [("type", PyStr "json"); ("data", PyInt 2)]]) [] p0
     = (Ok (PyList [PyInt 1; PyInt 2]), p0).
Proof.
  exact (evaluate_result_batch registry 0 [1; 2] p0
           (registry_lookup _) (registry_lookup _) (registry_lookup _)).
Defined.
End Examples2.

(** * The text envelope, and failures half way *)

Section Comprehension.
Context {A B : Type}.
Implicit Types (f : A -> result B) (g : A -> B).

Lemma comprehension_from_map f g (items : list (string * A)) acc :
  Forall (fun kv => f (snd kv) = Ok (g (snd kv))) items ->
  NoDup (dict_keys acc ++ dict_keys items) ->
  comprehension_from f items acc
  = Ok (acc ++ map (fun kv => (fst kv, g (snd kv))) items).
Proof.
  revert acc. induction items as [| [k v] items IH]; intros acc Hf Hnd;
    cbn [comprehension_from map fst snd].
  - by rewrite app_nil_r.
  - apply Forall_cons in Hf as [Hv Hf]. cbn [snd] in Hv. rewrite Hv.
    cbn [mbind result_bind]. rewrite dict_set_fresh.
    + rewrite IH; [by rewrite <- app_assoc | done |].
      unfold dict_keys in *. rewrite map_app, <- app_assoc. exact Hnd.
    + cbn [dict_keys map fst] in Hnd.
      apply NoDup_app in Hnd as (_ & Hdis & _).
      intros Hin. apply (Hdis k Hin). left.
Qed.

Lemma dict_comprehension_map f g (items : list (string * A)) :
  dict_ok items ->
  Forall (fun kv => f (snd kv) = Ok (g (snd kv))) items ->
  dict_comprehension f items = Ok (map (fun kv => (fst kv, g (snd kv))) items).
Proof.
  intros Hd Hf. unfold dict_comprehension.
  by rewrite (comprehension_from_map f g).
Qed.

Lemma comprehension_from_raise f g (before : list (string * A)) k v e after acc :
  Forall (fun kv => f (snd kv) = Ok (g (snd kv))) before ->
  f v = Raise e ->
  comprehension_from f (before ++ (k, v) :: after) acc = Raise e.
Proof.
  revert acc. induction before as [| [k' v'] before IH]; intros acc Hf Hv;
    cbn [comprehension_from app].
  - by rewrite Hv.
  - apply Forall_cons in Hf as [Hv' Hf]. cbn [snd] in Hv'. rewrite Hv'.
    cbn [mbind result_bind]. by apply IH.
Qed.
End Comprehension.

Section InlineEnvelope.
Context `{Json} `{Base64}.

(** X29: [inline.deserialize] on the text [inline.serialize] made of a
    session and a root form returns the root form and restores the blobs,
    and nothing else: the object specs and decoded objects of the reading
    session stay as they were; for a blob table with each key once, base64
    that decodes what it encoded, and a JSON text that reads back. *)
Theorem inline_roundtrip (data : pyobj) (text : string) (p q : process) :
  dict_ok (blobs (self p)) ->
  Forall (fun kv => is_ascii (b64encode (snd kv)) = true
                    /\ b64decode (b64encode (snd kv)) = Ok (snd kv))
         (blobs (self p)) ->
  json_dumps (inline_form data (self p)) = Ok text ->
  json_loads text = Ok (inline_form data (self p)) ->
  inline_serialize data p = (Ok text, p)
  /\ inline_deserialize text q
     = (Ok data,
        {| self := {| blobs := blobs (self p);
                      _object_specs := _object_specs (self q);
                      _objects := _objects (self q) |};
           uuid_calls := uuid_calls q |}).
Proof.
  intros Hd Hb Hdumps Hloads. split.
  - unfold inline_serialize. run_M. cbn [self].
    rewrite (dict_comprehension_map _
               (fun value => PyStr (string_of_list_byte (b64encode value))))
      ; [| done |].
    + fold (inline_form data (self p)). by rewrite Hdumps.
    + eapply Forall_impl; [exact Hb |].
      intros kv [Hascii _]. unfold bytes_decode_ascii. by rewrite Hascii.
  - unfold inline_deserialize. run_M. rewrite Hloads.
    unfold inline_form. cbn [getitem]. dict_lookup.
    rewrite (dict_comprehension_map _
               (fun value => match value with
                             | PyStr s =>
                               match b64decode (list_byte_of_string s) with
                               | Ok b => b
                               | Raise _ => []
                               end
                             | _ => []
                             end)).
    + cbn [self uuid_calls]. dict_lookup. do 3 f_equal.
      rewrite map_map. rewrite <- (map_id (blobs (self p))) at 2.
      apply map_ext_Forall. eapply Forall_impl; [exact Hb |].
      intros [k v] [_ Hv]. cbn [fst snd] in *.
      by rewrite list_byte_of_string_of_list_byte, Hv.
    + unfold dict_ok, dict_keys in *. by rewrite map_map.
    + apply Forall_map. eapply Forall_impl; [exact Hb |].
      intros [k v] [Hascii Hv]. cbn [fst snd] in *.
      unfold str_encode_ascii.
      rewrite list_byte_of_string_of_list_byte, Hascii.
      cbn [mbind result_bind]. by rewrite Hv.
Qed.
End InlineEnvelope.

Section InlineExamples.
Import Sample SampleBase64.

Lemma inline_roundtrip_witness :
  let data := PyDict [("type", PyStr "json"); ("data", PyInt 42)] in
  exists text,
    inline_serialize data p2 = (Ok text, p2)
    /\ inline_deserialize text p0
       = (Ok data,
          {| self := {| blobs := blobs (self p2);
                        _object_specs := [];
                        _objects := [] |};
             uuid_calls := 0 |}).
Proof.
  intros data.
  destruct (json_dumps (inline_form data (self p2))) as [text |] eqn:Htext;
    [| by vm_compute in Htext].
  exists text. apply (inline_roundtrip data text p2 p0).
  - apply (bool_decide_unpack _). by vm_compute.
  - repeat constructor.
  - exact Htext.
  - vm_compute in Htext. injection Htext as <-. by vm_compute.
Defined.
End InlineExamples.

Section PartialFailure.
Context `{Platform} `{Json} `{Base64}.

(** X28: [binary.deserialize] replaces the blobs of the session before it
    looks for the object specs: a document with data and blob_refs but
    without objects ends in [KeyError], and the session is left with the new
    blobs and its old specs. *)
Theorem binary_deserialize_missing_objects
    (bytes first : pybytes) (rest : list pybytes) (d : pydict)
    (data : pyobj) (ids : list string) (q : process) :
  _unpack_blobs bytes = Ok (first :: rest) ->
  utf8_valid first = true ->
  json_loads (string_of_list_byte first) = Ok (PyDict d) ->
  dict_get d "data" = Some data ->
  dict_get d "blob_refs" = Some (PyList (map PyStr ids)) ->
  dict_get d "objects" = None ->
  binary_deserialize bytes q
  = (Raise (KeyError (Some "objects")),
     {| self := {| blobs := dict_of_pairs (py_zip ids rest);
                   _object_specs := _object_specs (self q);
                   _objects := _objects (self q) |};
        uuid_calls := uuid_calls q |}).
Proof.
  intros Hunpack Hvalid Hloads Hdata Hrefs Hobjects.
  unfold binary_deserialize. run_M. rewrite Hunpack. cbn [fst snd].
  unfold bytes_decode_utf8. rewrite Hvalid, Hloads.
  cbn [getitem]. unfold dict_getitem. rewrite Hdata, Hrefs, Hobjects.
  by rewrite blob_ids_strs.
Qed.

(** X30: [inline.deserialize] replaces the blobs of the session before it
    looks for the root form: a document with blobs and without data ends in
    [KeyError] after the blobs were replaced. *)
Theorem inline_deserialize_missing_data
    (text : string) (d items : pydict) (decoded : list (string * pybytes))
    (q : process) :
  json_loads text = Ok (PyDict d) ->
  dict_get d "blobs" = Some (PyDict items) ->
  dict_get d "data" = None ->
  dict_comprehension
    (fun value => match value with
                  | PyStr s => b ← str_encode_ascii s; b64decode b
                  | _ => Raise AttributeError
                  end) items = Ok decoded ->
  inline_deserialize text q
  = (Raise (KeyError (Some "data")),
     {| self := {| blobs := decoded;
                   _object_specs := _object_specs (self q);
                   _objects := _objects (self q) |};
        uuid_calls := uuid_calls q |}).
Proof.
  intros Hloads Hblobs Hdata Hdecoded.
  unfold inline_deserialize. run_M. rewrite Hloads.
  cbv [mbind] in Hdecoded.
  cbn [getitem]. unfold dict_getitem. by rewrite Hblobs, Hdecoded, Hdata.
Qed.
End PartialFailure.

Section PartialFailureExamples.
Import Sample SampleBase64.

Lemma binary_deserialize_missing_objects_witness :
  let d := [("data", PyInt 7); ("blob_refs", PyList [PyStr "id-9"])] in
  exists text bytes,
    json_dumps (PyDict d) = Ok text
    /\ _pack_blobs [str_encode_utf8 text; [Byte.x2a]] = Ok bytes
    /\ binary_deserialize bytes p2
       = (Raise (KeyError (Some "objects")),
          {| self := {| blobs := [("id-9", [Byte.x2a])];
                        _object_specs := _object_specs (self p2);
                        _objects := [] |};
             uuid_calls := 2 |}).
Proof.
  intros d.
  destruct (json_dumps (PyDict d)) as [text |] eqn:Htext;
    [| by vm_compute in Htext].
  destruct (_pack_blobs [str_encode_utf8 text; [Byte.x2a]])
    as [bytes |] eqn:Hpack;
    [| vm_compute in Htext; injection Htext as <-; by vm_compute in Hpack].
  exists text, bytes. do 2 (split; [done |]).
  apply (binary_deserialize_missing_objects bytes (str_encode_utf8 text)
           [[Byte.x2a]] d (PyInt 7) ["id-9"] p2);
    try done; vm_compute in Htext; injection Htext as <-.
  - vm_compute in Hpack. injection Hpack as <-. by vm_compute.
  - by vm_compute.
  - by vm_compute.
Defined.

Lemma inline_deserialize_missing_data_witness :
  let d := [("blobs", PyDict [("id-9", PyStr "Kg==")])] in
  exists text,
    json_dumps (PyDict d) = Ok text
    /\ inline_deserialize text p2
       = (Raise (KeyError (Some "data")),
          {| self := {| blobs := [("id-9", [Byte.x2a])];
                        _object_specs := _object_specs (self p2);
                        _objects := [] |};
             uuid_calls := 2 |}).
Proof.
  intros d.
  destruct (json_dumps (PyDict d)) as [text |] eqn:Htext;
    [| by vm_compute in Htext].
  exists text. split; [done |].
  vm_compute in Htext. injection Htext as <-.
  apply (inline_deserialize_missing_data _ d [("id-9", PyStr "Kg==")]).
  - by vm_compute.
  - done.
  - done.
  - by vm_compute.
Defined.
End PartialFailureExamples.
